(** * RFID Asset Manager: the label-printer communication layer

    A shallow embedding of the printer driver of [rfid_manager.py]
    ([HoneywellPrinter], [LabelGenerator]) and of the two GUI entry points
    that call it ([ReadEncodePanel._print_label], [BatchPanel._batch_print]),
    followed by the properties of the label encoders, the language detector,
    the network sender and the print coordinator.

    Python values are represented as the program has them:
    - a [str] is the list of its Unicode code points ([list N]);
    - a [bytes] object is the list of its bytes ([list N], every entry below 256);
    - [None]-or-string arguments ([epc]) are [option] values;
    - a CSV row is a dictionary from column names to cells, a cell being a
      string or [None] ([gmap string (option (list N))]);
    - [str.lower] and [str.upper], which follow the interpreter's Unicode
      tables, are taken from the environment;
    - an operation that may raise returns a [Res], and [try]/[except] is a
      handler on it;
    - everything the program does to the outside world (probe, send, clock
      read, file write, log line, database update) is appended to a trace of
      [Event]s, and what the outside world answers (also whether a
      directory or a file can be written) is read from an [Env]. *)

From Stdlib Require Import NArith ZArith List String Ascii Bool Lia DecimalString.
From stdpp Require Import gmap strings list fin_maps.

Open Scope N_scope.

(* ===================================================================== *)
(** ** Python strings and bytes *)
(* ===================================================================== *)

Module Py.

(** A string literal of the source, as code points. *)
Definition lit (s : string) : list N :=
  map N_of_ascii (list_ascii_of_string s).

Definition nl   : list N := [10].          (* "\n"   *)
Definition crlf : list N := [13; 10].      (* "\r\n" *)
Definition dq   : list N := [34].          (* the double quote *)
Definition emdash : list N := [8212].      (* U+2014 *)

(** Truthiness of a string, [a or b], and the same for [None]-or-string. *)
Definition truthy (s : list N) : bool :=
  match s with [] => false | _ :: _ => true end.

Definition or_ (a b : list N) : list N := if truthy a then a else b.

Definition opt_truthy (o : option (list N)) : bool :=
  match o with Some s => truthy s | None => false end.

Definition opt_or (o : option (list N)) (b : list N) : list N :=
  match o with Some s => or_ s b | None => b end.

(** [a == b] on strings. *)
Fixpoint str_eqb (a b : list N) : bool :=
  match a, b with
  | [], [] => true
  | x :: a', y :: b' => (x =? y) && str_eqb a' b'
  | _, _ => false
  end.

(** [s.startswith(p)], [p in s], [s.endswith(p)]. *)
Fixpoint startswith (p s : list N) : bool :=
  match p, s with
  | [], _ => true
  | x :: p', y :: s' => (x =? y) && startswith p' s'
  | _ :: _, [] => false
  end.

Fixpoint contains (p s : list N) : bool :=
  startswith p s ||
  match s with
  | [] => false
  | _ :: s' => contains p s'
  end.

Definition endswith (p s : list N) : bool := startswith (rev p) (rev s).

(** [str.lower()] and [str.upper()] on text follow the Unicode tables of
    the interpreter that runs the program; they are taken from the
    environment ([str_lower] and [str_upper] below). On ASCII text they are
    [ascii_lower] and [upper]. *)
Definition ascii_lower_char (c : N) : N :=
  if (65 <=? c) && (c <=? 90) then c + 32 else c.

Definition ascii_lower (s : list N) : list N := map ascii_lower_char s.

(** [bytes.upper()] (exact: only the ASCII letters change), and
    [str.upper()] on ASCII text. *)
Definition upper_char (c : N) : N :=
  if (97 <=? c) && (c <=? 122) then c - 32 else c.

Definition upper (s : list N) : list N := map upper_char s.

(** [str.isspace] on one code point, and [str.strip()]. *)
Definition isspace (c : N) : bool :=
  ((9 <=? c) && (c <=? 13)) || ((28 <=? c) && (c <=? 32))
  || (c =? 133) || (c =? 160) || (c =? 5760)
  || ((8192 <=? c) && (c <=? 8202))
  || (c =? 8232) || (c =? 8233) || (c =? 8239) || (c =? 8287)
  || (c =? 12288).

Fixpoint lstrip (s : list N) : list N :=
  match s with
  | [] => []
  | c :: s' => if isspace c then lstrip s' else s
  end.

Definition rstrip (s : list N) : list N := rev (lstrip (rev s)).

Definition strip (s : list N) : list N := rstrip (lstrip s).

(** [s.split(sep)[0]] for a one-character separator. *)
Fixpoint split_head (sep : N) (s : list N) : list N :=
  match s with
  | [] => []
  | c :: s' => if c =? sep then [] else c :: split_head sep s'
  end.

(** [s.encode("latin-1", errors="replace")]. *)
Definition encode_latin1_replace (s : list N) : list N :=
  map (fun c => if c <=? 255 then c else 63) s.

(** [json.dumps] of a string (default [ensure_ascii=True]). *)
Definition hex_digit (d : N) : N := if d <? 10 then 48 + d else 87 + d.

Definition hex4 (n : N) : list N :=
  [hex_digit ((n / 4096) mod 16); hex_digit ((n / 256) mod 16);
   hex_digit ((n / 16) mod 16); hex_digit (n mod 16)].

Definition u_escape (n : N) : list N := [92; 117] ++ hex4 n.

Definition json_escape_char (c : N) : list N :=
  if c =? 92 then [92; 92]
  else if c =? 34 then [92; 34]
  else if c =? 8 then [92; 98]
  else if c =? 12 then [92; 102]
  else if c =? 10 then [92; 110]
  else if c =? 13 then [92; 114]
  else if c =? 9 then [92; 116]
  else if (32 <=? c) && (c <=? 126) then [c]
  else if c <? 65536 then u_escape c
  else
    let n := c - 65536 in
    u_escape (N.lor 55296 (N.land (N.shiftr n 10) 1023))
    ++ u_escape (N.lor 56320 (N.land n 1023)).

Definition json_string (s : list N) : list N :=
  dq ++ flat_map json_escape_char s ++ dq.

(** [json.dumps] of a [None]-or-string value. *)
Definition json_opt_string (o : option (list N)) : list N :=
  match o with
  | Some s => json_string s
  | None => lit "null"
  end.

End Py.

Import Py.

(** [str(n)] for a Python [int]. *)
Definition str_of_Z (z : Z) : list N :=
  lit (NilZero.string_of_int (Z.to_int z)).

Definition str_of_nat (n : nat) : list N := str_of_Z (Z.of_nat n).

(* ===================================================================== *)
(** ** Exceptions, the outside world, and the trace of effects *)
(* ===================================================================== *)

(** The exception classes the driver tells apart. Every one of them is a
    subclass of [Exception]; the first five are [OSError] and its subclasses
    ([socket.timeout] is [TimeoutError], [socket.gaierror] is the DNS
    failure). *)
Inductive ExcClass : Type :=
  | ConnectionRefusedError
  | TimeoutError
  | GaiError
  | FileNotFoundError
  | OSError
  | ImportError
  | AttributeError
  | OtherException.

(** An exception with [str(e)]. *)
Record PyExc : Type := mkExc { exc_class : ExcClass; exc_text : list N }.

Definition is_ConnectionRefusedError (e : PyExc) : bool :=
  match exc_class e with ConnectionRefusedError => true | _ => false end.

Definition is_FileNotFoundError (e : PyExc) : bool :=
  match exc_class e with FileNotFoundError => true | _ => false end.

Definition is_ImportError (e : PyExc) : bool :=
  match exc_class e with ImportError => true | _ => false end.

Definition is_OSError (e : PyExc) : bool :=
  match exc_class e with
  | ConnectionRefusedError | TimeoutError | GaiError | FileNotFoundError
  | OSError => true
  | ImportError | AttributeError | OtherException => false
  end.

(** The result of an operation that may raise. *)
Inductive Res (A : Type) : Type :=
  | Ok (a : A)
  | Raise (e : PyExc).
Arguments Ok {A} a.
Arguments Raise {A} e.

(** What the remote end of one TCP connection does: the outcome of
    [socket.create_connection], of [s.sendall(data)], of [s.shutdown], and
    the bytes [s.recv] finds after [data] was sent (or the exception it
    raises, a timeout when nothing comes). *)
Record Peer : Type := mkPeer {
  on_connect  : Res unit;
  on_sendall  : list N -> Res unit;
  on_shutdown : Res unit;
  on_recv     : list N -> Res (list N);
}.

(** [subprocess.run(cmd, input=data, capture_output=True)]: the return code
    and [proc.stderr.decode()]. *)
Record Completed : Type := mkCompleted {
  returncode : Z;
  stderr_decode : Res (list N);
}.

(** Effects, in the order the program performs them. *)
Inductive Event : Type :=
  | EvProbe (host : list N) (port : Z)
      (* detect_language: one probe connection to host:port *)
  | EvNetSend (host : list N) (port : Z) (data : list N)
      (* print_network: one delivery attempt of the encoded bytes *)
  | EvUsbSend (data : list N) (printer_name : option (list N))
      (* print_usb: one raw job with the encoded bytes *)
  | EvClock
      (* datetime.now() read by an encoder *)
  | EvLog (msg level : list N)
  | EvDbPrinted (asset_id : list N)
      (* db.update_asset(aid, printed_at=...) *)
  | EvMakedirs (dir : list N)
  | EvWriteFile (dir name content : list N)
      (* open(os.path.join(dir, name), "w").write(content) *)
  | EvRowFlag (i : nat) (key : string)
      (* row[key] = True on the i-th row *)
  | EvProgress (done total : nat) (aid : list N)
  | EvStatus (text : list N)
  | EvRefresh.

(** The outside world. Every answer may depend on what happened before. *)
Record Env : Type := mkEnv {
  peer : list Event -> list N -> Z -> Peer;
  clock : list Event -> list N;
      (* datetime.now().strftime("%Y-%m-%d %H:%M") *)
  platform_system : list N;
  run_proc : list Event -> list (list N) -> list N -> Res Completed;
  win32_raw_job : list Event -> option (list N) -> list N -> Res unit;
      (* the win32print RAW job: OpenPrinter .. ClosePrinter; ImportError
         when the binding is not installed *)
  parse_int : list N -> option Z;
      (* int(text); None is ValueError *)
  path_join : list N -> list N -> list N;
      (* os.path.join *)
  EXPORT_DIR : list N;
  str_lower : list N -> list N;
      (* str.lower() *)
  str_upper : list N -> list N;
      (* str.upper() *)
  makedirs : list Event -> list N -> Res unit;
      (* os.makedirs(dir, exist_ok=True) *)
  write_file : list Event -> list N -> list N -> list N -> Res unit;
      (* with open(os.path.join(dir, name), "w") as f: f.write(content) *)
}.

(** Computations that append to the trace and may raise. *)
Definition IO (A : Type) : Type := list Event -> Res A * list Event.

Definition ret {A} (a : A) : IO A := fun tr => (Ok a, tr).

Definition raise {A} (e : PyExc) : IO A := fun tr => (Raise e, tr).

Definition bind {A B} (c : IO A) (k : A -> IO B) : IO B :=
  fun tr =>
    match c tr with
    | (Ok a, tr') => k a tr'
    | (Raise e, tr') => (Raise e, tr')
    end.

Notation "x <- c ;; k" := (bind c (fun x => k))
  (at level 100, c at next level, right associativity).
Notation "c ;;; k" := (bind c (fun _ => k))
  (at level 100, right associativity).

(** [try: body except Exception as e: handler e]. *)
Definition try_except {A} (body : IO A) (handler : PyExc -> IO A) : IO A :=
  fun tr =>
    match body tr with
    | (Ok a, tr') => (Ok a, tr')
    | (Raise e, tr') => handler e tr'
    end.

Definition emit (ev : Event) : IO unit := fun tr => (Ok tt, tr ++ [ev]).

Definition get_trace : IO (list Event) := fun tr => (Ok tr, tr).

Definition lift {A} (r : Res A) : IO A := fun tr => (r, tr).

Definition log (msg level : list N) : IO unit := emit (EvLog msg level).

(** [os.makedirs(dir, exist_ok=True)], and writing [content] to the file
    [name] of [dir]: the attempt is recorded, then it succeeds or raises as
    the file system decides. *)
Definition mkdir (env : Env) (dir : list N) : IO unit :=
  fun tr => (makedirs env tr dir, tr ++ [EvMakedirs dir]).

Definition write (env : Env) (dir name content : list N) : IO unit :=
  fun tr => (write_file env tr dir name content,
             tr ++ [EvWriteFile dir name content]).

(** The same two operations on plain results. *)
Definition rbind {A B} (r : Res A) (k : A -> Res B) : Res B :=
  match r with Ok a => k a | Raise e => Raise e end.

Definition rcatch {A} (r : Res A) (handler : PyExc -> Res A) : Res A :=
  match r with Ok a => Ok a | Raise e => handler e end.

(* ===================================================================== *)
(** ** [class HoneywellPrinter] *)
(* ===================================================================== *)

Module HoneywellPrinter.

Definition MODE_NETWORK : list N := lit "network".
Definition MODE_USB     : list N := lit "usb".

(** *** The two encoders

    [ts] is [datetime.now().strftime("%Y-%m-%d %H:%M")]; [ipl_at] and
    [zpl_at] are the bodies of [ipl] and [zpl] after the clock was read. *)

Definition ipl_at (ts asset_id : list N) (epc : option (list N))
    (name location tag_type : list N) : list N :=
  [2]
  ++ lit "n" ++ crlf
  ++ lit "M t" ++ crlf
  ++ lit "S l1;c15,3" ++ crlf
  ++ lit "d PC" ++ crlf
  ++ lit "B 20,10,0,1,2,2,50,B," ++ dq ++ take 28 (or_ name asset_id) ++ dq ++ crlf
  ++ lit "T 20,70,0,3,1,1," ++ dq ++ lit "Asset ID: " ++ asset_id ++ dq ++ crlf
  ++ lit "T 20,100,0,3,1,1," ++ dq ++ lit "EPC:      "
     ++ opt_or epc (lit "UNASSIGNED") ++ dq ++ crlf
  ++ lit "T 20,128,0,3,1,1," ++ dq ++ lit "Type:     " ++ tag_type ++ dq ++ crlf
  ++ lit "T 20,150,0,3,1,1," ++ dq ++ lit "Loc:      "
     ++ or_ location emdash ++ dq ++ crlf
  ++ lit "B 20,175,0,1A,3,1,60," ++ dq ++ asset_id ++ dq ++ crlf
  ++ lit "T 20,260,0,3,1,1," ++ dq ++ ts ++ dq ++ crlf
  ++ (if opt_truthy epc
      then lit "R 1,E200," ++ opt_or epc (lit "0000000000000000000000") ++ crlf
      else [])
  ++ lit "P 1" ++ crlf
  ++ [3].

(** [json.dumps({"id": asset_id, "epc": epc or ""})]. *)
Definition qr_data (asset_id : list N) (epc : option (list N)) : list N :=
  lit "{" ++ json_string (lit "id") ++ lit ": " ++ json_string asset_id
  ++ lit ", " ++ json_string (lit "epc") ++ lit ": "
  ++ json_string (opt_or epc []) ++ lit "}".

Definition zpl_at (ts asset_id : list N) (epc : option (list N))
    (name location tag_type : list N) : list N :=
  lit "^XA" ++ nl
  ++ lit "^CI28" ++ nl
  ++ lit "^PW812" ++ nl
  ++ lit "^LL406" ++ nl
  ++ lit "^FO0,0^GB812,52,52^FS" ++ nl
  ++ lit "^FO18,10^A0N,30,30^FR^FD" ++ take 30 (or_ name asset_id) ++ lit "^FS" ++ nl
  ++ lit "^FO18,62^A0N,20,20^FDAsset: " ++ asset_id ++ lit "^FS" ++ nl
  ++ lit "^FO18,90^A0N,18,18^FDEPC: " ++ opt_or epc (lit "UNASSIGNED")
     ++ lit "^FS" ++ nl
  ++ lit "^FO18,114^A0N,16,16^FDType: " ++ tag_type ++ lit "^FS" ++ nl
  ++ lit "^FO18,136^A0N,16,16^FDLoc:  " ++ or_ location emdash ++ lit "^FS" ++ nl
  ++ lit "^FO18,162^BY2,3,55" ++ nl
  ++ lit "^BCN,55,Y,N,N" ++ nl
  ++ lit "^FD" ++ asset_id ++ lit "^FS" ++ nl
  ++ lit "^FO620,60" ++ nl
  ++ lit "^BQN,2,4" ++ nl
  ++ lit "^FDMA," ++ qr_data asset_id epc ++ lit "^FS" ++ nl
  ++ lit "^FO18,252^A0N,14,14^FD" ++ ts ++ lit "^FS" ++ nl
  ++ (if opt_truthy epc
      then lit "^RFWM," ++ opt_or epc [] ++ nl
      else [])
  ++ lit "^XZ" ++ nl.

(** *** Language detection *)

Definition probe_query : list N := lit "^XA^HH^XZ" ++ crlf.

(** [b"^" in resp or b"ZPL" in resp.upper()]. *)
Definition has_zpl_marker (resp : list N) : bool :=
  contains (lit "^") resp || contains (lit "ZPL") (upper resp).

(** The [if resp: ... return "zpl"] block of [detect_language]. *)
Definition classify_response (resp : list N) : list N :=
  if truthy resp then
    if str_eqb (take 1 resp) [2] then lit "ipl"
    else if has_zpl_marker resp
    then lit "zpl"
    else if str_eqb (take 1 resp) [2] || str_eqb (take 1 resp) [6]
            || str_eqb (take 1 resp) [21]
    then lit "ipl"
    else lit "zpl"
  else lit "zpl".

(** [detect_language] against one peer: the outer [try] around the
    connection, the inner [try] around [recv]. *)
(** [try: resp = s.recv(256) except Exception: resp = b""]. *)
Definition probe_response (p : Peer) : list N :=
  match on_recv p probe_query with
  | Ok r => take 256 r
  | Raise _ => []
  end.

Definition detect_language_on (p : Peer) : Res (list N) :=
  rcatch
    (rbind (on_connect p) (fun _ =>
     rbind (on_sendall p probe_query) (fun _ =>
     (* time.sleep(0.6); s.settimeout(1.5) *)
     let resp := probe_response p in
     Ok (classify_response resp))))
    (fun _ => Ok (lit "unknown")).

(** *** Network delivery *)

Definition msg_refused (host : list N) (port : Z) : list N :=
  lit "Connection refused " ++ emdash ++ lit " is printer online at "
  ++ host ++ lit ":" ++ str_of_Z port ++ lit "?".

Definition msg_timeout (host : list N) (port : Z) : list N :=
  lit "Timeout " ++ emdash ++ lit " printer not responding at "
  ++ host ++ lit ":" ++ str_of_Z port.

Definition msg_nack : list N :=
  lit "Printer returned NACK (check label format)".

(** [print_network] against one peer. [data] is the label text, [lower]
    is [str.lower]. *)
Definition print_network_on (lower : list N -> list N) (p : Peer)
    (host : list N) (data : list N) (port : Z) : Res (bool * list N) :=
  rcatch
    (rbind (on_connect p) (fun _ =>
     let data := encode_latin1_replace data in
     rbind (on_sendall p data) (fun _ =>
     rbind (on_shutdown p) (fun _ =>
     (* s.settimeout(1.0) *)
     let nack :=
       match on_recv p data with
       | Ok r =>
           let resp := take 64 r in
           truthy resp && str_eqb (take 1 resp) [21]
       | Raise _ => false
       end in
     if nack then Ok (false, msg_nack) else Ok (true, lit "OK")))))
    (fun e =>
       if is_ConnectionRefusedError e then Ok (false, msg_refused host port)
       else if is_OSError e then
         if contains (lit "timed out") (lower (exc_text e))
         then Ok (false, msg_timeout host port)
         else Ok (false, exc_text e)
       else Ok (false, exc_text e)).

(** *** USB delivery *)

Definition usb_cmd (base : list (list N)) (flag : list N)
    (printer_name : option (list N)) : list (list N) :=
  if opt_truthy printer_name then base ++ [flag; opt_or printer_name []]
  else base.

(** [print_usb] on one platform, with what the spooler does. *)
Definition print_usb_on (system : list N)
    (run : list (list N) -> list N -> Res Completed)
    (raw_job : option (list N) -> list N -> Res unit)
    (data : list N) (printer_name : option (list N)) : Res (bool * list N) :=
  let data := encode_latin1_replace data in
  rcatch
    (if str_eqb system (lit "Darwin") then
       let cmd := usb_cmd [lit "lpr"; lit "-l"] (lit "-P") printer_name in
       rbind (run cmd data) (fun proc =>
       if negb (returncode proc =? 0)%Z then
         rbind (stderr_decode proc) (fun err =>
         Ok (false,
             or_ (strip err)
                 (lit "lpr failed (check printer name in Settings)")))
       else Ok (true, lit "OK"))
     else if str_eqb system (lit "Windows") then
       rcatch
         (rbind (raw_job printer_name data) (fun _ => Ok (true, lit "OK")))
         (fun e =>
            if is_ImportError e then
              Ok (false,
                  lit "win32print not installed " ++ emdash
                  ++ lit " run: pip install pywin32")
            else Raise e)
     else
       let cmd :=
         usb_cmd [lit "lp"; lit "-o"; lit "raw"] (lit "-d") printer_name in
       rbind (run cmd data) (fun proc =>
       if negb (returncode proc =? 0)%Z then
         rbind (stderr_decode proc) (fun err => Ok (false, strip err))
       else Ok (true, lit "OK")))
    (fun e =>
       if is_FileNotFoundError e then
         Ok (false,
             lit "lpr/lp not found " ++ emdash
             ++ lit " ensure CUPS is installed")
       else Ok (false, exc_text e)).

Section WithEnv.

Variable env : Env.

Definition ipl (asset_id : list N) (epc : option (list N))
    (name location tag_type : list N) : IO (list N) :=
  tr <- get_trace ;;
  emit EvClock ;;;
  ret (ipl_at (clock env tr) asset_id epc name location tag_type).

Definition zpl (asset_id : list N) (epc : option (list N))
    (name location tag_type : list N) : IO (list N) :=
  tr <- get_trace ;;
  emit EvClock ;;;
  ret (zpl_at (clock env tr) asset_id epc name location tag_type).

Definition detect_language (host : list N) (port : Z) : IO (list N) :=
  tr <- get_trace ;;
  emit (EvProbe host port) ;;;
  lift (detect_language_on (peer env tr host port)).

Definition print_network (host : list N) (data : list N) (port : Z)
    : IO (bool * list N) :=
  tr <- get_trace ;;
  emit (EvNetSend host port (encode_latin1_replace data)) ;;;
  lift (print_network_on (str_lower env) (peer env tr host port) host data port).

Definition print_usb (data : list N) (printer_name : option (list N))
    : IO (bool * list N) :=
  tr <- get_trace ;;
  emit (EvUsbSend (encode_latin1_replace data) printer_name) ;;;
  lift (print_usb_on (platform_system env) (run_proc env tr)
          (win32_raw_job env tr) data printer_name).

(** [print_label]. [host] is the empty string for both [None] and [""]:
    only its truthiness is looked at before it is used. *)
Definition print_label (asset_id : list N) (epc : option (list N))
    (name location tag_type : list N) (mode host : list N) (port : Z)
    (printer_name : option (list N)) (language : list N)
    : IO (bool * list N * list N) :=
  lang <-
    (if str_eqb language (lit "auto") then
       if str_eqb mode MODE_NETWORK && truthy host then
         detected <- detect_language host port ;;
         ret (if str_eqb detected (lit "ipl") then lit "ipl" else lit "zpl")
       else ret (lit "zpl")
     else ret (str_lower env language)) ;;
  data <-
    (if str_eqb lang (lit "ipl")
     then ipl asset_id epc name location tag_type
     else zpl asset_id epc name location tag_type) ;;
  if str_eqb mode MODE_NETWORK then
    if negb (truthy host) then
      ret (false, lit "No printer IP address configured", lang)
    else
      r <- print_network host data port ;;
      ret (fst r, snd r, lang)
  else
    r <- print_usb data printer_name ;;
    ret (fst r, snd r, lang).

End WithEnv.

End HoneywellPrinter.

(* ===================================================================== *)
(** ** [class LabelGenerator] *)
(* ===================================================================== *)

Module LabelGenerator.

(** [json.dumps({"id": asset_id, "epc": epc, "type": tag_type})]. *)
Definition qr_data (asset_id : list N) (epc : option (list N))
    (tag_type : list N) : list N :=
  lit "{" ++ json_string (lit "id") ++ lit ": " ++ json_string asset_id
  ++ lit ", " ++ json_string (lit "epc") ++ lit ": " ++ json_opt_string epc
  ++ lit ", " ++ json_string (lit "type") ++ lit ": " ++ json_string tag_type
  ++ lit "}".

(** [LabelGenerator.zpl] after the clock was read: one triple-quoted
    template, no line break after the end marker. *)
Definition zpl_at (ts asset_id : list N) (epc : option (list N))
    (name location tag_type : list N) : list N :=
  lit "^XA" ++ nl
  ++ lit "^CI28" ++ nl
  ++ lit "^PW812" ++ nl
  ++ lit "^LL406" ++ nl
  ++ lit "^LH0,0" ++ nl
  ++ nl
  ++ lit "^FO30,20^A0N,28,28^FD" ++ or_ name asset_id ++ lit "^FS" ++ nl
  ++ lit "^FO30,60^A0N,18,18^FDAsset: " ++ asset_id ++ lit "^FS" ++ nl
  ++ lit "^FO30,90^A0N,18,18^FDEPC: " ++ opt_or epc (lit "UNASSIGNED")
     ++ lit "^FS" ++ nl
  ++ lit "^FO30,118^A0N,16,16^FDType: " ++ tag_type ++ lit "^FS" ++ nl
  ++ lit "^FO30,140^A0N,16,16^FDLoc: " ++ or_ location emdash ++ lit "^FS" ++ nl
  ++ nl
  ++ lit "^FO30,175^BY2,3,60" ++ nl
  ++ lit "^BCN,60,Y,N,N" ++ nl
  ++ lit "^FD" ++ asset_id ++ lit "^FS" ++ nl
  ++ nl
  ++ lit "^FO600,20" ++ nl
  ++ lit "^BQN,2,4" ++ nl
  ++ lit "^FDMA," ++ qr_data asset_id epc tag_type ++ lit "^FS" ++ nl
  ++ nl
  ++ lit "^FO30,260^A0N,14,14^FD" ++ ts ++ lit "^FS" ++ nl
  ++ lit "^FO600,260^A0N,14,14^FDverified^FS" ++ nl
  ++ nl
  ++ lit "^RFWM," ++ opt_or epc (lit "0000000000000000000000") ++ nl
  ++ lit "^XZ".

Definition zpl (env : Env) (asset_id : list N) (epc : option (list N))
    (name location tag_type : list N) : IO (list N) :=
  tr <- get_trace ;;
  emit EvClock ;;;
  ret (zpl_at (clock env tr) asset_id epc name location tag_type).

End LabelGenerator.

(* ===================================================================== *)
(** ** The GUI entry points *)
(* ===================================================================== *)

(** [self.db.get_setting(key)]: the settings table, [None] for a missing key. *)
Definition get_setting (settings : gmap string (list N)) (key : string)
    : option (list N) := settings !! key.

(** [x or None]. *)
Definition or_None (o : option (list N)) : option (list N) :=
  match o with
  | Some s => if truthy s then Some s else None
  | None => None
  end.

(** [v.split("(")[0].strip()]: the tag type shown on the label. *)
Definition tag_type_label (v : list N) : list N := strip (split_head 40 v).

(** [ext = "ipl" if (x == "ipl") else "zpl"]. *)
Definition ext_of (x : list N) : list N :=
  if str_eqb x (lit "ipl") then lit "ipl" else lit "zpl".

(** [f"{aid}.{ext}"]. *)
Definition label_file_name (aid ext : list N) : list N := aid ++ lit "." ++ ext.

Module ReadEncodePanel.

Section WithEnv.

Variable env : Env.
Variable settings : gmap string (list N).

(** [_print_label]; the worker thread is run to its end. The arguments
    are the contents of the form fields. *)
Definition _print_label (v_asset_id v_epc v_name v_location v_tag_type : list N)
    : IO unit :=
  let aid := strip v_asset_id in
  let epc := strip v_epc in
  if negb (truthy aid) then
    log (lit "Enter Asset ID first") (lit "error")
  else
    let mode := opt_or (get_setting settings "print_mode") (lit "network") in
    let host := opt_or (get_setting settings "printer_ip") [] in
    port <-
      (match or_None (get_setting settings "printer_port") with
       | Some s =>
           match parse_int env s with
           | Some z => ret z
           | None =>
               raise (mkExc OtherException
                        (lit "invalid literal for int() with base 10"))
           end
       | None => ret 9100%Z
       end) ;;
    let usbname := or_None (get_setting settings "printer_usb_name") in
    let lang := opt_or (get_setting settings "printer_lang") (lit "auto") in
    (* _worker *)
    log (lit "Sending label to Honeywell PC42t (" ++ mode ++ lit ")" ++ [8230])
        (lit "info") ;;;
    r <- HoneywellPrinter.print_label env aid (or_None (Some epc)) v_name
           v_location (tag_type_label v_tag_type) mode host port usbname
           lang ;;
    let '(ok, msg, lang_used) := r in
    (if ok : bool then
       log ([10004] ++ lit " Label printed OK " ++ emdash ++ lit " " ++ aid
            ++ lit "  [" ++ str_upper env lang_used ++ lit "]") (lit "ok") ;;;
       emit (EvDbPrinted aid)
     else
       log ([10006] ++ lit " Printer error: " ++ msg) (lit "error")) ;;;
    (* Always save ZPL/IPL to file as backup *)
    let export_dir := opt_or (get_setting settings "export_dir") (EXPORT_DIR env) in
    mkdir env export_dir ;;;
    let ext := ext_of lang in
    let name := label_file_name aid ext in
    label_data <-
      (if str_eqb ext (lit "ipl")
       then HoneywellPrinter.ipl env aid (Some epc) v_name v_location
              (tag_type_label v_tag_type)
       else HoneywellPrinter.zpl env aid (Some epc) v_name v_location
              (tag_type_label v_tag_type)) ;;
    write env export_dir name label_data ;;;
    log (lit "Label file saved: " ++ path_join env export_dir name) (lit "info").

End WithEnv.

End ReadEncodePanel.

Module BatchPanel.

(** The three counters of the worker. *)
Record Summary : Type := mkSummary {
  success : nat;
  errors  : nat;
  skipped : nat;
}.

(** A cell of an imported CSV row. [csv.DictReader] gives every column of
    the header a cell; on a line with fewer fields than the header the
    missing cells are [None]. A row is the [dict] of its cells. *)
Abbreviation Cell := (option (list N)).
Abbreviation Row := (gmap string (option (list N))).

(** [row.get(key, dflt)]: the cell when the row has the column (also when
    the cell is [None]), the default otherwise. *)
Definition row_get (row : Row) (key : string) (dflt : list N) : Cell :=
  match row !! key with
  | Some c => c
  | None => Some dflt
  end.

(** [c.strip()] and [c.split("(")[0].strip()] on a cell: [AttributeError]
    on [None]. *)
Definition cell_strip (c : Cell) : Res (list N) :=
  match c with
  | Some s => Ok (strip s)
  | None =>
      Raise (mkExc AttributeError
               (lit "'NoneType' object has no attribute 'strip'"))
  end.

Definition cell_tag_type (c : Cell) : Res (list N) :=
  match c with
  | Some s => Ok (tag_type_label s)
  | None =>
      Raise (mkExc AttributeError
               (lit "'NoneType' object has no attribute 'split'"))
  end.

(** The name and the location are passed on as they are; the encoders read
    them only as [name or asset_id] and [location or ...], where [None]
    and the empty string act alike. *)
Definition cell_text (c : Cell) : list N := default [] c.

Section WithEnv.

Variable env : Env.

(** The body of [for i, row in enumerate(self._rows)], from the [i]-th
    row on, with the counters so far. An exception raised inside the loop
    ends the worker. *)
Fixpoint batch_loop (mode host : list N) (port : Z)
    (usbname : option (list N)) (effective_lang export_dir : list N)
    (total i : nat) (rows : list Row) (cnt : Summary)
    : IO Summary :=
  match rows with
  | [] => ret cnt
  | row :: rest =>
      aid <- lift (cell_strip (row_get row "asset_id" [])) ;;
      epc_text <- lift (cell_strip (row_get row "epc" [])) ;;
      let epc  := or_None (Some epc_text) in
      let name := cell_text (row_get row "name" []) in
      let loc  := cell_text (row_get row "location" []) in
      let typ  := row_get row "type" (lit "Standard (Plastic)") in
      if negb (truthy aid) then
        batch_loop mode host port usbname effective_lang export_dir total
          (S i) rest
          (mkSummary (success cnt) (errors cnt) (skipped cnt + 1))
      else
        tag_type <- lift (cell_tag_type typ) ;;
        r <- HoneywellPrinter.print_label env aid epc name loc
               tag_type mode host port usbname effective_lang ;;
        let '(ok, msg, lang_used) := r in
        cnt' <-
          (if ok : bool then
             emit (EvRowFlag i "_printed") ;;;
             (* Save label file *)
             let ext := ext_of lang_used in
             data <-
               (if str_eqb ext (lit "ipl")
                then HoneywellPrinter.ipl env aid epc name loc tag_type
                else HoneywellPrinter.zpl env aid epc name loc tag_type) ;;
             write env export_dir (label_file_name aid ext) data ;;;
             ret (mkSummary (success cnt + 1) (errors cnt) (skipped cnt))
           else
             emit (EvRowFlag i "_error") ;;;
             log (lit "Print failed [" ++ aid ++ lit "]: " ++ msg)
                 (lit "warn") ;;;
             ret (mkSummary (success cnt) (errors cnt + 1) (skipped cnt))) ;;
        emit (EvProgress (i + 1) total aid) ;;;
        batch_loop mode host port usbname effective_lang export_dir total
          (S i) rest cnt'
  end.

Definition done_text (s : Summary) : list N :=
  lit "Done: " ++ str_of_nat (success s) ++ lit " printed"
  ++ (if (0 <? errors s)%nat
      then lit ", " ++ str_of_nat (errors s) ++ lit " failed" else [])
  ++ (if (0 <? skipped s)%nat
      then lit ", " ++ str_of_nat (skipped s) ++ lit " skipped" else []).

Definition complete_text (s : Summary) : list N :=
  lit "Batch print complete " ++ emdash ++ lit " "
  ++ str_of_nat (success s) ++ lit " OK, "
  ++ str_of_nat (errors s) ++ lit " failed, "
  ++ str_of_nat (skipped s) ++ lit " skipped".

(** [_batch_print] on the imported rows; the worker thread is run to its
    end. The result is [None] when there was nothing to print, and the
    final counters otherwise. *)
Definition _batch_print (settings : gmap string (list N))
    (rows : list Row) : IO (option Summary) :=
  match rows with
  | [] =>
      log (lit "No rows loaded " ++ emdash ++ lit " import CSV first")
          (lit "warn") ;;;
      ret None
  | _ :: _ =>
      let mode := opt_or (get_setting settings "print_mode") (lit "network") in
      let host := opt_or (get_setting settings "printer_ip") [] in
      let port_str := opt_or (get_setting settings "printer_port") (lit "9100") in
      let usbname := or_None (get_setting settings "printer_usb_name") in
      let lang := opt_or (get_setting settings "printer_lang") (lit "auto") in
      let port :=
        match parse_int env port_str with
        | Some z => z
        | None => 9100%Z
        end in
      (* _worker *)
      let total := length rows in
      (* Detect language once for network mode to avoid per-label probing *)
      effective_lang <-
        (if str_eqb lang (lit "auto") && str_eqb mode (lit "network")
            && truthy host
         then
           log (lit "Probing printer language" ++ [8230]) (lit "info") ;;;
           detected <- HoneywellPrinter.detect_language env host port ;;
           let effective_lang :=
             if str_eqb detected (lit "ipl") then lit "ipl" else lit "zpl" in
           log (lit "Printer language: " ++ upper effective_lang) (lit "ok") ;;;
           ret effective_lang
         else ret lang) ;;
      let export_dir :=
        opt_or (get_setting settings "export_dir") (EXPORT_DIR env) in
      mkdir env export_dir ;;;
      s <- batch_loop mode host port usbname effective_lang export_dir
             total 0 rows (mkSummary 0 0 0) ;;
      emit (EvStatus (done_text s)) ;;;
      log (complete_text s) (lit "ok") ;;;
      emit EvRefresh ;;;
      ret (Some s)
  end.

End WithEnv.

End BatchPanel.

(* ===================================================================== *)
(** ** Predicates used to state the properties *)
(* ===================================================================== *)

(** [c] does not occur in [s]. *)
Definition free_of (c : N) (s : list N) : bool :=
  forallb (fun x => negb (x =? c)) s.

(** [s] begins with the character [b]; [s] ends with the character [a]. *)
Definition starts_with_char (b : N) (s : list N) : bool :=
  match s with
  | [] => false
  | c :: _ => c =? b
  end.

Fixpoint ends_with_char (a : N) (s : list N) : bool :=
  match s with
  | [] => false
  | c :: t =>
      match t with
      | [] => c =? a
      | _ :: _ => ends_with_char a t
      end
  end.

(** Nowhere in [s] is [a] immediately followed by [b]. *)
Fixpoint bigram_free (a b : N) (s : list N) : bool :=
  match s with
  | [] => true
  | c :: t => negb ((c =? a) && starts_with_char b t) && bigram_free a b t
  end.

(** A piece of label text into which no [a],[b] pair can be completed from
    the left: no such pair inside, and no [b] in front. *)
Definition closed_piece (a b : N) (s : list N) : bool :=
  bigram_free a b s && negb (starts_with_char b s).

(** The lead-in of the RFID directive of each dialect: the ZPL command
    [^RFWM,], and the IPL command [R 1,E200,] at the start of a line. *)
Definition zpl_rfid_directive : list N := lit "^RFWM,".
Definition ipl_rfid_directive : list N := [10] ++ lit "R 1,E200,".

(** The number of probes, and of delivery attempts, in a trace. *)
Definition is_probe (ev : Event) : bool :=
  match ev with EvProbe _ _ => true | _ => false end.

Definition is_send (ev : Event) : bool :=
  match ev with EvNetSend _ _ _ | EvUsbSend _ _ => true | _ => false end.

Definition is_clock (ev : Event) : bool :=
  match ev with EvClock => true | _ => false end.

Definition is_write (ev : Event) : bool :=
  match ev with EvWriteFile _ _ _ => true | _ => false end.

Fixpoint count_events (f : Event -> bool) (tr : list Event) : nat :=
  match tr with
  | [] => 0%nat
  | ev :: tr' => ((if f ev then 1 else 0) + count_events f tr')%nat
  end.

(** The delivery attempts and the file writes of a trace, in order. *)
Definition sends_and_writes (tr : list Event) : list Event :=
  List.filter (fun ev => is_send ev || is_write ev) tr.

(** The language [print_label] resolves, given what the probe returned. *)
Definition lang_of_detected (detected : list N) : list N :=
  if str_eqb detected (lit "ipl") then lit "ipl" else lit "zpl".

(** The asset id of a row is empty once trimmed. *)
Definition empty_id (row : BatchPanel.Row) : bool :=
  match BatchPanel.row_get row "asset_id" [] with
  | Some a => negb (truthy (strip a))
  | None => false
  end.

(** The number of rows of a batch whose asset id is empty once trimmed. *)
Fixpoint count_empty_ids (rows : list BatchPanel.Row) : nat :=
  match rows with
  | [] => 0%nat
  | row :: rest =>
      ((if empty_id row then 1 else 0) + count_empty_ids rest)%nat
  end.

(** The cells the batch loop calls a string method on hold text: the asset
    id and the payload of every row, and the tag type of a row that has an
    asset id. (The lines of a CSV file that are as long as its header give
    such rows.) *)
Definition row_reads (row : BatchPanel.Row) : bool :=
  match BatchPanel.row_get row "asset_id" [],
        BatchPanel.row_get row "epc" [] with
  | Some a, Some _ =>
      if truthy (strip a)
      then match BatchPanel.row_get row "type" (lit "Standard (Plastic)") with
           | Some _ => true
           | None => false
           end
      else true
  | _, _ => false
  end.

(** What [print_label] does, step by step: the language it resolves with
    the events of resolving it, the text it renders, and the delivery
    attempt it makes. *)
Definition resolve_language (env : Env) (tr : list Event) (mode host : list N)
    (port : Z) (language : list N) : list N * list Event :=
  if str_eqb language (lit "auto") then
    if str_eqb mode HoneywellPrinter.MODE_NETWORK && truthy host then
      (match HoneywellPrinter.detect_language_on (peer env tr host port) with
       | Ok detected => lang_of_detected detected
       | Raise _ => lit "zpl"
       end,
       [EvProbe host port])
    else (lit "zpl", [])
  else (str_lower env language, []).

Definition rendered (ts lang asset_id : list N) (epc : option (list N))
    (name location tag_type : list N) : list N :=
  if str_eqb lang (lit "ipl")
  then HoneywellPrinter.ipl_at ts asset_id epc name location tag_type
  else HoneywellPrinter.zpl_at ts asset_id epc name location tag_type.

Definition delivery_events (mode host : list N) (port : Z)
    (printer_name : option (list N)) (data : list N) : list Event :=
  if str_eqb mode HoneywellPrinter.MODE_NETWORK then
    if truthy host then [EvNetSend host port (encode_latin1_replace data)]
    else []
  else [EvUsbSend (encode_latin1_replace data) printer_name].

Definition delivery_result (env : Env) (tr : list Event) (mode host : list N)
    (port : Z) (printer_name : option (list N)) (data : list N)
    : Res (bool * list N) :=
  if str_eqb mode HoneywellPrinter.MODE_NETWORK then
    if truthy host
    then HoneywellPrinter.print_network_on (str_lower env)
           (peer env tr host port) host data port
    else Ok (false, lit "No printer IP address configured")
  else HoneywellPrinter.print_usb_on (platform_system env) (run_proc env tr)
         (win32_raw_job env tr) data printer_name.

(** Whether the delivery attempt [ev], made after the events [before], was
    reported as a success by [print_network] or [print_usb]; the other
    events are no attempts. *)
Definition attempt_ok (env : Env) (before : list Event) (ev : Event) : bool :=
  match ev with
  | EvNetSend host port bytes =>
      match HoneywellPrinter.print_network_on (str_lower env)
              (peer env before host port) host bytes port with
      | Ok (ok, _) => ok
      | Raise _ => false
      end
  | EvUsbSend bytes printer_name =>
      match HoneywellPrinter.print_usb_on (platform_system env)
              (run_proc env before) (win32_raw_job env before) bytes
              printer_name with
      | Ok (ok, _) => ok
      | Raise _ => false
      end
  | _ => false
  end.

(** The number of successful delivery attempts among the events [evs] that
    follow [before]. *)
Fixpoint delivered (env : Env) (before evs : list Event) : nat :=
  match evs with
  | [] => 0%nat
  | ev :: rest =>
      ((if attempt_ok env before ev then 1 else 0)
       + delivered env (before ++ [ev]) rest)%nat
  end.

(** The exception that ends a delivery over the connection [p], if any:
    the first of connecting, writing [bytes] and closing the write side
    that raises. *)
Definition first_failure (p : Peer) (bytes : list N) : option PyExc :=
  match on_connect p with
  | Raise e => Some e
  | Ok _ =>
      match on_sendall p bytes with
      | Raise e => Some e
      | Ok _ =>
          match on_shutdown p with
          | Raise e => Some e
          | Ok _ => None
          end
      end
  end.

(** *** Sample printers and hosts, for the concrete cases *)

(** A printer that accepts the connection and the bytes and sends nothing
    back (the read times out). *)
Definition quiet_peer : Peer :=
  mkPeer (Ok tt) (fun _ => Ok tt) (Ok tt)
    (fun _ => Raise (mkExc TimeoutError (lit "timed out"))).

(** A printer that accepts everything and answers [resp]. *)
Definition answering (resp : list N) : Peer :=
  mkPeer (Ok tt) (fun _ => Ok tt) (Ok tt) (fun _ => Ok resp).

(** Nobody listens on the port. *)
Definition refusing_peer : Peer :=
  mkPeer (Raise (mkExc ConnectionRefusedError
                   (lit "[Errno 111] Connection refused")))
    (fun _ => Ok tt) (Ok tt) (fun _ => Ok []).

(** [int(text)] on plain decimal digits. *)
Fixpoint digits_value (acc : Z) (s : list N) : option Z :=
  match s with
  | [] => Some acc
  | c :: s' =>
      if (48 <=? c) && (c <=? 57)
      then digits_value (10 * acc + Z.of_N (c - 48))%Z s'
      else None
  end.

Definition sample_parse_int (s : list N) : option Z :=
  match s with
  | [] => None
  | _ :: _ => digits_value 0%Z s
  end.

(** A Linux host at a fixed minute, facing the printer [p]; directories
    can be made and files written, unless [strict] is set: then a file
    whose name holds a slash cannot be opened (the export directory has no
    subdirectories). The sample texts are ASCII, where [str.lower] and
    [str.upper] are [ascii_lower] and [upper]. *)
Definition host_env (strict : bool) (p : Peer) : Env :=
  mkEnv (fun _ _ _ => p)
        (fun _ => lit "2026-11-03 10:15")
        (lit "Linux")
        (fun _ _ _ => Ok (mkCompleted 0%Z (Ok [])))
        (fun _ _ _ => Ok tt)
        sample_parse_int
        (fun a b => a ++ lit "/" ++ b)
        (lit "/home/op/rfid_exports")
        ascii_lower
        upper
        (fun _ _ => Ok tt)
        (fun _ _ name _ =>
           if strict && contains (lit "/") name
           then Raise (mkExc FileNotFoundError
                         (lit "[Errno 2] No such file or directory"))
           else Ok tt).

(** The host of the samples, whose sample files have plain names; and the
    same host where a name with a slash is refused. *)
Definition sample_env (p : Peer) : Env := host_env false p.


(** The connection attempt runs into the socket timeout. *)
Definition unreachable_peer : Peer :=
  mkPeer (Raise (mkExc TimeoutError (lit "timed out")))
    (fun _ => Ok tt) (Ok tt) (fun _ => Ok []).

(** Settings with only the printer address filled in: network mode,
    automatic language, port 9100. *)
Definition sample_settings : gmap string (list N) :=
  {[ "printer_ip" := lit "192.168.1.50" ]}.

(** An imported CSV row of a file whose header is [asset_id,name]. *)
Definition sample_row (asset_id name : list N) : BatchPanel.Row :=
  <[ "asset_id" := Some asset_id ]> (<[ "name" := Some name ]> ∅).

(** The row [csv.DictReader] makes of the line [,Monitor] under the header
    [asset_id,name,epc]: the line is one field short, the last cell is
    [None]. *)
Definition short_row : BatchPanel.Row :=
  <[ "asset_id" := Some [] ]>
    (<[ "name" := Some (lit "Monitor") ]> (<[ "epc" := None ]> ∅)).

Definition sample_ts       : list N := lit "2026-11-03 10:15".
Definition sample_asset_id : list N := lit "HOSP-EQP-000001".
Definition sample_epc      : list N := lit "E2001122334455667788990011".
Definition sample_name     : list N := lit "Infusion Pump".
Definition sample_location : list N := lit "Ward A".
Definition sample_tag_type : list N := lit "Standard".
Definition sample_host     : list N := lit "192.168.1.50".

(* ===================================================================== *)
(** ** More of the program: reader, id counter, settings, asset table *)
(* ===================================================================== *)

(** Every character is printable ASCII; every entry is a byte; every
    character is an upper-case hexadecimal digit. *)
Definition printable_ascii (s : list N) : bool :=
  forallb (fun c => (32 <=? c) && (c <=? 126)) s.

Definition all_bytes (s : list N) : bool := forallb (fun c => c <? 256) s.

Definition upper_hex (s : list N) : bool :=
  forallb (fun c => ((48 <=? c) && (c <=? 57)) || ((65 <=? c) && (c <=? 70))) s.

(** Every character is ASCII (the range on which [upper] is [str.upper]). *)
Definition ascii_only (s : list N) : bool := forallb (fun c => c <? 128) s.

(** What [print_network] reads back after the label was written:
    [resp = s.recv(64)], nothing when the read fails. *)
Definition printer_answer (p : Peer) (bytes : list N) : list N :=
  match on_recv p bytes with
  | Ok r => take 64 r
  | Raise _ => []
  end.

(** The command line [print_usb] runs on a platform, if it runs one. *)
Definition usb_command (system : list N) (printer_name : option (list N))
    : option (list (list N)) :=
  if str_eqb system (lit "Darwin")
  then Some (HoneywellPrinter.usb_cmd [lit "lpr"; lit "-l"] (lit "-P") printer_name)
  else if str_eqb system (lit "Windows") then None
  else Some (HoneywellPrinter.usb_cmd [lit "lp"; lit "-o"; lit "raw"] (lit "-d")
               printer_name).

(** *** [class RFIDReader] *)

Module RFIDReader.

(** A tag as the hardware library reports it; [rssi] may be missing. *)
Record Tag : Type := mkTag { tag_epc : list N; tag_rssi : option Z }.

(** The bound hardware ([rfid.RFIDReader()]): what [scan()] and
    [write_epc(epc)] do. *)
Record Hardware : Type := mkHardware {
  scan : Res (list Tag);
  hw_write_epc : list N -> Res unit;
}.

(** The reader object: [self.connected] and [self.reader]. *)
Record Reader : Type := mkReader {
  connected : bool;
  reader : option Hardware;
}.

(** A result, or [RuntimeError(text)]. *)
Inductive Outcome (A : Type) : Type :=
  | Done (a : A)
  | RuntimeError (text : list N).
Arguments Done {A} a.
Arguments RuntimeError {A} text.

(** [__init__] and [_connect]: [construct] is what [rfid.RFIDReader()]
    does when the library is there. *)
Definition _connect (RFID_AVAILABLE : bool) (construct : Res Hardware) : Reader :=
  if negb RFID_AVAILABLE then mkReader false None
  else
    match construct with
    | Ok h => mkReader true (Some h)
    | Raise _ => mkReader false None
    end.

(** The random generator is any sequence of draws [rnd 0], [rnd 1], ...;
    [random.choices(population, k=k)] picks the element a draw selects, and
    [random.randint(a, b)] the integer of [a..b] a draw selects. *)
Definition choices (rnd : nat -> N) (population : list N) (k : nat) : list N :=
  map (fun i => List.nth (N.to_nat (rnd i mod N.of_nat (length population)))
                  population 0)
      (seq 0 k).

Definition randint (draw : N) (a b : Z) : Z :=
  (a + Z.of_N draw mod (b - a + 1))%Z.

Definition read_epc (RFID_AVAILABLE : bool) (rnd : nat -> N) (r : Reader)
    : Outcome (list N * Z) :=
  if negb (connected r) || negb RFID_AVAILABLE then
    (* Demo simulation *)
    let fake := lit "E2" ++ choices rnd (lit "0123456789ABCDEF") 22 in
    Done (fake, (-65 + randint (rnd 22%nat) (-10) 10)%Z)
  else
    match reader r with
    | None => RuntimeError (lit "'NoneType' object has no attribute 'scan'")
    | Some h =>
        match scan h with
        | Raise e => RuntimeError (exc_text e)
        | Ok [] => RuntimeError (lit "No tag detected")
        | Ok (tag :: _) => Done (tag_epc tag, default 0%Z (tag_rssi tag))
        end
    end.

Definition write_epc (RFID_AVAILABLE : bool) (r : Reader) (epc : list N)
    : Outcome bool :=
  if negb (connected r) || negb RFID_AVAILABLE then
    (* time.sleep(0.3): simulate write delay *)
    Done true
  else
    match reader r with
    | None => RuntimeError (lit "'NoneType' object has no attribute 'write_epc'")
    | Some h =>
        match hw_write_epc h epc with
        | Ok _ => Done true
        | Raise e => RuntimeError (exc_text e)
        end
    end.

Definition verify_epc (RFID_AVAILABLE : bool) (rnd : nat -> N) (r : Reader)
    (expected_epc : list N) : Outcome (bool * list N * Z) :=
  match read_epc RFID_AVAILABLE rnd r with
  | Done (epc, rssi) => Done (str_eqb (upper epc) (upper expected_epc), epc, rssi)
  | RuntimeError t => RuntimeError t
  end.

End RFIDReader.

(** *** [class Database]: the settings table, the id counter, the assets *)

Module Database.

(** [INSERT OR REPLACE INTO settings VALUES (?,?)] on a table whose key is
    the primary key. *)
Definition set_setting (settings : gmap string (list N)) (key : string)
    (value : list N) : gmap string (list N) :=
  <[ key := value ]> settings.

(** [f"{counter:06d}"]: the sign, then zeros up to a width of six. *)
Definition zfill (width : nat) (digits : list N) : list N :=
  repeat 48 (width - length digits) ++ digits.

Definition fmt_06d (z : Z) : list N :=
  if (z <? 0)%Z then lit "-" ++ zfill 5 (str_of_Z (- z)) else zfill 6 (str_of_Z z).

(** [next_asset_id]: the id, or the [ValueError] of [int()], and the
    settings table afterwards. *)
Definition next_asset_id (parse_int : list N -> option Z)
    (settings : gmap string (list N))
    : Res (list N) * gmap string (list N) :=
  let prefix := opt_or (get_setting settings "id_prefix") (lit "HOSP-EQP") in
  let counter :=
    match or_None (get_setting settings "id_counter") with
    | Some s => parse_int s
    | None => Some 1%Z
    end in
  match counter with
  | None =>
      (Raise (mkExc OtherException (lit "invalid literal for int() with base 10")),
       settings)
  | Some c =>
      (Ok (prefix ++ lit "-" ++ fmt_06d c),
       set_setting settings "id_counter" (str_of_Z (c + 1)))
  end.

(** A row of the [assets] table ([asset_id TEXT UNIQUE NOT NULL],
    [epc TEXT UNIQUE]; [None] is NULL). *)
Record Asset : Type := mkAsset {
  a_asset_id : list N;
  a_epc : option (list N);
  a_name : option (list N);
  a_type : option (list N);
  a_location : option (list N);
  a_department : option (list N);
  a_status : option (list N);
  a_notes : option (list N);
}.

(** [SELECT 1 FROM assets WHERE epc=?] finds a row. *)
Definition epc_exists (assets : list Asset) (epc : list N) : bool :=
  existsb (fun a => match a_epc a with
                    | Some e => str_eqb e epc
                    | None => false
                    end) assets.

Definition asset_id_exists (assets : list Asset) (asset_id : list N) : bool :=
  existsb (fun a => str_eqb (a_asset_id a) asset_id) assets.

(** [SELECT * FROM assets WHERE epc=?], first row. *)
Definition get_asset_by_epc (assets : list Asset) (epc : list N) : option Asset :=
  List.find (fun a => match a_epc a with
                      | Some e => str_eqb e epc
                      | None => false
                      end) assets.

(** [insert_asset]: [None] stands for the result [True], [Some text] for
    the text of the [IntegrityError] (given by the engine, [integrity_text])
    that a taken asset id or a taken non-NULL EPC raises; the table
    afterwards. *)
Definition insert_asset (integrity_text : Asset -> list N)
    (assets : list Asset) (a : Asset) : option (list N) * list Asset :=
  if asset_id_exists assets (a_asset_id a)
     || match a_epc a with
        | Some e => epc_exists assets e
        | None => false
        end
  then (Some (integrity_text a), assets)
  else (None, assets ++ [a]).

End Database.

(** *** [BatchPanel._auto_ids] and [BatchPanel._save_all] *)

Module BatchData.

Import BatchPanel.

(** [not row.get("asset_id")]: the column is absent, or its cell is [None]
    or the empty string. *)
Definition lacks_id (row : Row) : bool :=
  match row !! "asset_id" with
  | Some (Some s) => negb (truthy s)
  | _ => true
  end.

(** The loop of [_auto_ids], threading the rows and the settings table;
    when [next_asset_id] raises, the rows filled so far stay filled. *)
Fixpoint auto_ids_loop (parse_int : list N -> option Z)
    (settings : gmap string (list N)) (rows : list Row)
    : Res unit * list Row * gmap string (list N) :=
  match rows with
  | [] => (Ok tt, [], settings)
  | row :: rest =>
      if lacks_id row then
        match Database.next_asset_id parse_int settings with
        | (Ok aid, settings') =>
            let '(r, rest', settings'') := auto_ids_loop parse_int settings' rest in
            (r, <[ "asset_id" := Some aid ]> row :: rest', settings'')
        | (Raise e, settings') => (Raise e, row :: rest, settings')
        end
      else
        let '(r, rest', settings') := auto_ids_loop parse_int settings rest in
        (r, row :: rest', settings')
  end.

(** [_auto_ids]: the loop, then the table refresh and the log line. *)
Definition _auto_ids (parse_int : list N -> option Z)
    (settings : gmap string (list N)) (rows : list Row)
    : Res unit * list Row * gmap string (list N) * list Event :=
  let '(r, rows', settings') := auto_ids_loop parse_int settings rows in
  match r with
  | Ok _ =>
      (r, rows', settings',
       [EvRefresh; EvLog (lit "Auto-generated missing Asset IDs") (lit "ok")])
  | Raise _ => (r, rows', settings', [])
  end.

(** The asset a CSV row is saved as; a [None] cell is stored as NULL. *)
Definition asset_of_row (aid : list N) (epc : option (list N))
    (row : Row) : Database.Asset :=
  Database.mkAsset aid epc
    (row_get row "name" [])
    (row_get row "type" (lit "Standard (Plastic)"))
    (row_get row "location" [])
    (row_get row "department" [])
    (row_get row "status" (lit "PENDING"))
    (row_get row "notes" []).

(** The loop of [_save_all]: the counters [saved] and [skipped], the table,
    and the warnings logged. The [AttributeError] of [.strip()] on a
    [None] cell ends the loop; what was inserted before stays. *)
Fixpoint save_all_loop (integrity_text : Database.Asset -> list N)
    (rows : list Row) (saved skipped : nat)
    (assets : list Database.Asset) (logged : list Event)
    : Res (nat * nat) * list Database.Asset * list Event :=
  match rows with
  | [] => (Ok (saved, skipped), assets, logged)
  | row :: rest =>
      match cell_strip (row_get row "asset_id" []) with
      | Raise e => (Raise e, assets, logged)
      | Ok aid =>
          match cell_strip (row_get row "epc" []) with
          | Raise e => (Raise e, assets, logged)
          | Ok epc_text =>
              let epc := or_None (Some epc_text) in
              if negb (truthy aid) then
                save_all_loop integrity_text rest saved (skipped + 1) assets
                  logged
              else if opt_truthy epc
                      && Database.epc_exists assets (opt_or epc []) then
                save_all_loop integrity_text rest saved (skipped + 1) assets
                  (logged
                   ++ [EvLog (lit "Duplicate EPC skipped: " ++ opt_or epc [])
                         (lit "warn")])
              else
                match Database.insert_asset integrity_text assets
                        (asset_of_row aid epc row) with
                | (None, assets') =>
                    save_all_loop integrity_text rest (saved + 1) skipped
                      assets' logged
                | (Some _, assets') =>
                    save_all_loop integrity_text rest saved (skipped + 1)
                      assets' logged
                end
          end
      end
  end.

(** [_save_all]: the loop, then the summary line and the refresh. *)
Definition _save_all (integrity_text : Database.Asset -> list N)
    (rows : list Row) (assets : list Database.Asset)
    : Res (nat * nat) * list Database.Asset * list Event :=
  let '(r, assets', logged) :=
    save_all_loop integrity_text rows 0 0 assets [] in
  match r with
  | Ok (saved, skipped) =>
      (r, assets',
       logged ++ [EvLog (lit "Batch save: " ++ str_of_nat saved ++ lit " saved, "
                         ++ str_of_nat skipped ++ lit " skipped") (lit "ok");
                  EvRefresh])
  | Raise _ => (r, assets', logged)
  end.

End BatchData.

(** *** [class SettingsPanel] *)

Module SettingsPanel.

(** [_save]: the nine settings written from the form fields. *)
Definition _save (settings : gmap string (list N))
    (v_print_mode v_printer_ip v_printer_port v_usb_name v_lang v_copies
     v_prefix v_counter v_export : list N)
    : gmap string (list N) * list Event :=
  let s1 := Database.set_setting settings "print_mode" v_print_mode in
  let s2 := Database.set_setting s1 "printer_ip" (strip v_printer_ip) in
  let s3 := Database.set_setting s2 "printer_port"
              (or_ (strip v_printer_port) (lit "9100")) in
  let s4 := Database.set_setting s3 "printer_usb_name" (strip v_usb_name) in
  let s5 := Database.set_setting s4 "printer_lang" v_lang in
  let s6 := Database.set_setting s5 "printer_copies"
              (or_ (strip v_copies) (lit "1")) in
  let s7 := Database.set_setting s6 "id_prefix" (strip v_prefix) in
  let s8 := Database.set_setting s7 "id_counter" (strip v_counter) in
  let s9 := Database.set_setting s8 "export_dir" (strip v_export) in
  (s9, [EvLog (lit "Settings saved") (lit "ok")]).

(** [_detect_lang]; the worker thread is run to its end. The result is the
    language selector of the form afterwards. *)
Definition _detect_lang (env : Env) (v_printer_ip v_printer_port v_lang : list N)
    : IO (list N) :=
  let host := strip v_printer_ip in
  if negb (truthy host) then
    emit (EvStatus ([9888] ++ lit " Enter IP first")) ;;;
    ret v_lang
  else
    emit (EvStatus (lit "Probing" ++ [8230])) ;;;
    (* _worker *)
    let port :=
      match or_None (Some (strip v_printer_port)) with
      | Some s =>
          match parse_int env s with
          | Some z => z
          | None => 9100%Z
          end
      | None => 9100%Z
      end in
    lang <- HoneywellPrinter.detect_language env host port ;;
    if str_eqb lang (lit "ipl") then
      emit (EvStatus ([10004] ++ lit " Detected: IPL (Honeywell native)")) ;;;
      log (lit "Printer at " ++ host ++ lit " speaking IPL") (lit "ok") ;;;
      ret (lit "ipl")
    else if str_eqb lang (lit "zpl") then
      emit (EvStatus ([10004] ++ lit " Detected: ZPL (Zebra-compatible)")) ;;;
      log (lit "Printer at " ++ host ++ lit " speaking ZPL") (lit "ok") ;;;
      ret (lit "zpl")
    else
      emit (EvStatus ([9888] ++ lit " Could not detect " ++ emdash
                      ++ lit " defaulting to ZPL")) ;;;
      log (lit "Language detection inconclusive for " ++ host) (lit "warn") ;;;
      ret v_lang.

End SettingsPanel.

(** *** Predicates and samples for the reader, the counter and the table *)

(** The counter [next_asset_id] starts from: [int(id_counter or 1)], [None]
    when the stored text is not a number. *)
Definition stored_counter (parse_int : list N -> option Z)
    (settings : gmap string (list N)) : option Z :=
  match or_None (get_setting settings "id_counter") with
  | Some s => parse_int s
  | None => Some 1%Z
  end.

(** No two assets share an asset id, and no two share a (non-NULL) EPC. *)
Definition assets_unique (assets : list Database.Asset) : Prop :=
  NoDup (map Database.a_asset_id assets)
  /\ NoDup (omap Database.a_epc assets).

(** The number of rows [_auto_ids] has to fill, and the rows it should
    leave behind: the rows that lack an asset id get the ids numbered
    [c], [c + 1], ... in their order, under the prefix; nothing else
    changes. *)
Definition count_lacking (rows : list BatchPanel.Row) : nat :=
  length (List.filter BatchData.lacks_id rows).

Fixpoint filled (prefix : list N) (c : Z) (rows : list BatchPanel.Row)
    : list BatchPanel.Row :=
  match rows with
  | [] => []
  | row :: rest =>
      if BatchData.lacks_id row
      then <[ "asset_id" := Some (prefix ++ lit "-" ++ Database.fmt_06d c) ]> row
           :: filled prefix (c + 1) rest
      else row :: filled prefix c rest
  end.

(** The cells [_save_all] calls [.strip()] on hold text. *)
Definition row_saves (row : BatchPanel.Row) : bool :=
  match BatchPanel.row_get row "asset_id" [],
        BatchPanel.row_get row "epc" [] with
  | Some _, Some _ => true
  | _, _ => false
  end.

(** A reader that is in simulation mode. *)
Definition simulating (RFID_AVAILABLE : bool) (r : RFIDReader.Reader) : bool :=
  negb (RFIDReader.connected r) || negb RFID_AVAILABLE.

(** The port [SettingsPanel._detect_lang] probes: [int(text or 9100)], and
    9100 when the text is not a number. *)
Definition probe_port (env : Env) (v_printer_port : list N) : Z :=
  match or_None (Some (strip v_printer_port)) with
  | Some s =>
      match parse_int env s with
      | Some z => z
      | None => 9100%Z
      end
  | None => 9100%Z
  end.

(** The keys [SettingsPanel._save] writes. *)
Definition saved_keys : list string :=
  ["print_mode"; "printer_ip"; "printer_port"; "printer_usb_name";
   "printer_lang"; "printer_copies"; "id_prefix"; "id_counter"; "export_dir"].

(** A random generator that always draws 7; hardware that sees one tag. *)
Definition sample_rnd : nat -> N := fun _ => 7.

Definition sample_hardware : RFIDReader.Hardware :=
  RFIDReader.mkHardware
    (Ok [RFIDReader.mkTag (lit "E2001122334455667788990011") (Some (-60)%Z)])
    (fun _ => Ok tt).

(* ===================================================================== *)
(** ** Lemmas on strings *)
(* ===================================================================== *)

Lemma str_eqb_refl (a : list N) : str_eqb a a = true.
Proof.
  induction a as [|x a IH]; simpl; [reflexivity|].
  rewrite N.eqb_refl. exact IH.
Qed.

Lemma str_eqb_eq (a b : list N) : str_eqb a b = true <-> a = b.
Proof.
  split.
  - revert b. induction a as [|x a IH]; intros [|y b] H; simpl in H;
      try discriminate; [reflexivity|].
    apply andb_prop in H as [Hxy Hab].
    apply N.eqb_eq in Hxy. f_equal; [exact Hxy | exact (IH b Hab)].
  - intros ->. apply str_eqb_refl.
Qed.

Lemma str_eqb_neq (a b : list N) : a <> b -> str_eqb a b = false.
Proof.
  intros Hne. destruct (str_eqb a b) eqn:E; [|reflexivity].
  apply str_eqb_eq in E. contradiction.
Qed.

Lemma startswith_app (p s : list N) : startswith p (p ++ s) = true.
Proof.
  induction p as [|x p IH]; simpl; [reflexivity|].
  rewrite N.eqb_refl. exact IH.
Qed.

Lemma startswith_app_l (p a b : list N) :
  startswith p a = true -> startswith p (a ++ b) = true.
Proof.
  revert a. induction p as [|x p IH]; intros a H; [reflexivity|].
  destruct a as [|y a]; simpl in *; [discriminate|].
  apply andb_prop in H as [-> H]. simpl. exact (IH a H).
Qed.

Lemma endswith_app (p s : list N) : endswith p (s ++ p) = true.
Proof.
  unfold endswith. rewrite rev_app_distr. apply startswith_app.
Qed.

Lemma endswith_app_r (p a s : list N) :
  endswith p s = true -> endswith p (a ++ s) = true.
Proof.
  unfold endswith. intros H. rewrite rev_app_distr.
  apply startswith_app_l. exact H.
Qed.

Lemma contains_startswith (p s : list N) :
  startswith p s = true -> contains p s = true.
Proof.
  intros H. destruct s; simpl in *; rewrite H; reflexivity.
Qed.

Lemma contains_app_r (p a s : list N) :
  contains p s = true -> contains p (a ++ s) = true.
Proof.
  intros H. induction a as [|x a IH]; simpl; [exact H|].
  rewrite IH. apply orb_true_r.
Qed.

Lemma contains_here (p x s : list N) : contains p ((p ++ x) ++ s) = true.
Proof.
  apply contains_startswith. rewrite <- app_assoc. apply startswith_app.
Qed.

Lemma encode_latin1_replace_app (a b : list N) :
  encode_latin1_replace (a ++ b)
  = encode_latin1_replace a ++ encode_latin1_replace b.
Proof. unfold encode_latin1_replace. apply map_app. Qed.

(** *** Character-free and pair-free text *)

Lemma free_of_app (c : N) (a b : list N) :
  free_of c a = true -> free_of c b = true -> free_of c (a ++ b) = true.
Proof.
  unfold free_of. intros Ha Hb. rewrite forallb_app, Ha, Hb. reflexivity.
Qed.

Lemma free_of_take (c : N) (n : nat) (s : list N) :
  free_of c s = true -> free_of c (take n s) = true.
Proof.
  revert n. induction s as [|x s IH]; intros [|n] H; simpl in *;
    try reflexivity.
  apply andb_prop in H as [-> H]. simpl. exact (IH n H).
Qed.

Lemma free_of_or (c : N) (a b : list N) :
  free_of c a = true -> free_of c b = true -> free_of c (or_ a b) = true.
Proof. unfold or_. destruct (truthy a); auto. Qed.

Lemma hex_digit_range (d : N) :
  (48 <= hex_digit d <= 57) \/ (97 <= hex_digit d).
Proof.
  unfold hex_digit. destruct (N.ltb_spec d 10); lia.
Qed.

Lemma free_of_hex4 (c n : N) :
  c < 48 \/ (57 < c < 97) -> free_of c (hex4 n) = true.
Proof.
  intros Hc. unfold hex4, free_of. cbn [forallb].
  repeat match goal with
  | |- context [hex_digit ?d =? c] =>
      let E := fresh in
      destruct (N.eqb_spec (hex_digit d) c) as [E|E];
      [ pose proof (hex_digit_range d); lia | ]
  end.
  reflexivity.
Qed.

Lemma free_of_json_escape_char (c x : N) :
  c <> 92 -> c <> 34 -> c <> 117 -> c < 48 \/ (57 < c < 97) ->
  x <> c -> free_of c (json_escape_char x) = true.
Proof.
  intros H92 H34 H117 Hc Hx. unfold json_escape_char.
  assert (Hu : forall n, free_of c (u_escape n) = true).
  { intros n. unfold u_escape. apply free_of_app; [|apply free_of_hex4; exact Hc].
    unfold free_of. cbn [forallb].
    destruct (N.eqb_spec 92 c); [lia|]. destruct (N.eqb_spec 117 c); [lia|].
    reflexivity. }
  repeat match goal with
  | |- context [if ?b then _ else _] => destruct b eqn:?
  end;
  first
    [ apply Hu
    | apply free_of_app; apply Hu
    | unfold free_of; cbn [forallb];
      repeat match goal with
      | |- context [?k =? c] => destruct (N.eqb_spec k c); [lia|]
      end; reflexivity ].
Qed.

Lemma free_of_json_string (c : N) (s : list N) :
  c <> 92 -> c <> 34 -> c <> 117 -> c < 48 \/ (57 < c < 97) ->
  free_of c s = true -> free_of c (json_string s) = true.
Proof.
  intros H92 H34 H117 Hc Hs. unfold json_string.
  assert (Hq : free_of c dq = true).
  { unfold free_of, dq. cbn [forallb]. destruct (N.eqb_spec 34 c); [lia|reflexivity]. }
  apply free_of_app; [exact Hq|]. apply free_of_app; [|exact Hq].
  induction s as [|x s IH]; simpl; [reflexivity|].
  simpl in Hs. apply andb_prop in Hs as [Hx Hs].
  apply free_of_app; [|exact (IH Hs)].
  apply free_of_json_escape_char; try assumption.
  apply negb_true_iff in Hx. apply N.eqb_neq in Hx. exact Hx.
Qed.

Lemma free_of_bigram_free (a b : N) (f : list N) :
  free_of a f = true -> bigram_free a b f = true.
Proof.
  induction f as [|x f IH]; intros H; simpl in *; [reflexivity|].
  apply andb_prop in H as [Hx Hf].
  apply negb_true_iff in Hx. rewrite Hx, (IH Hf). reflexivity.
Qed.

Lemma free_of_ends_with_char (a : N) (f : list N) :
  free_of a f = true -> ends_with_char a f = false.
Proof.
  induction f as [|x f IH]; intros H; simpl in *; [reflexivity|].
  apply andb_prop in H as [Hx Hf].
  destruct f as [|y f]; [apply negb_true_iff; exact Hx | exact (IH Hf)].
Qed.

Lemma starts_with_char_app (b : N) (x y : list N) :
  starts_with_char b (x ++ y)
  = if truthy x then starts_with_char b x else starts_with_char b y.
Proof. destruct x; reflexivity. Qed.

Lemma bigram_free_app (a b : N) (x y : list N) :
  bigram_free a b x = true -> bigram_free a b y = true ->
  ends_with_char a x = false \/ starts_with_char b y = false ->
  bigram_free a b (x ++ y) = true.
Proof.
  intros Hx Hy Hb. induction x as [|c x IH]; [exact Hy|].
  cbn [app bigram_free] in *. apply andb_prop in Hx as [Hc Hx].
  apply andb_true_intro. split.
  - rewrite starts_with_char_app. destruct x as [|d x]; [|exact Hc].
    cbn [truthy]. destruct Hb as [Hb | Hb].
    + cbn [ends_with_char] in Hb. rewrite Hb. reflexivity.
    + rewrite Hb. rewrite andb_false_r. reflexivity.
  - apply IH; [exact Hx|].
    destruct Hb as [Hb | Hb]; [|right; exact Hb].
    destruct x as [|d x]; [left; reflexivity | left; exact Hb].
Qed.

Lemma closed_piece_app (a b : N) (x y : list N) :
  closed_piece a b x = true -> closed_piece a b y = true ->
  closed_piece a b (x ++ y) = true.
Proof.
  unfold closed_piece. intros Hx Hy.
  apply andb_prop in Hx as [Hx1 Hx2]. apply andb_prop in Hy as [Hy1 Hy2].
  apply negb_true_iff in Hy2.
  apply andb_true_intro. split.
  - apply bigram_free_app; [exact Hx1 | exact Hy1 | right; exact Hy2].
  - rewrite starts_with_char_app. destruct (truthy x); [exact Hx2|].
    rewrite Hy2. reflexivity.
Qed.

(** A literal followed by a field: the literal neither starts with [b] nor
    ends with [a], the field is free of [a]. *)
Lemma closed_lit_field (a b : N) (l f rest : list N) :
  bigram_free a b l = true -> starts_with_char b l = false ->
  truthy l = true -> ends_with_char a l = false ->
  free_of a f = true -> closed_piece a b rest = true ->
  closed_piece a b (l ++ f ++ rest) = true.
Proof.
  intros Hl Hs Ht He Hf Hrest. rewrite app_assoc.
  apply closed_piece_app; [|exact Hrest].
  unfold closed_piece. apply andb_true_intro. split.
  - apply bigram_free_app;
      [exact Hl | apply free_of_bigram_free; exact Hf | left; exact He].
  - rewrite starts_with_char_app, Ht, Hs. reflexivity.
Qed.

Lemma bigram_free_contains (a b : N) (p s : list N) :
  bigram_free a b s = true -> contains (a :: b :: p) s = false.
Proof.
  induction s as [|c s IH]; intros H; [reflexivity|].
  cbn [bigram_free] in H. apply andb_prop in H as [Hc Hs].
  cbn [contains]. rewrite (IH Hs), orb_false_r.
  cbn [startswith]. destruct (N.eqb_spec a c) as [->|Hne]; [|reflexivity].
  rewrite N.eqb_refl in Hc. cbn [andb negb] in Hc.
  apply negb_true_iff in Hc.
  destruct s as [|d s]; [reflexivity|].
  cbn [starts_with_char] in Hc. cbn [startswith andb].
  rewrite (N.eqb_sym b d), Hc. reflexivity.
Qed.

Lemma closed_piece_contains (a b : N) (p s : list N) :
  closed_piece a b s = true -> contains (a :: b :: p) s = false.
Proof.
  unfold closed_piece. intros H. apply andb_prop in H as [H _].
  apply bigram_free_contains. exact H.
Qed.

Lemma opt_or_falsy (epc : option (list N)) (d : list N) :
  opt_truthy epc = false -> opt_or epc d = d.
Proof. destruct epc as [[|c e]|]; [reflexivity | discriminate | reflexivity]. Qed.

Lemma opt_or_truthy (epc : option (list N)) (d : list N) :
  opt_truthy epc = true -> exists c e, epc = Some (c :: e) /\ opt_or epc d = c :: e.
Proof.
  destruct epc as [[|c e]|]; try discriminate. intros _. exists c, e. split; reflexivity.
Qed.

(** Proof steps for label text: fields are discharged from the hypotheses,
    literals by evaluation. *)
Ltac split_fields :=
  repeat match goal with
  | H : Forall _ (_ :: _) |- _ => inversion_clear H
  | H : Forall _ [] |- _ => clear H
  end.

(** Literal pieces of a template: these are evaluated. *)
Ltac is_literal l :=
  lazymatch l with
  | lit _ => idtac
  | nl => idtac
  | crlf => idtac
  | dq => idtac
  | emdash => idtac
  | @nil _ => idtac
  | _ :: @nil _ => idtac
  | json_string ?x => is_literal x
  end.

Ltac closed_free :=
  lazymatch goal with
  | |- free_of _ ?l = true => is_literal l; vm_compute; reflexivity
  end.

Ltac field_free :=
  first
    [ assumption
    | closed_free
    | apply free_of_take; field_free
    | apply free_of_or; field_free ].

Ltac text_closed :=
  repeat
    match goal with
    | |- closed_piece _ _ (?l ++ ?f ++ _) = true =>
        is_literal l; tryif is_literal f then fail else idtac;
        apply closed_lit_field;
        [ vm_compute; reflexivity | vm_compute; reflexivity
        | vm_compute; reflexivity | vm_compute; reflexivity
        | solve [field_free] | ]
    | |- closed_piece _ _ (?l ++ _) = true =>
        is_literal l; apply closed_piece_app; [ vm_compute; reflexivity | ]
    | |- closed_piece _ _ ?l = true =>
        is_literal l; vm_compute; reflexivity
    end.

Lemma contains_after_crlf (p x s : list N) :
  contains ([10] ++ p) (crlf ++ (p ++ x) ++ s) = true.
Proof.
  change (crlf ++ (p ++ x) ++ s) with ([13] ++ ([10] ++ (p ++ x) ++ s)).
  apply contains_app_r. apply contains_startswith.
  cbn [app startswith]. rewrite N.eqb_refl. cbn [andb].
  rewrite <- app_assoc. apply startswith_app.
Qed.

(* ===================================================================== *)
(** ** Framing of the rendered label (C5) *)
(* ===================================================================== *)

Lemma endswith_refl (p : list N) : endswith p p = true.
Proof. apply (endswith_app p []). Qed.

Ltac skip_to_end :=
  repeat first [ apply endswith_refl | apply endswith_app_r ].

(** C5, as stated, fails: the ZPL text that [HoneywellPrinter.zpl] renders
    for a sample asset starts with the start marker but does not end with
    the three characters of the end marker [^XZ]: a line feed follows. *)
Lemma zpl_end_marker_is_not_last :
  ~ (startswith (lit "^XA")
       (HoneywellPrinter.zpl_at sample_ts sample_asset_id None sample_name
          sample_location sample_tag_type) = true
     /\ endswith (lit "^XZ")
          (HoneywellPrinter.zpl_at sample_ts sample_asset_id None sample_name
             sample_location sample_tag_type) = true).
Proof.
  intros [_ H]. vm_compute in H. discriminate H.
Qed.

(** C5, amended: for every label description and clock reading,
    [HoneywellPrinter.zpl] renders text that starts with [^XA] and ends with
    [^XZ] followed by one line feed; [LabelGenerator.zpl] renders text that
    starts with [^XA] and ends with [^XZ]; [HoneywellPrinter.ipl] renders
    text that starts with the character 0x02 and ends with 0x03; and the
    bytes that are sent (the Latin-1 encoding of the text) start and end
    the same way. *)
Theorem label_framing :
  forall ts asset_id epc name location tag_type,
    let z := HoneywellPrinter.zpl_at ts asset_id epc name location tag_type in
    let g := LabelGenerator.zpl_at ts asset_id epc name location tag_type in
    let i := HoneywellPrinter.ipl_at ts asset_id epc name location tag_type in
    (startswith (lit "^XA") z = true /\ endswith (lit "^XZ" ++ nl) z = true)
    /\ (startswith (lit "^XA") g = true /\ endswith (lit "^XZ") g = true)
    /\ (startswith [2] i = true /\ endswith [3] i = true)
    /\ (startswith (lit "^XA") (encode_latin1_replace z) = true
        /\ endswith (lit "^XZ" ++ nl) (encode_latin1_replace z) = true)
    /\ (startswith [2] (encode_latin1_replace i) = true
        /\ endswith [3] (encode_latin1_replace i) = true).
Proof.
  intros ts asset_id epc name location tag_type z g i.
  subst z g i.
  unfold HoneywellPrinter.zpl_at, LabelGenerator.zpl_at, HoneywellPrinter.ipl_at.
  refine (conj (conj _ _) (conj (conj _ _) (conj (conj _ _)
            (conj (conj _ _) (conj _ _))))).
  - apply startswith_app.
  - skip_to_end.
  - apply startswith_app.
  - skip_to_end.
  - apply startswith_app.
  - skip_to_end.
  - rewrite encode_latin1_replace_app. apply startswith_app_l.
    vm_compute. reflexivity.
  - rewrite !encode_latin1_replace_app. skip_to_end.
  - rewrite encode_latin1_replace_app. apply startswith_app_l.
    vm_compute. reflexivity.
  - rewrite !encode_latin1_replace_app. skip_to_end.
Qed.

(* ===================================================================== *)
(** ** The RFID directive (C3) *)
(* ===================================================================== *)

(** C3, as stated, fails for one of the encoders: with no tag payload,
    [LabelGenerator.zpl] still renders the RFID-write directive (with a
    payload of 22 zeros). *)
Lemma generator_writes_rfid_without_payload :
  opt_truthy None = false
  /\ contains zpl_rfid_directive
       (LabelGenerator.zpl_at sample_ts sample_asset_id None sample_name
          sample_location sample_tag_type) = true
  /\ contains (zpl_rfid_directive ++ lit "0000000000000000000000")
       (LabelGenerator.zpl_at sample_ts sample_asset_id None sample_name
          sample_location sample_tag_type) = true.
Proof. vm_compute. auto. Qed.

Lemma zpl_without_payload_closed ts asset_id epc name location tag_type :
  Forall (fun f => free_of 94 f = true) [ts; asset_id; name; location; tag_type] ->
  opt_truthy epc = false ->
  closed_piece 94 82
    (HoneywellPrinter.zpl_at ts asset_id epc name location tag_type) = true.
Proof.
  intros Hf He. split_fields.
  assert (Hqr : free_of 94 (HoneywellPrinter.qr_data asset_id epc) = true).
  { unfold HoneywellPrinter.qr_data. rewrite (opt_or_falsy _ _ He).
    repeat (apply free_of_app;
            [ first [ closed_free
                    | apply free_of_json_string; [lia | lia | lia | lia | assumption] ]
            | ]).
    closed_free. }
  unfold HoneywellPrinter.zpl_at. rewrite He, (opt_or_falsy _ _ He).
  cbv iota. text_closed.
Qed.

Lemma ipl_without_payload_closed ts asset_id epc name location tag_type :
  Forall (fun f => free_of 10 f = true) [ts; asset_id; name; location; tag_type] ->
  opt_truthy epc = false ->
  closed_piece 10 82
    (HoneywellPrinter.ipl_at ts asset_id epc name location tag_type) = true.
Proof.
  intros Hf He. split_fields.
  unfold HoneywellPrinter.ipl_at. rewrite He, (opt_or_falsy _ _ He).
  cbv iota. text_closed.
Qed.

Lemma zpl_with_payload ts asset_id epc name location tag_type :
  opt_truthy epc = true ->
  contains zpl_rfid_directive
    (HoneywellPrinter.zpl_at ts asset_id epc name location tag_type) = true.
Proof.
  intros He. unfold HoneywellPrinter.zpl_at. rewrite He. cbv iota.
  repeat
    match goal with
    | |- contains _ ((_ ++ _) ++ _) = true => apply contains_here
    | |- contains _ (_ ++ _) = true => apply contains_app_r
    end.
Qed.

Lemma ipl_with_payload ts asset_id epc name location tag_type :
  opt_truthy epc = true ->
  contains ipl_rfid_directive
    (HoneywellPrinter.ipl_at ts asset_id epc name location tag_type) = true.
Proof.
  intros He. unfold HoneywellPrinter.ipl_at. rewrite He. cbv iota.
  repeat
    match goal with
    | |- contains _ (crlf ++ (_ ++ _) ++ _) = true => apply contains_after_crlf
    | |- contains _ (_ ++ _) = true => apply contains_app_r
    end.
Qed.

Lemma generator_always_writes_rfid ts asset_id epc name location tag_type :
  contains zpl_rfid_directive
    (LabelGenerator.zpl_at ts asset_id epc name location tag_type) = true.
Proof.
  unfold LabelGenerator.zpl_at, zpl_rfid_directive.
  repeat
    match goal with
    | |- contains ?p (?p ++ _) = true =>
        apply contains_startswith, startswith_app
    | |- contains _ (_ ++ _) = true => apply contains_app_r
    end.
Qed.

Lemma generator_payload_line ts asset_id epc name location tag_type :
  contains
    (zpl_rfid_directive ++ opt_or epc (lit "0000000000000000000000") ++ nl)
    (LabelGenerator.zpl_at ts asset_id epc name location tag_type) = true.
Proof.
  unfold LabelGenerator.zpl_at, zpl_rfid_directive.
  repeat
    match goal with
    | |- contains _ (lit "^RFWM," ++ _) = true => fail 1
    | |- contains _ (_ ++ _) = true => apply contains_app_r
    end.
  apply contains_startswith.
  replace (lit "^RFWM," ++ opt_or epc (lit "0000000000000000000000") ++ nl
           ++ lit "^XZ")
    with ((lit "^RFWM," ++ opt_or epc (lit "0000000000000000000000") ++ nl)
          ++ lit "^XZ")
    by (rewrite <- !app_assoc; reflexivity).
  apply startswith_app.
Qed.

(** C3, amended: the two encoders of the print path, [HoneywellPrinter.zpl]
    and [HoneywellPrinter.ipl], render the RFID directive ([^RFWM,] in ZPL,
    a line [R 1,E200,] in IPL) whenever a non-empty tag payload is given,
    whatever the fields hold; with no payload (or an empty one) the ZPL
    label has no directive when the field texts carry no caret, and the IPL
    label has none when they carry no line feed (the encoders copy the
    fields unescaped). [LabelGenerator.zpl] renders the directive for
    every input, with the payload, or with 22 zeros when there is none. *)
Theorem rfid_directive_iff_payload :
  forall ts asset_id epc name location tag_type,
    (opt_truthy epc = true ->
     contains zpl_rfid_directive
       (HoneywellPrinter.zpl_at ts asset_id epc name location tag_type) = true
     /\ contains ipl_rfid_directive
          (HoneywellPrinter.ipl_at ts asset_id epc name location tag_type)
        = true)
    /\ (opt_truthy epc = false ->
        Forall (fun f => free_of 94 f = true)
          [ts; asset_id; name; location; tag_type] ->
        contains zpl_rfid_directive
          (HoneywellPrinter.zpl_at ts asset_id epc name location tag_type)
        = false)
    /\ (opt_truthy epc = false ->
        Forall (fun f => free_of 10 f = true)
          [ts; asset_id; name; location; tag_type] ->
        contains ipl_rfid_directive
          (HoneywellPrinter.ipl_at ts asset_id epc name location tag_type)
        = false)
    /\ contains zpl_rfid_directive
         (LabelGenerator.zpl_at ts asset_id epc name location tag_type)
       = true
    /\ contains
         (zpl_rfid_directive ++ opt_or epc (lit "0000000000000000000000")
          ++ nl)
         (LabelGenerator.zpl_at ts asset_id epc name location tag_type)
       = true
    /\ (opt_truthy epc = false ->
        contains (zpl_rfid_directive ++ lit "0000000000000000000000" ++ nl)
          (LabelGenerator.zpl_at ts asset_id epc name location tag_type)
        = true).
Proof.
  intros ts asset_id epc name location tag_type.
  split.
  { intros He. split; [apply zpl_with_payload | apply ipl_with_payload];
      exact He. }
  split.
  { intros He Hz.
    change zpl_rfid_directive with (94 :: 82 :: lit "FWM,").
    apply closed_piece_contains, zpl_without_payload_closed; assumption. }
  split.
  { intros He Hi.
    change ipl_rfid_directive with (10 :: 82 :: lit " 1,E200,").
    apply closed_piece_contains, ipl_without_payload_closed; assumption. }
  split; [apply generator_always_writes_rfid|].
  split; [apply generator_payload_line|].
  intros He.
  rewrite <- (opt_or_falsy epc (lit "0000000000000000000000") He) at 1.
  apply generator_payload_line.
Qed.

Lemma rfid_directive_iff_payload_witness :
  contains zpl_rfid_directive
    (HoneywellPrinter.zpl_at sample_ts sample_asset_id None
       sample_name sample_location sample_tag_type)
  = false
  /\ contains ipl_rfid_directive
       (HoneywellPrinter.ipl_at sample_ts sample_asset_id None
          sample_name sample_location sample_tag_type)
     = false
  /\ contains zpl_rfid_directive
       (HoneywellPrinter.zpl_at sample_ts sample_asset_id (Some sample_epc)
          sample_name sample_location sample_tag_type) = true.
Proof.
  pose proof (rfid_directive_iff_payload sample_ts sample_asset_id None
                sample_name sample_location sample_tag_type)
    as [_ [Hz [Hi _]]].
  pose proof (rfid_directive_iff_payload sample_ts sample_asset_id
                (Some sample_epc) sample_name sample_location sample_tag_type)
    as [Hp _].
  split; [apply Hz; [reflexivity | repeat constructor]|].
  split; [apply Hi; [reflexivity | repeat constructor]|].
  apply Hp. reflexivity.
Defined.

(* ===================================================================== *)
(** ** Language detection (C2, C6) *)
(* ===================================================================== *)

Lemma detect_language_on_total (p : Peer) :
  exists v, HoneywellPrinter.detect_language_on p = Ok v
            /\ (v = lit "zpl" \/ v = lit "ipl" \/ v = lit "unknown").
Proof.
  unfold HoneywellPrinter.detect_language_on, rcatch, rbind.
  destruct (on_connect p) as [u|e]; [|eauto].
  destruct (on_sendall p HoneywellPrinter.probe_query) as [u'|e]; [|eauto].
  eexists. split; [reflexivity|].
  unfold HoneywellPrinter.classify_response.
  repeat match goal with
  | |- context [if ?b then _ else _] => destruct b
  end; auto.
Qed.

Lemma detect_language_run env host port tr :
  HoneywellPrinter.detect_language env host port tr
  = (HoneywellPrinter.detect_language_on (peer env tr host port),
     tr ++ [EvProbe host port]).
Proof. reflexivity. Qed.

Lemma classify_first_byte (b : N) (rest : list N) :
  HoneywellPrinter.classify_response (b :: rest)
  = if b =? 2 then lit "ipl"
    else if HoneywellPrinter.has_zpl_marker (b :: rest) then lit "zpl"
    else if (b =? 6) || (b =? 21) then lit "ipl"
    else lit "zpl".
Proof.
  unfold HoneywellPrinter.classify_response.
  cbn [truthy take str_eqb]. rewrite !andb_true_r.
  destruct (b =? 2); [reflexivity|]. reflexivity.
Qed.

(** C2, as stated, fails: a response whose first byte is the control byte
    0x06 and which carries a caret is classified ZPL, not IPL. *)
Lemma ack_with_caret_is_zpl :
  hd_error [6; 94] = Some 6
  /\ HoneywellPrinter.detect_language (sample_env (answering [6; 94]))
       sample_host 9100%Z []
     = (Ok (lit "zpl"), [EvProbe sample_host 9100%Z])
  /\ lit "zpl" <> lit "ipl".
Proof.
  split; [reflexivity|]. split; [vm_compute; reflexivity|].
  vm_compute. discriminate.
Qed.

(** C2, amended: when the probe is delivered, the answer [resp] (at most 256
    bytes; nothing when the read fails) is classified in this order: no
    response is ZPL; a first byte 0x02 is IPL; otherwise a response that
    carries a caret or, in any letter case, the text ZPL is ZPL; otherwise a
    first byte 0x06 or 0x15 is IPL; every other response is ZPL. *)
Theorem detect_language_classification :
  forall (env : Env) (host : list N) (port : Z) (tr : list Event),
    let p := peer env tr host port in
    let resp := HoneywellPrinter.probe_response p in
    let result v :=
      HoneywellPrinter.detect_language env host port tr
      = (Ok v, tr ++ [EvProbe host port]) in
    on_connect p = Ok tt ->
    on_sendall p HoneywellPrinter.probe_query = Ok tt ->
    (resp = [] -> result (lit "zpl"))
    /\ (hd_error resp = Some 2 -> result (lit "ipl"))
    /\ (forall b, hd_error resp = Some b -> b <> 2 ->
        HoneywellPrinter.has_zpl_marker resp = true -> result (lit "zpl"))
    /\ (forall b, hd_error resp = Some b -> b = 6 \/ b = 21 ->
        HoneywellPrinter.has_zpl_marker resp = false -> result (lit "ipl"))
    /\ (forall b, hd_error resp = Some b -> b <> 2 -> b <> 6 -> b <> 21 ->
        result (lit "zpl")).
Proof.
  intros env host port tr p resp result Hc Hs.
  assert (Hrun : forall v, HoneywellPrinter.classify_response resp = v -> result v).
  { intros v Hv. unfold result. rewrite detect_language_run.
    fold p. unfold HoneywellPrinter.detect_language_on, rcatch, rbind.
    rewrite Hc, Hs. fold resp. rewrite Hv. reflexivity. }
  repeat apply conj.
  - intros ->. apply Hrun. reflexivity.
  - intros Hh. apply Hrun. destruct resp as [|b rest]; [discriminate|].
    injection Hh as ->. rewrite classify_first_byte. reflexivity.
  - intros b Hh Hb Hm. apply Hrun. destruct resp as [|b' rest]; [discriminate|].
    injection Hh as ->. rewrite classify_first_byte, Hm.
    apply N.eqb_neq in Hb. rewrite Hb. reflexivity.
  - intros b Hh Hb Hm. apply Hrun. destruct resp as [|b' rest]; [discriminate|].
    injection Hh as ->. rewrite classify_first_byte, Hm.
    destruct Hb as [-> | ->]; reflexivity.
  - intros b Hh H2 H6 H21. apply Hrun.
    destruct resp as [|b' rest]; [discriminate|].
    injection Hh as ->. rewrite classify_first_byte.
    apply N.eqb_neq in H2, H6, H21. rewrite H2, H6, H21.
    destruct (HoneywellPrinter.has_zpl_marker (b :: rest)); reflexivity.
Qed.

Lemma detect_language_classification_witness :
  HoneywellPrinter.detect_language (sample_env (answering [6; 48]))
    sample_host 9100%Z []
  = (Ok (lit "ipl"), [] ++ [EvProbe sample_host 9100%Z]).
Proof.
  refine (proj1 (proj2 (proj2 (proj2
    (detect_language_classification (sample_env (answering [6; 48]))
       sample_host 9100%Z [] eq_refl eq_refl)))) 6 eq_refl _ eq_refl).
  left. reflexivity.
Defined.

(** C6: [detect_language] never raises. Whatever the remote end does, it
    returns one of "zpl", "ipl" and "unknown" after one probe; when the
    connection cannot be made (refused, timed out, name not resolved, any
    other exception), or the query cannot be written, it returns "unknown". *)
Theorem detect_language_never_raises :
  forall (env : Env) (host : list N) (port : Z) (tr : list Event),
    (exists v,
        HoneywellPrinter.detect_language env host port tr
        = (Ok v, tr ++ [EvProbe host port])
        /\ (v = lit "zpl" \/ v = lit "ipl" \/ v = lit "unknown"))
    /\ (forall e,
          on_connect (peer env tr host port) = Raise e
          \/ (on_connect (peer env tr host port) = Ok tt
              /\ on_sendall (peer env tr host port)
                   HoneywellPrinter.probe_query = Raise e) ->
          HoneywellPrinter.detect_language env host port tr
          = (Ok (lit "unknown"), tr ++ [EvProbe host port])).
Proof.
  intros env host port tr. split.
  - destruct (detect_language_on_total (peer env tr host port)) as [v [Hv Hin]].
    exists v. rewrite detect_language_run, Hv. auto.
  - intros e H. rewrite detect_language_run.
    unfold HoneywellPrinter.detect_language_on, rcatch, rbind.
    destruct H as [-> | [-> ->]]; reflexivity.
Qed.

Lemma detect_language_never_raises_witness :
  HoneywellPrinter.detect_language (sample_env refusing_peer)
    sample_host 9100%Z []
  = (Ok (lit "unknown"), [] ++ [EvProbe sample_host 9100%Z]).
Proof.
  apply (proj2 (detect_language_never_raises (sample_env refusing_peer)
                  sample_host 9100%Z [])
           (mkExc ConnectionRefusedError (lit "[Errno 111] Connection refused"))).
  left. reflexivity.
Defined.

(* ===================================================================== *)
(** ** Network delivery (C7) *)
(* ===================================================================== *)

Lemma print_network_run env host data port tr :
  HoneywellPrinter.print_network env host data port tr
  = (HoneywellPrinter.print_network_on (str_lower env) (peer env tr host port)
       host data port,
     tr ++ [EvNetSend host port (encode_latin1_replace data)]).
Proof. reflexivity. Qed.

Lemma print_network_on_total lw (p : Peer) host data port :
  exists r, HoneywellPrinter.print_network_on lw p host data port = Ok r.
Proof.
  unfold HoneywellPrinter.print_network_on, rcatch, rbind.
  repeat match goal with
  | |- context [match ?x with _ => _ end] => destruct x
  end; eauto.
Qed.

Lemma print_network_on_failure lw (p : Peer) host data port e :
  first_failure p (encode_latin1_replace data) = Some e ->
  HoneywellPrinter.print_network_on lw p host data port
  = Ok (if is_ConnectionRefusedError e
        then (false, HoneywellPrinter.msg_refused host port)
        else if is_OSError e && contains (lit "timed out") (lw (exc_text e))
        then (false, HoneywellPrinter.msg_timeout host port)
        else (false, exc_text e)).
Proof.
  unfold first_failure, HoneywellPrinter.print_network_on, rcatch, rbind.
  destruct (on_connect p) as [u|e1];
    [destruct (on_sendall p _) as [u'|e2];
       [destruct (on_shutdown p) as [u''|e3]; [discriminate|]|]|];
    intros [= ->];
    destruct (is_ConnectionRefusedError e); try reflexivity;
    destruct (is_OSError e); try reflexivity;
    destruct (contains _ _); reflexivity.
Qed.

Lemma print_network_on_delivered lw (p : Peer) host data port :
  first_failure p (encode_latin1_replace data) = None ->
  HoneywellPrinter.print_network_on lw p host data port
  = Ok (match on_recv p (encode_latin1_replace data) with
        | Ok (21 :: _) => (false, HoneywellPrinter.msg_nack)
        | _ => (true, lit "OK")
        end).
Proof.
  unfold first_failure, HoneywellPrinter.print_network_on, rcatch, rbind.
  destruct (on_connect p) as [u|e1]; [|discriminate].
  destruct (on_sendall p _) as [u'|e2]; [|discriminate].
  destruct (on_shutdown p) as [u''|e3]; [|discriminate]. intros _.
  destruct (on_recv p _) as [[|b r]|e]; try reflexivity.
  cbn [take truthy str_eqb andb]. rewrite andb_true_r.
  destruct (N.eqb_spec b 21) as [->|Hb]; [reflexivity|].
  destruct b as [|b]; [reflexivity|].
  repeat (destruct b as [b|b|]; try reflexivity). contradiction.
Qed.

Lemma msg_refused_not_timeout host port :
  HoneywellPrinter.msg_refused host port <> HoneywellPrinter.msg_timeout host port.
Proof.
  unfold HoneywellPrinter.msg_refused, HoneywellPrinter.msg_timeout.
  intros H. vm_compute in H. discriminate H.
Qed.

(** C7: [print_network] never raises. A refused connection, a timeout (an
    OS-level error whose text says "timed out") and any other OS-level error
    each give success = false, with a message that opens "Connection refused"
    for the first, "Timeout" for the second, and is the error's own text
    (which does not say "timed out") for the third; a delivered label that the
    printer answers with a first byte 0x15 gives success = false with the
    NACK message; every other delivered label gives success = true. *)
Theorem print_network_never_raises :
  forall (env : Env) (host data : list N) (port : Z) (tr : list Event),
    let p := peer env tr host port in
    let bytes := encode_latin1_replace data in
    let result r :=
      HoneywellPrinter.print_network env host data port tr
      = (Ok r, tr ++ [EvNetSend host port bytes]) in
    (exists ok msg, result (ok, msg))
    /\ (forall e, first_failure p bytes = Some e ->
        is_ConnectionRefusedError e = true ->
        result (false, HoneywellPrinter.msg_refused host port))
    /\ (forall e, first_failure p bytes = Some e ->
        is_ConnectionRefusedError e = false -> is_OSError e = true ->
        contains (lit "timed out") (str_lower env (exc_text e)) = true ->
        result (false, HoneywellPrinter.msg_timeout host port))
    /\ (forall e, first_failure p bytes = Some e ->
        is_ConnectionRefusedError e = false -> is_OSError e = true ->
        contains (lit "timed out") (str_lower env (exc_text e)) = false ->
        result (false, exc_text e))
    /\ (forall r, first_failure p bytes = None ->
        on_recv p bytes = Ok r -> hd_error r = Some 21 ->
        result (false, HoneywellPrinter.msg_nack))
    /\ (startswith (lit "Connection refused")
          (HoneywellPrinter.msg_refused host port) = true
        /\ startswith (lit "Timeout")
             (HoneywellPrinter.msg_timeout host port) = true
        /\ HoneywellPrinter.msg_refused host port
           <> HoneywellPrinter.msg_timeout host port).
Proof.
  intros env host data port tr p bytes result.
  unfold result. rewrite print_network_run. fold p. fold bytes.
  repeat apply conj.
  - destruct (print_network_on_total (str_lower env) p host data port)
      as [[ok msg] ->].
    exists ok, msg. reflexivity.
  - intros e Hf Hr. rewrite (print_network_on_failure _ _ _ _ _ _ Hf), Hr.
    reflexivity.
  - intros e Hf Hr Ho Ht.
    rewrite (print_network_on_failure _ _ _ _ _ _ Hf), Hr, Ho, Ht. reflexivity.
  - intros e Hf Hr Ho Ht.
    rewrite (print_network_on_failure _ _ _ _ _ _ Hf), Hr, Ho, Ht. reflexivity.
  - intros r Hf Hrecv Hh.
    rewrite (print_network_on_delivered _ _ _ _ _ Hf). fold bytes.
    rewrite Hrecv. destruct r as [|b r]; [discriminate|].
    injection Hh as ->. reflexivity.
  - apply startswith_app_l. vm_compute. reflexivity.
  - apply startswith_app_l. vm_compute. reflexivity.
  - apply msg_refused_not_timeout.
Qed.

Lemma print_network_never_raises_witness :
  HoneywellPrinter.print_network (sample_env unreachable_peer) sample_host
    (lit "^XA^XZ") 9100%Z []
  = (Ok (false, HoneywellPrinter.msg_timeout sample_host 9100%Z),
     [] ++ [EvNetSend sample_host 9100%Z (encode_latin1_replace (lit "^XA^XZ"))]).
Proof.
  exact (proj1 (proj2 (proj2
    (print_network_never_raises (sample_env unreachable_peer) sample_host
       (lit "^XA^XZ") 9100%Z [])))
    (mkExc TimeoutError (lit "timed out")) eq_refl eq_refl eq_refl eq_refl).
Defined.

(* ===================================================================== *)
(** ** The print coordinator *)
(* ===================================================================== *)

Lemma print_usb_on_total system run raw_job data printer_name :
  exists r, HoneywellPrinter.print_usb_on system run raw_job data printer_name = Ok r.
Proof.
  unfold HoneywellPrinter.print_usb_on, rcatch, rbind.
  repeat match goal with
  | |- context [match ?x with _ => _ end] => destruct x
  end; eauto.
Qed.

Lemma delivery_result_total env tr mode host port pn data :
  exists r, delivery_result env tr mode host port pn data = Ok r.
Proof.
  unfold delivery_result.
  destruct (str_eqb mode _); [destruct (truthy host)|];
    eauto using print_network_on_total, print_usb_on_total.
Qed.

Lemma resolve_language_detected env tr mode host port language :
  str_eqb language (lit "auto") && str_eqb mode HoneywellPrinter.MODE_NETWORK
    && truthy host = true ->
  exists detected,
    HoneywellPrinter.detect_language_on (peer env tr host port) = Ok detected
    /\ resolve_language env tr mode host port language
       = (lang_of_detected detected, [EvProbe host port]).
Proof.
  intros H. apply andb_prop in H as [H Hh]. apply andb_prop in H as [Ha Hm].
  destruct (detect_language_on_total (peer env tr host port)) as [v [Hv _]].
  exists v. split; [exact Hv|].
  unfold resolve_language. rewrite Ha, Hm, Hh, Hv. reflexivity.
Qed.

Lemma print_label_run env aid epc name loc typ mode host port pn language tr :
  let lang := fst (resolve_language env tr mode host port language) in
  let pre := snd (resolve_language env tr mode host port language) in
  let data := rendered (clock env (tr ++ pre)) lang aid epc name loc typ in
  exists ok msg,
    delivery_result env ((tr ++ pre) ++ [EvClock]) mode host port pn data
    = Ok (ok, msg)
    /\ HoneywellPrinter.print_label env aid epc name loc typ mode host port pn
         language tr
       = (Ok (ok, msg, lang),
          tr ++ pre ++ [EvClock] ++ delivery_events mode host port pn data).
Proof.
  intros lang pre data.
  destruct (delivery_result_total env ((tr ++ pre) ++ [EvClock]) mode host port
              pn data) as [[ok msg] Hd].
  exists ok, msg. split; [exact Hd|].
  subst lang pre data. revert Hd.
  unfold HoneywellPrinter.print_label, resolve_language, delivery_result,
    delivery_events, rendered, lang_of_detected.
  unfold HoneywellPrinter.detect_language, HoneywellPrinter.print_network,
    HoneywellPrinter.print_usb, HoneywellPrinter.ipl, HoneywellPrinter.zpl,
    bind, ret, get_trace, emit, lift.
  destruct (str_eqb language (lit "auto")) eqn:Ha;
    destruct (str_eqb mode HoneywellPrinter.MODE_NETWORK) eqn:Hm;
    destruct (truthy host) eqn:Hh; cbn [andb fst snd negb];
    try (destruct (detect_language_on_total (peer env tr host port))
           as [v [Hv _]]; rewrite Hv; cbn [fst snd]);
    match goal with
    | |- context [str_eqb ?l (lit "ipl")] =>
        generalize l; intros L; destruct (str_eqb L (lit "ipl"))
    end;
    rewrite ?app_nil_r; intros Hd;
    first [ rewrite Hd | injection Hd as <- <- ]; cbn [fst snd];
    rewrite <- ?app_assoc; reflexivity.
Qed.

Lemma count_events_app f (a b : list Event) :
  count_events f (a ++ b) = (count_events f a + count_events f b)%nat.
Proof.
  induction a as [|ev a IH]; [reflexivity|].
  cbn [app count_events]. rewrite IH. lia.
Qed.

Lemma lang_of_detected_cases (v : list N) :
  lang_of_detected v = lit "zpl" \/ lang_of_detected v = lit "ipl".
Proof. unfold lang_of_detected. destruct (str_eqb v (lit "ipl")); auto. Qed.

Lemma resolve_language_not_auto env tr mode host port language :
  str_eqb language (lit "auto") = false ->
  resolve_language env tr mode host port language
  = (str_lower env language, []).
Proof. intros H. unfold resolve_language. rewrite H. reflexivity. Qed.

Lemma resolve_language_no_probe env tr mode host port language :
  str_eqb language (lit "auto") && str_eqb mode HoneywellPrinter.MODE_NETWORK
    && truthy host = false ->
  snd (resolve_language env tr mode host port language) = []
  /\ fst (resolve_language env tr mode host port language)
     = if str_eqb language (lit "auto") then lit "zpl"
       else str_lower env language.
Proof.
  unfold resolve_language. destruct (str_eqb language (lit "auto")); [|auto].
  cbn [andb]. intros ->. auto.
Qed.

Lemma resolve_language_cases env tr mode host port language :
  language = lit "auto" \/ str_lower env language = lit "zpl"
  \/ str_lower env language = lit "ipl" ->
  fst (resolve_language env tr mode host port language) = lit "zpl"
  \/ fst (resolve_language env tr mode host port language) = lit "ipl".
Proof.
  intros H. unfold resolve_language.
  destruct (str_eqb language (lit "auto")) eqn:Ha.
  - destruct (_ && _); cbn [fst]; [|auto].
    destruct (HoneywellPrinter.detect_language_on _); [|auto].
    apply lang_of_detected_cases.
  - cbn [fst]. destruct H as [-> | [H | H]]; [discriminate Ha | auto | auto].
Qed.

Lemma delivery_events_counts mode host port pn data :
  count_events is_probe (delivery_events mode host port pn data) = 0%nat
  /\ count_events is_write (delivery_events mode host port pn data) = 0%nat
  /\ (count_events is_send (delivery_events mode host port pn data) <= 1)%nat.
Proof.
  unfold delivery_events.
  destruct (str_eqb mode _); [destruct (truthy host)|]; cbn; lia.
Qed.

Lemma resolve_language_probe_count env tr mode host port language :
  count_events is_probe (snd (resolve_language env tr mode host port language))
  = if str_eqb language (lit "auto")
       && str_eqb mode HoneywellPrinter.MODE_NETWORK && truthy host
    then 1%nat else 0%nat.
Proof.
  unfold resolve_language.
  destruct (str_eqb language (lit "auto")); [|reflexivity].
  cbn [andb]. destruct (_ && _); reflexivity.
Qed.

Lemma resolve_language_other_counts env tr mode host port language :
  count_events is_write (snd (resolve_language env tr mode host port language))
  = 0%nat
  /\ count_events is_send
       (snd (resolve_language env tr mode host port language)) = 0%nat.
Proof.
  unfold resolve_language.
  destruct (str_eqb language (lit "auto")); [|auto].
  destruct (_ && _); auto.
Qed.


Lemma all_bytes_encode (s : list N) : all_bytes (encode_latin1_replace s) = true.
Proof.
  induction s as [|x s IH]; [reflexivity|].
  change (all_bytes (encode_latin1_replace (x :: s)))
    with (((if x <=? 255 then x else 63) <? 256)
          && all_bytes (encode_latin1_replace s)).
  rewrite IH, andb_true_r.
  destruct (N.leb_spec x 255) as [Hx|Hx]; [|reflexivity].
  apply N.ltb_lt. lia.
Qed.

Lemma encode_bytes_id (s : list N) :
  all_bytes s = true -> encode_latin1_replace s = s.
Proof.
  induction s as [|x s IH]; intros H; [reflexivity|].
  change (all_bytes (x :: s)) with ((x <? 256) && all_bytes s) in H.
  apply andb_prop in H as [Hx Hs]. apply N.ltb_lt in Hx.
  change (encode_latin1_replace (x :: s))
    with ((if x <=? 255 then x else 63) :: encode_latin1_replace s).
  destruct (N.leb_spec x 255); [|lia]. f_equal. apply IH. exact Hs.
Qed.

Lemma encode_idem (s : list N) :
  encode_latin1_replace (encode_latin1_replace s) = encode_latin1_replace s.
Proof. apply encode_bytes_id, all_bytes_encode. Qed.

(** *** Counting the successful deliveries of a trace *)

Lemma delivered_app env (before a b : list Event) :
  delivered env before (a ++ b)
  = (delivered env before a + delivered env (before ++ a) b)%nat.
Proof.
  revert before. induction a as [|ev a IH]; intros before.
  - cbn [app delivered]. rewrite app_nil_r. reflexivity.
  - cbn [app delivered]. rewrite IH, <- app_assoc. cbn [app]. lia.
Qed.

Lemma delivered_no_send env (evs : list Event) : forall before,
  count_events is_send evs = 0%nat -> delivered env before evs = 0%nat.
Proof.
  induction evs as [|ev evs IH]; intros before H; [reflexivity|].
  cbn [count_events] in H. cbn [delivered].
  destruct ev; cbn [is_send attempt_ok] in *; try discriminate H;
    apply IH; lia.
Qed.

Lemma delivered_le env (evs : list Event) : forall before,
  (delivered env before evs <= count_events is_send evs)%nat.
Proof.
  induction evs as [|ev evs IH]; intros before; [reflexivity|].
  cbn [count_events delivered]. specialize (IH (before ++ [ev])).
  destruct ev; cbn [is_send attempt_ok];
    try lia; destruct (match _ with Ok _ => _ | Raise _ => _ end); lia.
Qed.

Lemma print_network_on_encoded lw p host data port :
  HoneywellPrinter.print_network_on lw p host (encode_latin1_replace data) port
  = HoneywellPrinter.print_network_on lw p host data port.
Proof.
  unfold HoneywellPrinter.print_network_on. rewrite encode_idem. reflexivity.
Qed.

Lemma print_usb_on_encoded system run raw_job data pn :
  HoneywellPrinter.print_usb_on system run raw_job (encode_latin1_replace data) pn
  = HoneywellPrinter.print_usb_on system run raw_job data pn.
Proof.
  unfold HoneywellPrinter.print_usb_on. rewrite encode_idem. reflexivity.
Qed.

(** The one delivery attempt of [print_label] is counted as delivered
    exactly when [print_label] reports success. *)
Lemma delivered_delivery env before mode host port pn data ok msg :
  delivery_result env before mode host port pn data = Ok (ok, msg) ->
  delivered env before (delivery_events mode host port pn data)
  = (if ok then 1 else 0)%nat.
Proof.
  unfold delivery_result, delivery_events.
  destruct (str_eqb mode HoneywellPrinter.MODE_NETWORK).
  - destruct (truthy host).
    + intros H. cbn [delivered attempt_ok].
      rewrite print_network_on_encoded, H. destruct ok; reflexivity.
    + intros [= <- <-]. reflexivity.
  - intros H. cbn [delivered attempt_ok].
    rewrite print_usb_on_encoded, H. destruct ok; reflexivity.
Qed.

Lemma delivered_resolve env before tr mode host port language :
  delivered env before (snd (resolve_language env tr mode host port language))
  = 0%nat.
Proof.
  apply delivered_no_send.
  apply (proj2 (resolve_language_other_counts env tr mode host port language)).
Qed.

(** *** The batch loop, row by row *)

Lemma batch_loop_skip env mode host port usbname effective_lang export_dir
    total (row : BatchPanel.Row) rest i cnt tr a e :
  BatchPanel.row_get row "asset_id" [] = Some a ->
  truthy (strip a) = false ->
  BatchPanel.row_get row "epc" [] = Some e ->
  BatchPanel.batch_loop env mode host port usbname effective_lang
    export_dir total i (row :: rest) cnt tr
  = BatchPanel.batch_loop env mode host port usbname effective_lang
    export_dir total (S i) rest
      (BatchPanel.mkSummary (BatchPanel.success cnt) (BatchPanel.errors cnt)
         (BatchPanel.skipped cnt + 1)) tr.
Proof.
  intros Ha Ht He. cbn [BatchPanel.batch_loop]. rewrite Ha, He.
  unfold BatchPanel.cell_strip, lift, bind. rewrite Ht. reflexivity.
Qed.

(** A row whose asset id or payload cell is [None] ends the loop where it
    stands: nothing is rendered or sent for it. *)
Lemma batch_loop_unreadable env mode host port usbname effective_lang
    export_dir total (row : BatchPanel.Row) rest i cnt tr :
  BatchPanel.row_get row "asset_id" [] = None
  \/ BatchPanel.row_get row "epc" [] = None ->
  exists e,
    exc_class e = AttributeError
    /\ BatchPanel.batch_loop env mode host port usbname effective_lang
         export_dir total i (row :: rest) cnt tr
       = (Raise e, tr).
Proof.
  intros H. cbn [BatchPanel.batch_loop]. unfold lift, bind.
  destruct (BatchPanel.row_get row "asset_id" []) as [a|] eqn:Ha.
  - destruct H as [H|H]; [discriminate H|]. rewrite H.
    cbn [BatchPanel.cell_strip]. eexists. split; [|reflexivity]. reflexivity.
  - cbn [BatchPanel.cell_strip]. eexists. split; [|reflexivity]. reflexivity.
Qed.

(** A row with an asset id whose tag type cell is [None] ends the loop
    before [print_label] is called. *)
Lemma batch_loop_no_type env mode host port usbname effective_lang
    export_dir total (row : BatchPanel.Row) rest i cnt tr a e :
  BatchPanel.row_get row "asset_id" [] = Some a ->
  truthy (strip a) = true ->
  BatchPanel.row_get row "epc" [] = Some e ->
  BatchPanel.row_get row "type" (lit "Standard (Plastic)") = None ->
  exists exc,
    exc_class exc = AttributeError
    /\ BatchPanel.batch_loop env mode host port usbname effective_lang
         export_dir total i (row :: rest) cnt tr
       = (Raise exc, tr).
Proof.
  intros Ha Ht He Hty. cbn [BatchPanel.batch_loop]. rewrite Ha, He, Hty.
  unfold BatchPanel.cell_strip, BatchPanel.cell_tag_type, lift, bind.
  exists (mkExc AttributeError
            (lit "'NoneType' object has no attribute 'split'")).
  split; [reflexivity|]. rewrite Ht. reflexivity.
Qed.

(** One row with an asset id and readable cells: the events of
    [print_label]; then, on success, the flag, the clock read and the
    attempt to write the backup file, after which the loop goes on when
    the file was written and ends with the exception when it was not; on
    failure, the flag, the log line, and the loop goes on. *)
Lemma batch_loop_item env mode host port usbname effective_lang export_dir
    total (row : BatchPanel.Row) rest i cnt tr a e t :
  BatchPanel.row_get row "asset_id" [] = Some a ->
  truthy (strip a) = true ->
  BatchPanel.row_get row "epc" [] = Some e ->
  BatchPanel.row_get row "type" (lit "Standard (Plastic)") = Some t ->
  let aid := strip a in
  let epc := or_None (Some (strip e)) in
  let name := BatchPanel.cell_text (BatchPanel.row_get row "name" []) in
  let loc := BatchPanel.cell_text (BatchPanel.row_get row "location" []) in
  let typ := tag_type_label t in
  let pre := snd (resolve_language env tr mode host port effective_lang) in
  let lang := fst (resolve_language env tr mode host port effective_lang) in
  let data := rendered (clock env (tr ++ pre)) lang aid epc name loc typ in
  let E1 := pre ++ [EvClock] ++ delivery_events mode host port usbname data in
  let backup :=
    rendered (clock env ((tr ++ E1) ++ [EvRowFlag i "_printed"]))
      (ext_of lang) aid epc name loc typ in
  let file := label_file_name aid (ext_of lang) in
  let E2 := E1 ++ [EvRowFlag i "_printed"; EvClock] in
  exists ok msg,
    delivery_result env ((tr ++ pre) ++ [EvClock]) mode host port usbname data
    = Ok (ok, msg)
    /\ BatchPanel.batch_loop env mode host port usbname effective_lang
         export_dir total i (row :: rest) cnt tr
       = (if ok then
            match write_file env (tr ++ E2) export_dir file backup with
            | Ok _ =>
                BatchPanel.batch_loop env mode host port usbname effective_lang
                  export_dir total (S i) rest
                  (BatchPanel.mkSummary (BatchPanel.success cnt + 1)
                     (BatchPanel.errors cnt) (BatchPanel.skipped cnt))
                  (tr ++ E2 ++ [EvWriteFile export_dir file backup;
                                EvProgress (i + 1) total aid])
            | Raise exc =>
                (Raise exc, tr ++ E2 ++ [EvWriteFile export_dir file backup])
            end
          else
            BatchPanel.batch_loop env mode host port usbname effective_lang
              export_dir total (S i) rest
              (BatchPanel.mkSummary (BatchPanel.success cnt)
                 (BatchPanel.errors cnt + 1) (BatchPanel.skipped cnt))
              (tr ++ E1 ++ [EvRowFlag i "_error";
                            EvLog (lit "Print failed [" ++ aid ++ lit "]: "
                                   ++ msg) (lit "warn");
                            EvProgress (i + 1) total aid])).
Proof.
  intros Ha Ht He Hty aid epc name loc typ pre lang data E1 backup file E2.
  destruct (print_label_run env aid epc name loc typ mode host port usbname
              effective_lang tr) as [ok [msg [Hd Hrun]]].
  fold pre lang in Hd, Hrun. fold data in Hd, Hrun. fold E1 in Hrun.
  exists ok, msg. split; [exact Hd|].
  cbn [BatchPanel.batch_loop]. rewrite Ha, He, Hty.
  unfold BatchPanel.cell_strip, BatchPanel.cell_tag_type.
  unfold lift at 1. unfold bind at 1.
  unfold lift at 1. unfold bind at 1.
  rewrite Ht. cbn [negb]. fold aid.
  unfold lift at 1. unfold bind at 1.
  fold epc name loc typ.
  unfold bind at 1. rewrite Hrun.
  destruct ok.
  - subst backup E2 file. unfold rendered, HoneywellPrinter.ipl, HoneywellPrinter.zpl,
      write, bind, ret, get_trace, emit, log.
    destruct (str_eqb (ext_of lang) (lit "ipl"));
      cbv beta iota; rewrite <- !app_assoc; cbn [app];
      match goal with
      | |- context [write_file ?e ?t ?d ?f ?b] =>
          destruct (write_file e t d f b)
      end; cbv beta iota; rewrite <- ?app_assoc; reflexivity.
  - unfold log, bind, ret, get_trace, emit.
    cbv beta iota. rewrite <- !app_assoc. reflexivity.
Qed.

Lemma count_empty_ids_le (rows : list BatchPanel.Row) :
  (count_empty_ids rows <= length rows)%nat.
Proof.
  induction rows as [|row rest IH]; cbn [count_empty_ids length]; [lia|].
  destruct (empty_id row); lia.
Qed.

Lemma count_empty_ids_cons (row : BatchPanel.Row) rest :
  count_empty_ids (row :: rest)
  = ((if empty_id row then 1 else 0) + count_empty_ids rest)%nat.
Proof. reflexivity. Qed.

Lemma empty_id_of (row : BatchPanel.Row) a :
  BatchPanel.row_get row "asset_id" [] = Some a ->
  empty_id row = negb (truthy (strip a)).
Proof. intros H. unfold empty_id. rewrite H. reflexivity. Qed.

Lemma item_events_counts env tr mode host port usbname effective_lang data :
  let pre := snd (resolve_language env tr mode host port effective_lang) in
  let E1 := pre ++ [EvClock] ++ delivery_events mode host port usbname data in
  count_events is_probe E1
  = (if str_eqb effective_lang (lit "auto")
        && str_eqb mode HoneywellPrinter.MODE_NETWORK && truthy host
     then 1%nat else 0%nat)
  /\ count_events is_write E1 = 0%nat
  /\ (count_events is_send E1 <= 1)%nat
  /\ count_events is_send E1
     = (if str_eqb mode HoneywellPrinter.MODE_NETWORK && negb (truthy host)
        then 0%nat else 1%nat).
Proof.
  intros pre E1. subst E1. rewrite !count_events_app.
  pose proof (resolve_language_probe_count env tr mode host port
                effective_lang) as Hp.
  destruct (resolve_language_other_counts env tr mode host port
              effective_lang) as [Hw Hs].
  destruct (delivery_events_counts mode host port usbname data)
    as [Hdp [Hdw Hds]].
  fold pre in Hp, Hw, Hs. rewrite Hp, Hw, Hs, Hdp, Hdw.
  cbn [count_events is_probe is_write is_send].
  repeat apply conj; try lia.
  unfold delivery_events.
  destruct (str_eqb mode HoneywellPrinter.MODE_NETWORK);
    [destruct (truthy host)|]; reflexivity.
Qed.

Lemma item_delivered env tr mode host port usbname effective_lang data ok msg :
  let pre := snd (resolve_language env tr mode host port effective_lang) in
  delivery_result env ((tr ++ pre) ++ [EvClock]) mode host port usbname data
  = Ok (ok, msg) ->
  delivered env tr
    (pre ++ [EvClock] ++ delivery_events mode host port usbname data)
  = (if ok then 1 else 0)%nat.
Proof.
  intros pre Hd. rewrite !delivered_app.
  unfold pre at 1. rewrite delivered_resolve.
  rewrite (delivered_delivery _ _ _ _ _ _ _ _ _ Hd).
  cbn [delivered attempt_ok]. lia.
Qed.

(** The loop, whatever the rows hold and however it ends: no probe unless
    the language it was given is still "auto" (with network mode and a
    host), and at most one delivery attempt and one file for each row that
    has an asset id. *)
Lemma batch_loop_events env mode host port usbname effective_lang export_dir
    total rows : forall i cnt tr,
  exists r evs,
    BatchPanel.batch_loop env mode host port usbname effective_lang
      export_dir total i rows cnt tr = (r, tr ++ evs)
    /\ (str_eqb effective_lang (lit "auto")
          && str_eqb mode HoneywellPrinter.MODE_NETWORK && truthy host = false ->
        count_events is_probe evs = 0%nat)
    /\ (count_events is_send evs <= length rows - count_empty_ids rows)%nat
    /\ (count_events is_write evs <= length rows - count_empty_ids rows)%nat.
Proof.
  set (probing := str_eqb effective_lang (lit "auto")
                  && str_eqb mode HoneywellPrinter.MODE_NETWORK
                  && truthy host).
  assert (Hstop : forall (r : Res BatchPanel.Summary) (tr : list Event) n,
            exists r' evs, (r, tr) = (r', tr ++ evs)
              /\ (probing = false -> count_events is_probe evs = 0%nat)
              /\ (count_events is_send evs <= n)%nat
              /\ (count_events is_write evs <= n)%nat).
  { intros r tr n. exists r, []. rewrite app_nil_r.
    cbn [count_events]. repeat apply conj; [reflexivity | reflexivity | lia | lia]. }
  induction rows as [|row rest IH]; intros i cnt tr.
  - apply Hstop.
  - pose proof (count_empty_ids_le rest) as Hle.
    rewrite count_empty_ids_cons. cbn [length].
    destruct (BatchPanel.row_get row "asset_id" []) as [a|] eqn:Ha.
    2:{ destruct (batch_loop_unreadable env mode host port usbname
                    effective_lang export_dir total row rest i cnt tr
                    (or_introl Ha)) as [e [_ ->]].
        apply Hstop. }
    destruct (BatchPanel.row_get row "epc" []) as [e|] eqn:He.
    2:{ destruct (batch_loop_unreadable env mode host port usbname
                    effective_lang export_dir total row rest i cnt tr
                    (or_intror He)) as [exc [_ ->]].
        apply Hstop. }
    rewrite (empty_id_of _ _ Ha).
    destruct (truthy (strip a)) eqn:Ht; cbn [negb].
    2:{ rewrite (batch_loop_skip _ _ _ _ _ _ _ _ _ _ _ _ _ _ _ Ha Ht He).
        match goal with
        | |- context [BatchPanel.batch_loop _ _ _ _ _ _ _ _ _ _ ?c tr] =>
            destruct (IH (S i) c tr) as [r [evs [Hrun [Hp [Hs Hw]]]]]
        end.
        exists r, evs. rewrite Hrun.
        repeat apply conj; [reflexivity | exact Hp | lia | lia]. }
    destruct (BatchPanel.row_get row "type" (lit "Standard (Plastic)"))
      as [t|] eqn:Hty.
    2:{ destruct (batch_loop_no_type env mode host port usbname
                    effective_lang export_dir total row rest i cnt tr a e
                    Ha Ht He Hty) as [exc [_ ->]].
        apply Hstop. }
    destruct (batch_loop_item env mode host port usbname effective_lang
                export_dir total row rest i cnt tr a e t Ha Ht He Hty)
      as [ok [msg [Hd Hstep]]].
    rewrite Hstep. clear Hstep.
    match goal with
    | |- context [delivery_events mode host port usbname ?d] =>
        destruct (item_events_counts env tr mode host port usbname
                    effective_lang d) as [Hp1 [Hw1 [Hs1 _]]];
        set (E1 := snd (resolve_language env tr mode host port effective_lang)
                   ++ [EvClock] ++ delivery_events mode host port usbname d)
          in *
    end.
    fold probing in Hp1.
    destruct ok.
    + match goal with
      | |- context [write_file ?e ?t ?d ?f ?b] =>
          destruct (write_file e t d f b) as [u|exc]
      end.
      * match goal with
        | |- context [BatchPanel.batch_loop _ _ _ _ _ _ _ _ _ _ ?c ?t] =>
            destruct (IH (S i) c t) as [r [evs [Hrun [Hp [Hs Hw]]]]]
        end.
        rewrite Hrun. eexists. eexists.
        split; [rewrite <- !app_assoc; reflexivity|].
        rewrite !count_events_app, Hw1.
        cbn [app count_events is_probe is_send is_write].
        rewrite ?count_events_app.
        repeat apply conj; [|lia|lia].
        intros Hpr. rewrite Hp1, Hpr, (Hp Hpr). reflexivity.
      * eexists. eexists.
        split; [rewrite <- !app_assoc; reflexivity|].
        rewrite !count_events_app, Hw1.
        cbn [app count_events is_probe is_send is_write].
        rewrite ?count_events_app.
        repeat apply conj; [|lia|lia].
        intros Hpr. rewrite Hp1, Hpr. reflexivity.
    + match goal with
      | |- context [BatchPanel.batch_loop _ _ _ _ _ _ _ _ _ _ ?c ?t] =>
          destruct (IH (S i) c t) as [r [evs [Hrun [Hp [Hs Hw]]]]]
      end.
      rewrite Hrun. eexists. eexists.
      split; [rewrite <- !app_assoc; reflexivity|].
      rewrite !count_events_app, Hw1.
      cbn [app count_events is_probe is_send is_write].
      rewrite ?count_events_app.
      repeat apply conj; [|lia|lia].
      intros Hpr. rewrite Hp1, Hpr, (Hp Hpr). reflexivity.
Qed.

(** The loop over rows whose cells can be read, with backup files that can
    be written: it runs over every row and returns the counters, which
    count the rows by what became of them. *)
Lemma batch_loop_spec env mode host port usbname effective_lang export_dir
    total rows :
  forallb row_reads rows = true ->
  (forall tr' dir name content, write_file env tr' dir name content = Ok tt) ->
  forall i cnt tr,
  exists s evs,
    BatchPanel.batch_loop env mode host port usbname effective_lang
      export_dir total i rows cnt tr = (Ok s, tr ++ evs)
    /\ BatchPanel.success s
       = (BatchPanel.success cnt + delivered env tr evs)%nat
    /\ (BatchPanel.errors s + delivered env tr evs
        = BatchPanel.errors cnt + (length rows - count_empty_ids rows))%nat
    /\ BatchPanel.skipped s
       = (BatchPanel.skipped cnt + count_empty_ids rows)%nat
    /\ count_events is_write evs = delivered env tr evs
    /\ count_events is_send evs
       = (if str_eqb mode HoneywellPrinter.MODE_NETWORK && negb (truthy host)
          then 0%nat else (length rows - count_empty_ids rows)%nat)
    /\ ((forall tr' data, exists msg,
            delivery_result env tr' mode host port usbname data
            = Ok (true, msg)) ->
        BatchPanel.errors s = BatchPanel.errors cnt).
Proof.
  intros Hreads Hwrite.
  induction rows as [|row rest IH]; intros i cnt tr.
  - exists cnt, []. rewrite app_nil_r. cbn [length count_empty_ids delivered
                                              count_events].
    repeat apply conj; try reflexivity; try lia.
    destruct (_ && _); reflexivity.
  - pose proof (count_empty_ids_le rest) as Hle.
    cbn [forallb] in Hreads. apply andb_prop in Hreads as [Hrow Hrest].
    specialize (IH Hrest).
    rewrite count_empty_ids_cons. cbn [length].
    unfold row_reads in Hrow.
    destruct (BatchPanel.row_get row "asset_id" []) as [a|] eqn:Ha;
      [|discriminate Hrow].
    destruct (BatchPanel.row_get row "epc" []) as [e|] eqn:He;
      [|discriminate Hrow].
    rewrite (empty_id_of _ _ Ha).
    destruct (truthy (strip a)) eqn:Ht; cbn [negb].
    2:{ rewrite (batch_loop_skip _ _ _ _ _ _ _ _ _ _ _ _ _ _ _ Ha Ht He).
        match goal with
        | |- context [BatchPanel.batch_loop _ _ _ _ _ _ _ _ _ _ ?c tr] =>
            destruct (IH (S i) c tr)
              as [s [evs [Hrun [Hsu [Her [Hsk [Hw [Hsn Hok]]]]]]]]
        end.
        exists s, evs. rewrite Hrun.
        cbn [BatchPanel.success BatchPanel.errors BatchPanel.skipped] in *.
        repeat apply conj;
          [reflexivity | lia | lia | lia | exact Hw | | exact Hok].
        rewrite Hsn. destruct (_ && _); lia. }
    destruct (BatchPanel.row_get row "type" (lit "Standard (Plastic)"))
      as [t|] eqn:Hty; [|discriminate Hrow].
    destruct (batch_loop_item env mode host port usbname effective_lang
                export_dir total row rest i cnt tr a e t Ha Ht He Hty)
      as [ok [msg [Hd Hstep]]].
    rewrite Hstep. clear Hstep.
    pose proof (item_delivered env tr mode host port usbname effective_lang
                  _ ok msg Hd) as Hdel.
    match goal with
    | |- context [delivery_events mode host port usbname ?d] =>
        destruct (item_events_counts env tr mode host port usbname
                    effective_lang d) as [_ [Hw1 [_ Hs1]]];
        set (E1 := snd (resolve_language env tr mode host port effective_lang)
                   ++ [EvClock] ++ delivery_events mode host port usbname d)
          in *
    end.
    destruct ok.
    + rewrite Hwrite.
      match goal with
      | |- context [BatchPanel.batch_loop _ _ _ _ _ _ _ _ _ _ ?c (tr ++ ?x)] =>
          destruct (IH (S i) c (tr ++ x))
            as [s [evs [Hrun [Hsu [Her [Hsk [Hw [Hsn Hok]]]]]]]];
          exists s, (x ++ evs)
      end.
      rewrite Hrun, <- !app_assoc. split; [reflexivity|].
      rewrite <- ?app_assoc in Hsu, Her, Hw.
      rewrite !delivered_app, !count_events_app, Hdel, Hw1, Hw, Hs1, Hsn.
      cbn [app delivered attempt_ok count_events is_write is_send] in *.
      rewrite <- !app_assoc. cbn [app].
      cbn [BatchPanel.success BatchPanel.errors BatchPanel.skipped] in *.
      repeat apply conj; try lia; [destruct (_ && _); lia | exact Hok].
    + match goal with
      | |- context [BatchPanel.batch_loop _ _ _ _ _ _ _ _ _ _ ?c (tr ++ ?x)] =>
          destruct (IH (S i) c (tr ++ x))
            as [s [evs [Hrun [Hsu [Her [Hsk [Hw [Hsn Hok]]]]]]]];
          exists s, (x ++ evs)
      end.
      rewrite Hrun, <- !app_assoc. split; [reflexivity|].
      rewrite <- ?app_assoc in Hsu, Her, Hw.
      rewrite !delivered_app, !count_events_app, Hdel, Hw1, Hw, Hs1, Hsn.
      cbn [app delivered attempt_ok count_events is_write is_send] in *.
      rewrite <- !app_assoc. cbn [app].
      cbn [BatchPanel.success BatchPanel.errors BatchPanel.skipped] in *.
      repeat apply conj; try lia; [destruct (_ && _); lia |].
      intros Hall.
      match type of Hd with
      | delivery_result _ ?t _ _ _ _ ?d = _ =>
          destruct (Hall t d) as [msg' Hm]
      end.
      rewrite Hm in Hd. discriminate Hd.
Qed.

Lemma lang_of_detected_not_auto (v : list N) :
  str_eqb (lang_of_detected v) (lit "auto") = false.
Proof. unfold lang_of_detected. destruct (str_eqb v (lit "ipl")); reflexivity. Qed.

(** The whole batch, step by step: an optional probe, the export
    directory, the rows, and the summary when the rows were run through. *)
Lemma batch_print_run env (settings : gmap string (list N))
    (rows : list BatchPanel.Row) (tr : list Event) :
  rows <> [] ->
  let mode := opt_or (get_setting settings "print_mode") (lit "network") in
  let host := opt_or (get_setting settings "printer_ip") [] in
  let port :=
    match parse_int env
            (opt_or (get_setting settings "printer_port") (lit "9100")) with
    | Some z => z
    | None => 9100%Z
    end in
  let usbname := or_None (get_setting settings "printer_usb_name") in
  let lang := opt_or (get_setting settings "printer_lang") (lit "auto") in
  let export_dir :=
    opt_or (get_setting settings "export_dir") (EXPORT_DIR env) in
  let probing :=
    str_eqb lang (lit "auto") && str_eqb mode (lit "network") && truthy host in
  let detected :=
    match HoneywellPrinter.detect_language_on
            (peer env (tr ++ [EvLog (lit "Probing printer language" ++ [8230])
                                (lit "info")]) host port) with
    | Ok v => v
    | Raise _ => lit "unknown"
    end in
  let effective_lang := if probing then lang_of_detected detected else lang in
  let pre :=
    if probing
    then [EvLog (lit "Probing printer language" ++ [8230]) (lit "info");
          EvProbe host port;
          EvLog (lit "Printer language: " ++ upper effective_lang) (lit "ok")]
    else [] in
  BatchPanel._batch_print env settings rows tr
  = match makedirs env (tr ++ pre) export_dir with
    | Raise e => (Raise e, tr ++ pre ++ [EvMakedirs export_dir])
    | Ok _ =>
        match BatchPanel.batch_loop env mode host port usbname effective_lang
                export_dir (length rows) 0 rows (BatchPanel.mkSummary 0 0 0)
                (tr ++ pre ++ [EvMakedirs export_dir]) with
        | (Ok s, t2) =>
            (Ok (Some s),
             t2 ++ [EvStatus (BatchPanel.done_text s);
                    EvLog (BatchPanel.complete_text s) (lit "ok"); EvRefresh])
        | (Raise e, t2) => (Raise e, t2)
        end
    end.
Proof.
  intros Hne mode host port usbname lang export_dir probing detected
    effective_lang pre.
  destruct rows as [|row0 rest0]; [contradiction|].
  set (rows := row0 :: rest0) in *.
  unfold BatchPanel._batch_print. fold rows.
  change (match rows with
          | [] => ?a
          | _ :: _ => ?b
          end) with b.
  cbv zeta. fold mode host port usbname lang export_dir.
  subst pre effective_lang.
  destruct probing eqn:Hprobing; subst probing; rewrite Hprobing;
    unfold HoneywellPrinter.detect_language, mkdir, log, bind, ret, emit,
      get_trace, lift; cbv beta iota zeta.
  - subst detected.
    destruct (detect_language_on_total
                (peer env (tr ++ [EvLog (lit "Probing printer language" ++ [8230])
                                    (lit "info")]) host port))
      as [v [Hv _]].
    rewrite Hv. cbv beta iota zeta.
    change (if str_eqb v (lit "ipl") then lit "ipl" else lit "zpl")
      with (lang_of_detected v).
    rewrite <- !app_assoc. cbn [app].
    destruct (makedirs env _ export_dir) as [u|e]; [|reflexivity].
    destruct (BatchPanel.batch_loop _ _ _ _ _ _ _ _ _ _ _ _) as [[s|e] t2];
      [|reflexivity].
    rewrite <- !app_assoc. reflexivity.
  - rewrite app_nil_r. cbn [app].
    destruct (makedirs env _ export_dir) as [u|e]; [|reflexivity].
    destruct (BatchPanel.batch_loop _ _ _ _ _ _ _ _ _ _ _ _) as [[s|e] t2];
      [|reflexivity].
    rewrite <- !app_assoc. reflexivity.
Qed.

(** The whole batch, however it ends: the probe, when there is one, comes
    first, and no event after it is a probe. *)
Lemma batch_print_events env (settings : gmap string (list N))
    (rows : list BatchPanel.Row) (tr : list Event) :
  rows <> [] ->
  let mode := opt_or (get_setting settings "print_mode") (lit "network") in
  let host := opt_or (get_setting settings "printer_ip") [] in
  let port :=
    match parse_int env
            (opt_or (get_setting settings "printer_port") (lit "9100")) with
    | Some z => z
    | None => 9100%Z
    end in
  let lang := opt_or (get_setting settings "printer_lang") (lit "auto") in
  let probing :=
    str_eqb lang (lit "auto") && str_eqb mode (lit "network") && truthy host in
  exists r pre evs,
    BatchPanel._batch_print env settings rows tr = (r, tr ++ pre ++ evs)
    /\ pre = (if probing
              then [EvLog (lit "Probing printer language" ++ [8230]) (lit "info");
                    EvProbe host port]
              else [])
    /\ count_events is_probe evs = 0%nat
    /\ (count_events is_send evs <= length rows - count_empty_ids rows)%nat.
Proof.
  intros Hne mode host port lang probing.
  rewrite (batch_print_run env settings rows tr Hne).
  fold mode host port lang. fold probing.
  set (usbname := or_None (get_setting settings "printer_usb_name")).
  set (export_dir := opt_or (get_setting settings "export_dir") (EXPORT_DIR env)).
  set (detected := match HoneywellPrinter.detect_language_on _ with
                   | Ok v => v
                   | Raise _ => lit "unknown"
                   end).
  set (effective_lang := if probing then lang_of_detected detected else lang).
  assert (Heff : str_eqb effective_lang (lit "auto")
                 && str_eqb mode HoneywellPrinter.MODE_NETWORK && truthy host
                 = false).
  { subst effective_lang. destruct probing eqn:Hp.
    - rewrite lang_of_detected_not_auto. reflexivity.
    - exact Hp. }
  set (pre := if probing
              then [EvLog (lit "Probing printer language" ++ [8230]) (lit "info");
                    EvProbe host port;
                    EvLog (lit "Printer language: " ++ upper effective_lang)
                      (lit "ok")]
              else []).
  assert (Hpre : forall tail,
            tr ++ pre ++ tail
            = tr ++ (if probing
                     then [EvLog (lit "Probing printer language" ++ [8230])
                             (lit "info");
                           EvProbe host port]
                     else [])
                 ++ (if probing
                     then [EvLog (lit "Printer language: "
                                  ++ upper effective_lang) (lit "ok")]
                     else []) ++ tail).
  { intros tail. subst pre. destruct probing; reflexivity. }
  assert (Hlog : count_events is_probe
                   (if probing
                    then [EvLog (lit "Printer language: "
                                 ++ upper effective_lang) (lit "ok")]
                    else []) = 0%nat
                 /\ count_events is_send
                      (if probing
                       then [EvLog (lit "Printer language: "
                                    ++ upper effective_lang) (lit "ok")]
                       else []) = 0%nat).
  { destruct probing; split; reflexivity. }
  destruct Hlog as [Hlp Hls].
  destruct (makedirs env (tr ++ pre) export_dir) as [u|e].
  - destruct (batch_loop_events env mode host port usbname effective_lang
                export_dir (length rows) rows 0%nat
                (BatchPanel.mkSummary 0 0 0)
                (tr ++ pre ++ [EvMakedirs export_dir]))
      as [r [evs [Hrun [Hp [Hs _]]]]].
    rewrite Hrun. specialize (Hp Heff).
    destruct r as [s|e].
    + exists (Ok (Some s)),
        (if probing
         then [EvLog (lit "Probing printer language" ++ [8230]) (lit "info");
               EvProbe host port]
         else []),
        ((if probing
          then [EvLog (lit "Printer language: " ++ upper effective_lang)
                  (lit "ok")]
          else []) ++ [EvMakedirs export_dir] ++ evs ++ [EvStatus (BatchPanel.done_text s);
                 EvLog (BatchPanel.complete_text s) (lit "ok"); EvRefresh]).
      split; [rewrite <- Hpre, <- ?app_assoc; reflexivity|].
      split; [reflexivity|].
      rewrite !count_events_app, Hlp, Hls, ?Hp.
      cbn [count_events is_probe is_send]. split; lia.
    + exists (Raise e),
        (if probing
         then [EvLog (lit "Probing printer language" ++ [8230]) (lit "info");
               EvProbe host port]
         else []),
        ((if probing
          then [EvLog (lit "Printer language: " ++ upper effective_lang)
                  (lit "ok")]
          else []) ++ [EvMakedirs export_dir] ++ evs).
      split; [rewrite <- Hpre, <- ?app_assoc; reflexivity|].
      split; [reflexivity|].
      rewrite !count_events_app, Hlp, Hls, ?Hp.
      cbn [count_events is_probe is_send]. split; lia.
  - exists (Raise e),
      (if probing
       then [EvLog (lit "Probing printer language" ++ [8230]) (lit "info");
             EvProbe host port]
       else []),
      ((if probing
        then [EvLog (lit "Printer language: " ++ upper effective_lang)
                (lit "ok")]
        else []) ++ [EvMakedirs export_dir]).
    split; [rewrite <- Hpre; reflexivity|].
    split; [reflexivity|].
    rewrite !count_events_app, Hlp, Hls.
    cbn [count_events is_probe is_send]. split; lia.
Qed.

(** The whole batch over rows whose cells can be read, when the export
    directory and the backup files can be written. *)
Lemma batch_print_spec env (settings : gmap string (list N))
    (rows : list BatchPanel.Row) (tr : list Event) :
  rows <> [] ->
  forallb row_reads rows = true ->
  (forall tr' dir, makedirs env tr' dir = Ok tt) ->
  (forall tr' dir name content, write_file env tr' dir name content = Ok tt) ->
  let mode := opt_or (get_setting settings "print_mode") (lit "network") in
  let host := opt_or (get_setting settings "printer_ip") [] in
  let port :=
    match parse_int env
            (opt_or (get_setting settings "printer_port") (lit "9100")) with
    | Some z => z
    | None => 9100%Z
    end in
  let usbname := or_None (get_setting settings "printer_usb_name") in
  exists s body,
    BatchPanel._batch_print env settings rows tr
    = (Ok (Some s),
       tr ++ body ++ [EvStatus (BatchPanel.done_text s);
                      EvLog (BatchPanel.complete_text s) (lit "ok");
                      EvRefresh])
    /\ BatchPanel.success s = delivered env tr body
    /\ (BatchPanel.errors s + delivered env tr body
        = length rows - count_empty_ids rows)%nat
    /\ BatchPanel.skipped s = count_empty_ids rows
    /\ count_events is_write body = delivered env tr body
    /\ count_events is_send body
       = (if str_eqb mode HoneywellPrinter.MODE_NETWORK && negb (truthy host)
          then 0%nat else (length rows - count_empty_ids rows)%nat)
    /\ ((forall tr' data, exists msg,
            delivery_result env tr' mode host port usbname data
            = Ok (true, msg)) ->
        BatchPanel.errors s = 0%nat).
Proof.
  intros Hne Hreads Hmk Hwrite mode host port usbname.
  rewrite (batch_print_run env settings rows tr Hne).
  fold mode host port usbname.
  set (lang := opt_or (get_setting settings "printer_lang") (lit "auto")).
  set (probing := str_eqb lang (lit "auto") && str_eqb mode (lit "network")
                  && truthy host).
  set (export_dir := opt_or (get_setting settings "export_dir") (EXPORT_DIR env)).
  set (detected := match HoneywellPrinter.detect_language_on _ with
                   | Ok v => v
                   | Raise _ => lit "unknown"
                   end).
  set (effective_lang := if probing then lang_of_detected detected else lang).
  set (pre := if probing
              then [EvLog (lit "Probing printer language" ++ [8230]) (lit "info");
                    EvProbe host port;
                    EvLog (lit "Printer language: " ++ upper effective_lang)
                      (lit "ok")]
              else []).
  assert (Hpre : count_events is_send pre = 0%nat
                 /\ count_events is_write pre = 0%nat).
  { subst pre. destruct probing; split; reflexivity. }
  destruct Hpre as [Hps Hpw].
  rewrite Hmk.
  destruct (batch_loop_spec env mode host port usbname effective_lang
              export_dir (length rows) rows Hreads Hwrite 0%nat
              (BatchPanel.mkSummary 0 0 0)
              (tr ++ pre ++ [EvMakedirs export_dir]))
    as [s [evs [Hrun [Hsu [Her [Hsk [Hw [Hsn Hok]]]]]]]].
  rewrite Hrun.
  cbn [BatchPanel.success BatchPanel.errors BatchPanel.skipped] in *.
  exists s, (pre ++ [EvMakedirs export_dir] ++ evs).
  split; [rewrite <- !app_assoc; reflexivity|].
  rewrite !delivered_app, !count_events_app.
  rewrite (delivered_no_send env pre tr Hps), Hpw, Hps, Hsn.
  cbn [delivered attempt_ok count_events is_write is_send].
  rewrite <- !app_assoc in *. cbn [app] in *.
  repeat apply conj; try lia. exact Hok.
Qed.

(* ===================================================================== *)
(** ** The language reported by [print_label] (C10) *)
(* ===================================================================== *)

(** C10, as stated, fails: called with the selector "AUTO" (in capitals) in
    network mode with no host configured, [print_label] returns the language
    "auto". *)
Lemma print_label_reports_auto :
  HoneywellPrinter.print_label (sample_env quiet_peer) sample_asset_id None
    sample_name sample_location sample_tag_type HoneywellPrinter.MODE_NETWORK
    [] 9100%Z None (lit "AUTO") []
  = (Ok (false, lit "No printer IP address configured", lit "auto"), [EvClock])
  /\ lit "auto" <> lit "zpl" /\ lit "auto" <> lit "ipl".
Proof. vm_compute. repeat apply conj; [reflexivity | discriminate | discriminate]. Qed.

(** C10, amended: every call of [print_label] returns, whatever the
    selector. When the selector is "auto", or is "zpl" or "ipl" in any
    letter case, the language it reports is "zpl" or "ipl": also when the
    call stops at the missing host of network mode, before anything is
    sent. For every selector other than "auto" the language reported is the
    selector in lower case. *)
Theorem print_label_language_used :
  forall env asset_id epc name location tag_type mode host port printer_name
         language tr,
    exists ok msg lang tr',
      HoneywellPrinter.print_label env asset_id epc name location tag_type
        mode host port printer_name language tr
      = (Ok (ok, msg, lang), tr')
      /\ (language = lit "auto" \/ str_lower env language = lit "zpl"
          \/ str_lower env language = lit "ipl" ->
          lang = lit "zpl" \/ lang = lit "ipl")
      /\ (language <> lit "auto" -> lang = str_lower env language)
      /\ (mode = HoneywellPrinter.MODE_NETWORK -> host = [] ->
          ok = false /\ msg = lit "No printer IP address configured"
          /\ count_events is_send tr' = count_events is_send tr).
Proof.
  intros env aid epc name loc typ mode host port pn language tr.
  destruct (print_label_run env aid epc name loc typ mode host port pn
              language tr) as [ok [msg [Hd Hrun]]].
  do 4 eexists. split; [exact Hrun|]. split; [|split].
  - apply resolve_language_cases.
  - intros Hne. rewrite resolve_language_not_auto; [reflexivity|].
    apply str_eqb_neq. exact Hne.
  - intros -> ->. revert Hd. unfold delivery_result, delivery_events.
    rewrite str_eqb_refl. cbn [truthy]. intros [= <- <-].
    split; [reflexivity|]. split; [reflexivity|].
    rewrite !count_events_app.
    destruct (resolve_language_no_probe env tr HoneywellPrinter.MODE_NETWORK
                [] port language) as [-> _].
    { cbn [truthy]. apply andb_false_r. }
    cbn. lia.
Qed.

Lemma print_label_language_used_witness :
  exists ok msg lang tr',
    HoneywellPrinter.print_label (sample_env quiet_peer) sample_asset_id None
      sample_name sample_location sample_tag_type HoneywellPrinter.MODE_NETWORK
      [] 9100%Z None (lit "EPL") []
    = (Ok (ok, msg, lang), tr')
    /\ lang = lit "epl"
    /\ ok = false.
Proof.
  destruct (print_label_language_used (sample_env quiet_peer) sample_asset_id
              None sample_name sample_location sample_tag_type
              HoneywellPrinter.MODE_NETWORK [] 9100%Z None (lit "EPL") [])
    as [ok [msg [lang [tr' [Hrun [_ [Hlow Hhost]]]]]]].
  exists ok, msg, lang, tr'. split; [exact Hrun|]. split.
  - apply Hlow. discriminate.
  - apply Hhost; reflexivity.
Defined.

(* ===================================================================== *)
(** ** Language resolution under AUTO (C8) *)
(* ===================================================================== *)

(** C8: with the selector "auto", [print_label] in network mode with a host
    probes exactly once, first of all, and reports "ipl" when the probe says
    "ipl" and "zpl" otherwise ("unknown" included); in any other mode it
    reports "zpl" without probing. A batch whose settings say "auto",
    "network" and a host probes once, before the first row, and never while
    the rows are printed, however the batch ends; it runs to its end when
    the cells of the rows can be read and the export directory and the
    backup files can be written. *)
Theorem auto_language_probes_once :
  forall env asset_id epc name location tag_type mode host port printer_name tr
         (settings : gmap string (list N)) (rows : list BatchPanel.Row),
    (mode = HoneywellPrinter.MODE_NETWORK -> truthy host = true ->
     exists detected ok msg evs,
       HoneywellPrinter.detect_language_on (peer env tr host port) = Ok detected
       /\ HoneywellPrinter.print_label env asset_id epc name location tag_type
            mode host port printer_name (lit "auto") tr
          = (Ok (ok, msg, lang_of_detected detected),
             tr ++ [EvProbe host port] ++ evs)
       /\ count_events is_probe evs = 0%nat
       /\ (detected = lit "unknown" -> lang_of_detected detected = lit "zpl"))
    /\ (mode <> HoneywellPrinter.MODE_NETWORK ->
        exists ok msg evs,
          HoneywellPrinter.print_label env asset_id epc name location tag_type
            mode host port printer_name (lit "auto") tr
          = (Ok (ok, msg, lit "zpl"), tr ++ evs)
          /\ count_events is_probe evs = 0%nat)
    /\ (rows <> [] ->
        opt_or (get_setting settings "printer_lang") (lit "auto") = lit "auto" ->
        opt_or (get_setting settings "print_mode") (lit "network")
        = lit "network" ->
        truthy (opt_or (get_setting settings "printer_ip") []) = true ->
        exists r port' evs,
          BatchPanel._batch_print env settings rows tr
          = (r,
             tr ++ [EvLog (lit "Probing printer language" ++ [8230]) (lit "info");
                    EvProbe (opt_or (get_setting settings "printer_ip") []) port']
                ++ evs)
          /\ count_events is_probe evs = 0%nat
          /\ (forallb row_reads rows = true ->
              (forall tr' dir, makedirs env tr' dir = Ok tt) ->
              (forall tr' dir name content,
                  write_file env tr' dir name content = Ok tt) ->
              exists s, r = Ok (Some s))).
Proof.
  intros env aid epc name loc typ mode host port pn tr settings rows.
  repeat apply conj.
  - intros -> Hh.
    destruct (resolve_language_detected env tr HoneywellPrinter.MODE_NETWORK
                host port (lit "auto")) as [v [Hv Hres]].
    { rewrite Hh. reflexivity. }
    destruct (print_label_run env aid epc name loc typ
                HoneywellPrinter.MODE_NETWORK host port pn (lit "auto") tr)
      as [ok [msg [_ Hrun]]].
    rewrite Hres in Hrun. cbn [fst snd] in Hrun.
    exists v, ok, msg. eexists. split; [exact Hv|]. split; [exact Hrun|].
    split; [|intros ->; reflexivity].
    rewrite count_events_app.
    match goal with
    | |- context [delivery_events ?m ?h ?p ?n ?d] =>
        destruct (delivery_events_counts m h p n d) as [-> _]
    end.
    reflexivity.
  - intros Hm.
    destruct (resolve_language_no_probe env tr mode host port (lit "auto"))
      as [Hsnd Hfst].
    { rewrite (str_eqb_neq _ _ Hm). reflexivity. }
    destruct (print_label_run env aid epc name loc typ mode host port pn
                (lit "auto") tr) as [ok [msg [_ Hrun]]].
    rewrite Hsnd, Hfst in Hrun. cbn [app] in Hrun.
    exists ok, msg. eexists. split; [exact Hrun|].
    change (EvClock :: ?l) with ([EvClock] ++ l).
    rewrite count_events_app.
    match goal with
    | |- context [delivery_events ?m ?h ?p ?n ?d] =>
        destruct (delivery_events_counts m h p n d) as [-> _]
    end.
    reflexivity.
  - intros Hne Hl Hm Hh.
    destruct (batch_print_events env settings rows tr Hne)
      as [r [pre [evs [Hrun [Hpre [Hp _]]]]]].
    rewrite Hl, Hm, Hh in Hpre.
    change (str_eqb (lit "auto") (lit "auto")) with true in Hpre.
    change (str_eqb (lit "network") (lit "network")) with true in Hpre.
    cbn [andb] in Hpre. subst pre.
    exists r. eexists. exists evs. split; [exact Hrun|]. split; [exact Hp|].
    intros Hreads Hmk Hwrite.
    destruct (batch_print_spec env settings rows tr Hne Hreads Hmk Hwrite)
      as [s [body [Hrun' _]]].
    rewrite Hrun' in Hrun. injection Hrun as <- _. exists s. reflexivity.
Qed.

Lemma auto_language_probes_once_witness :
  exists detected ok msg evs,
    HoneywellPrinter.detect_language_on
      (peer (sample_env refusing_peer) [] sample_host 9100%Z) = Ok detected
    /\ HoneywellPrinter.print_label (sample_env refusing_peer) sample_asset_id
         None sample_name sample_location sample_tag_type
         HoneywellPrinter.MODE_NETWORK sample_host 9100%Z None (lit "auto") []
       = (Ok (ok, msg, lang_of_detected detected),
          [] ++ [EvProbe sample_host 9100%Z] ++ evs)
    /\ count_events is_probe evs = 0%nat
    /\ (detected = lit "unknown" -> lang_of_detected detected = lit "zpl").
Proof.
  apply (proj1 (auto_language_probes_once (sample_env refusing_peer)
                  sample_asset_id None sample_name sample_location
                  sample_tag_type HoneywellPrinter.MODE_NETWORK sample_host
                  9100%Z None [] sample_settings []));
    reflexivity.
Defined.

(* ===================================================================== *)
(** ** The batch summary (C9) *)
(* ===================================================================== *)




(* ===================================================================== *)
(** ** Empty asset ids (C4) *)
(* ===================================================================== *)

(** C4, as stated, fails: [print_label] called with an empty asset id does
    not reject the request; it renders a label and sends it. *)
Lemma print_label_sends_empty_asset_id :
  fst (HoneywellPrinter.print_label (sample_env quiet_peer) [] None [] []
         sample_tag_type HoneywellPrinter.MODE_NETWORK sample_host 9100%Z None
         (lit "zpl") [])
  = Ok (true, lit "OK", lit "zpl")
  /\ sends_and_writes
       (snd (HoneywellPrinter.print_label (sample_env quiet_peer) [] None [] []
               sample_tag_type HoneywellPrinter.MODE_NETWORK sample_host
               9100%Z None (lit "zpl") []))
     = [EvNetSend sample_host 9100%Z
          (encode_latin1_replace
             (HoneywellPrinter.zpl_at sample_ts [] None [] [] sample_tag_type))].
Proof. vm_compute. split; reflexivity. Qed.

(** C4, amended: the two GUI entry points never encode or send a label for
    an asset id that is empty once trimmed. [_print_label] logs "Enter
    Asset ID first" as an error and does nothing else. The batch loop
    leaves the trace as it is at such a row: it counts the row as skipped
    and goes on to the next row when the payload cell of the row holds
    text, and stops with an [AttributeError] when that cell is [None] (a
    CSV line one field short); it stops in the same way, before anything
    is encoded or sent, at a row whose asset id cell is [None].
    ([HoneywellPrinter.print_label] itself does not look at the asset
    id.) *)
Theorem entry_points_reject_empty_asset_id :
  forall env (settings : gmap string (list N))
         v_asset_id v_epc v_name v_location v_tag_type
         mode host port usbname effective_lang export_dir total i
         (row : BatchPanel.Row) rest cnt tr,
    (truthy (strip v_asset_id) = false ->
     ReadEncodePanel._print_label env settings v_asset_id v_epc v_name
       v_location v_tag_type tr
     = (Ok tt, tr ++ [EvLog (lit "Enter Asset ID first") (lit "error")]))
    /\ (forall a e,
          BatchPanel.row_get row "asset_id" [] = Some a ->
          truthy (strip a) = false ->
          BatchPanel.row_get row "epc" [] = Some e ->
          BatchPanel.batch_loop env mode host port usbname effective_lang
            export_dir total i (row :: rest) cnt tr
          = BatchPanel.batch_loop env mode host port usbname effective_lang
              export_dir total (S i) rest
              (BatchPanel.mkSummary (BatchPanel.success cnt)
                 (BatchPanel.errors cnt) (BatchPanel.skipped cnt + 1)) tr)
    /\ (BatchPanel.row_get row "asset_id" [] = None
        \/ BatchPanel.row_get row "epc" [] = None ->
        exists exc,
          exc_class exc = AttributeError
          /\ BatchPanel.batch_loop env mode host port usbname effective_lang
               export_dir total i (row :: rest) cnt tr
             = (Raise exc, tr)).
Proof.
  intros env settings v_asset_id v_epc v_name v_location v_tag_type
    mode host port usbname el dir total i row rest cnt tr.
  split; [|split].
  - intros Hv. unfold ReadEncodePanel._print_label. rewrite Hv. reflexivity.
  - intros a e Ha Ht He.
    apply (batch_loop_skip _ _ _ _ _ _ _ _ _ _ _ _ _ _ _ Ha Ht He).
  - apply batch_loop_unreadable.
Qed.

Lemma entry_points_reject_empty_asset_id_witness :
  ReadEncodePanel._print_label (sample_env quiet_peer) sample_settings
    (lit "   ") sample_epc sample_name sample_location sample_tag_type []
  = (Ok tt, [] ++ [EvLog (lit "Enter Asset ID first") (lit "error")])
  /\ BatchPanel.batch_loop (sample_env quiet_peer)
       HoneywellPrinter.MODE_NETWORK sample_host 9100%Z None (lit "zpl")
       (lit "/home/op/rfid_exports") 1 0
       (sample_row (lit "  ") sample_name :: []) (BatchPanel.mkSummary 0 0 0) []
     = BatchPanel.batch_loop (sample_env quiet_peer)
         HoneywellPrinter.MODE_NETWORK sample_host 9100%Z None (lit "zpl")
         (lit "/home/op/rfid_exports") 1 1 []
         (BatchPanel.mkSummary (BatchPanel.success (BatchPanel.mkSummary 0 0 0))
            (BatchPanel.errors (BatchPanel.mkSummary 0 0 0))
            (BatchPanel.skipped (BatchPanel.mkSummary 0 0 0) + 1)) []
  /\ (exists exc,
         exc_class exc = AttributeError
         /\ BatchPanel.batch_loop (sample_env quiet_peer)
              HoneywellPrinter.MODE_NETWORK sample_host 9100%Z None (lit "zpl")
              (lit "/home/op/rfid_exports") 1 0
              (short_row :: []) (BatchPanel.mkSummary 0 0 0) []
            = (Raise exc, [])).
Proof.
  pose proof (entry_points_reject_empty_asset_id (sample_env quiet_peer)
                sample_settings (lit "   ") sample_epc sample_name
                sample_location sample_tag_type HoneywellPrinter.MODE_NETWORK
                sample_host 9100%Z None (lit "zpl") (lit "/home/op/rfid_exports")
                1%nat 0%nat (sample_row (lit "  ") sample_name) []
                (BatchPanel.mkSummary 0 0 0) []) as [H1 [H2 _]].
  pose proof (entry_points_reject_empty_asset_id (sample_env quiet_peer)
                sample_settings (lit "   ") sample_epc sample_name
                sample_location sample_tag_type HoneywellPrinter.MODE_NETWORK
                sample_host 9100%Z None (lit "zpl") (lit "/home/op/rfid_exports")
                1%nat 0%nat short_row []
                (BatchPanel.mkSummary 0 0 0) []) as [_ [_ H3]].
  split; [apply H1; vm_compute; reflexivity|].
  split.
  - apply (H2 (lit "  ") []); vm_compute; reflexivity.
  - apply H3. right. vm_compute. reflexivity.
Defined.

(* ===================================================================== *)
(** ** The backup file (C1) *)
(* ===================================================================== *)

(** C1 at two inputs the program can receive. (1) A single print with the
    language setting "auto" to a printer that answers the probe with 0x02:
    the bytes sent are the IPL label, the file written is
    [<asset_id>.zpl] and holds the ZPL label. (2) A batch of one row to a
    host that refuses the connection: one delivery attempt, counted as
    failed, and no file is written. *)
Theorem backup_file_evaluation :
  sends_and_writes
    (snd (ReadEncodePanel._print_label (sample_env (answering [2]))
            sample_settings sample_asset_id sample_epc sample_name
            sample_location (lit "Standard (Plastic)") []))
  = [EvNetSend sample_host 9100%Z
       (encode_latin1_replace
          (HoneywellPrinter.ipl_at sample_ts sample_asset_id (Some sample_epc)
             sample_name sample_location sample_tag_type));
     EvWriteFile (lit "/home/op/rfid_exports")
       (label_file_name sample_asset_id (lit "zpl"))
       (HoneywellPrinter.zpl_at sample_ts sample_asset_id (Some sample_epc)
          sample_name sample_location sample_tag_type)]
  /\ fst (BatchPanel._batch_print (sample_env refusing_peer) sample_settings
            [sample_row sample_asset_id sample_name] [])
     = Ok (Some (BatchPanel.mkSummary 0 1 0))
  /\ sends_and_writes
       (snd (BatchPanel._batch_print (sample_env refusing_peer) sample_settings
               [sample_row sample_asset_id sample_name] []))
     = [EvNetSend sample_host 9100%Z
          (encode_latin1_replace
             (HoneywellPrinter.zpl_at sample_ts sample_asset_id None
                sample_name [] (lit "Standard")))].
Proof. vm_compute. repeat apply conj; reflexivity. Qed.

(* ===================================================================== *)
(** ** USB delivery *)
(* ===================================================================== *)

(** X1: [print_usb] never raises. Whatever the platform and the spooler do,
    it returns a pair; when the print command or the raw job raises, the
    result is a failure whose message names the missing CUPS command
    ([FileNotFoundError]), the missing pywin32 binding ([ImportError], on
    Windows only), or is the text of the exception. *)
Theorem print_usb_never_raises :
  forall (system : list N) (run : list (list N) -> list N -> Res Completed)
         (raw_job : option (list N) -> list N -> Res unit)
         (data : list N) (printer_name : option (list N)),
    (exists ok msg,
        HoneywellPrinter.print_usb_on system run raw_job data printer_name
        = Ok (ok, msg))
    /\ (forall cmd e,
          usb_command system printer_name = Some cmd ->
          run cmd (encode_latin1_replace data) = Raise e ->
          HoneywellPrinter.print_usb_on system run raw_job data printer_name
          = Ok (false,
                if is_FileNotFoundError e
                then lit "lpr/lp not found " ++ emdash
                     ++ lit " ensure CUPS is installed"
                else exc_text e))
    /\ (forall e,
          usb_command system printer_name = None ->
          raw_job printer_name (encode_latin1_replace data) = Raise e ->
          HoneywellPrinter.print_usb_on system run raw_job data printer_name
          = Ok (false,
                if is_ImportError e
                then lit "win32print not installed " ++ emdash
                     ++ lit " run: pip install pywin32"
                else if is_FileNotFoundError e
                then lit "lpr/lp not found " ++ emdash
                     ++ lit " ensure CUPS is installed"
                else exc_text e)).
Proof.
  intros system run raw_job data pn. repeat apply conj.
  - destruct (print_usb_on_total system run raw_job data pn) as [[ok msg] H].
    exists ok, msg. exact H.
  - intros cmd e Hc Hr. unfold usb_command in Hc.
    unfold HoneywellPrinter.print_usb_on, rcatch, rbind.
    destruct (str_eqb system (lit "Darwin")).
    + injection Hc as <-. rewrite Hr.
      destruct (is_FileNotFoundError e); reflexivity.
    + destruct (str_eqb system (lit "Windows")); [discriminate|].
      injection Hc as <-. rewrite Hr.
      destruct (is_FileNotFoundError e); reflexivity.
  - intros e Hc Hr. unfold usb_command in Hc.
    unfold HoneywellPrinter.print_usb_on, rcatch, rbind.
    destruct (str_eqb system (lit "Darwin")); [discriminate|].
    destruct (str_eqb system (lit "Windows")); [|discriminate].
    rewrite Hr. destruct e as [c t]. destruct c; reflexivity.
Qed.

Lemma print_usb_never_raises_witness :
  HoneywellPrinter.print_usb_on (lit "Linux")
    (fun _ _ => Raise (mkExc FileNotFoundError
                         (lit "[Errno 2] No such file or directory: 'lp'")))
    (fun _ _ => Ok tt) sample_ts (Some (lit "PC42t"))
  = Ok (false,
        if is_FileNotFoundError
             (mkExc FileNotFoundError
                (lit "[Errno 2] No such file or directory: 'lp'"))
        then lit "lpr/lp not found " ++ emdash ++ lit " ensure CUPS is installed"
        else exc_text (mkExc FileNotFoundError
                         (lit "[Errno 2] No such file or directory: 'lp'"))).
Proof.
  apply (proj1 (proj2 (print_usb_never_raises (lit "Linux")
           (fun _ _ => Raise (mkExc FileNotFoundError
                                (lit "[Errno 2] No such file or directory: 'lp'")))
           (fun _ _ => Ok tt) sample_ts (Some (lit "PC42t"))))
         [lit "lp"; lit "-o"; lit "raw"; lit "-d"; lit "PC42t"]).
  - vm_compute. reflexivity.
  - reflexivity.
Defined.

(** X2: when the print command runs, its exit code decides: 0 is success
    with the message "OK"; any other code is a failure whose message is the
    trimmed error output, or on macOS, when that is empty, a hint to check
    the printer name. *)
Theorem print_usb_exit_code :
  forall (system : list N) (run : list (list N) -> list N -> Res Completed)
         (raw_job : option (list N) -> list N -> Res unit)
         (data : list N) (printer_name : option (list N)) cmd proc,
    usb_command system printer_name = Some cmd ->
    run cmd (encode_latin1_replace data) = Ok proc ->
    (returncode proc = 0%Z ->
     HoneywellPrinter.print_usb_on system run raw_job data printer_name
     = Ok (true, lit "OK"))
    /\ (forall err,
          returncode proc <> 0%Z -> stderr_decode proc = Ok err ->
          HoneywellPrinter.print_usb_on system run raw_job data printer_name
          = Ok (false,
                if str_eqb system (lit "Darwin")
                then or_ (strip err)
                       (lit "lpr failed (check printer name in Settings)")
                else strip err)).
Proof.
  intros system run raw_job data pn cmd proc Hc Hr. unfold usb_command in Hc.
  unfold HoneywellPrinter.print_usb_on, rcatch, rbind.
  destruct (str_eqb system (lit "Darwin")).
  - injection Hc as <-. rewrite Hr. split.
    + intros ->. reflexivity.
    + intros err Hne He. apply Z.eqb_neq in Hne. rewrite Hne, He. reflexivity.
  - destruct (str_eqb system (lit "Windows")); [discriminate|].
    injection Hc as <-. rewrite Hr. split.
    + intros ->. reflexivity.
    + intros err Hne He. apply Z.eqb_neq in Hne. rewrite Hne, He. reflexivity.
Qed.

Lemma print_usb_exit_code_witness :
  (returncode (mkCompleted 1%Z (Ok (lit "lpr: printer not found  "))) = 0%Z ->
   HoneywellPrinter.print_usb_on (lit "Darwin")
     (fun _ _ => Ok (mkCompleted 1%Z (Ok (lit "lpr: printer not found  "))))
     (fun _ _ => Ok tt) sample_ts None
   = Ok (true, lit "OK"))
  /\ (forall err,
        returncode (mkCompleted 1%Z (Ok (lit "lpr: printer not found  "))) <> 0%Z ->
        stderr_decode (mkCompleted 1%Z (Ok (lit "lpr: printer not found  ")))
        = Ok err ->
        HoneywellPrinter.print_usb_on (lit "Darwin")
          (fun _ _ => Ok (mkCompleted 1%Z (Ok (lit "lpr: printer not found  "))))
          (fun _ _ => Ok tt) sample_ts None
        = Ok (false,
              if str_eqb (lit "Darwin") (lit "Darwin")
              then or_ (strip err)
                     (lit "lpr failed (check printer name in Settings)")
              else strip err)).
Proof.
  apply (print_usb_exit_code (lit "Darwin")
           (fun _ _ => Ok (mkCompleted 1%Z (Ok (lit "lpr: printer not found  "))))
           (fun _ _ => Ok tt) sample_ts None [lit "lpr"; lit "-l"]).
  - vm_compute. reflexivity.
  - reflexivity.
Defined.

(* ===================================================================== *)
(** ** More on network delivery and on [print_label] *)
(* ===================================================================== *)

(** X3: [print_network] reports success exactly when the label was
    delivered (the connection, the write and the half-close all went
    through) and the printer's answer does not begin with the byte 0x15; a
    silent printer, or a failed read of the answer, counts as success, and
    the message of a success is "OK". *)
Theorem print_network_success_iff :
  forall (lower : list N -> list N) (p : Peer) (host data : list N)
         (port : Z) (ok : bool) (msg : list N),
    HoneywellPrinter.print_network_on lower p host data port = Ok (ok, msg) ->
    (ok = true <->
     first_failure p (encode_latin1_replace data) = None
     /\ hd_error (printer_answer p (encode_latin1_replace data)) <> Some 21)
    /\ (ok = true -> msg = lit "OK").
Proof.
  intros lw p host data port ok msg H.
  destruct (first_failure p (encode_latin1_replace data)) as [e|] eqn:Hf.
  - rewrite (print_network_on_failure _ _ _ _ _ _ Hf) in H.
    assert (Hok : ok = false).
    { destruct (is_ConnectionRefusedError e); [congruence|].
      destruct (_ && _); congruence. }
    subst ok. split; [|discriminate].
    split; [discriminate | intros [Hn _]; discriminate Hn].
  - rewrite (print_network_on_delivered _ _ _ _ _ Hf) in H.
    unfold printer_answer.
    destruct (on_recv p (encode_latin1_replace data)) as [[|b r]|e];
      cbn [take hd_error].
    + injection H as <- <-. split; [|reflexivity].
      split; [intros _; split; [reflexivity | discriminate] | reflexivity].
    + destruct (N.eqb_spec b 21) as [->|Hb].
      * injection H as <- <-. split; [|discriminate].
        split; [discriminate | intros [_ Hn]; contradiction Hn; reflexivity].
      * assert (H' : Ok (true, lit "OK") = Ok (ok, msg)).
        { rewrite <- H. destruct b as [|b]; [reflexivity|].
          repeat (destruct b as [b|b|]; try reflexivity). contradiction. }
        injection H' as <- <-. split; [|reflexivity].
        split; [intros _; split; [reflexivity | congruence] | reflexivity].
    + injection H as <- <-. split; [|reflexivity].
      split; [intros _; split; [reflexivity | discriminate] | reflexivity].
Qed.

Lemma print_network_success_iff_witness :
  (true = true <->
   first_failure quiet_peer (encode_latin1_replace sample_ts) = None
   /\ hd_error (printer_answer quiet_peer (encode_latin1_replace sample_ts))
      <> Some 21)
  /\ (true = true -> lit "OK" = lit "OK").
Proof.
  apply (print_network_success_iff ascii_lower quiet_peer sample_host
           sample_ts 9100%Z true (lit "OK")).
  reflexivity.
Defined.

Lemma count_clock_resolve env tr mode host port language :
  count_events is_clock (snd (resolve_language env tr mode host port language))
  = 0%nat.
Proof.
  unfold resolve_language.
  destruct (str_eqb language (lit "auto")); [|reflexivity].
  destruct (_ && _); reflexivity.
Qed.

Lemma count_clock_delivery mode host port pn data :
  count_events is_clock (delivery_events mode host port pn data) = 0%nat.
Proof.
  unfold delivery_events.
  destruct (str_eqb mode _); [destruct (truthy host)|]; reflexivity.
Qed.

(** X4: one call of [print_label] always returns, reads the clock exactly
    once (one label is rendered), makes at most one delivery attempt and
    writes no file; it probes the printer once when the selector is "auto"
    in network mode with a host, and never otherwise; in network mode with
    no host it makes no delivery attempt at all. *)
Theorem print_label_effects :
  forall env asset_id epc name location tag_type mode host port printer_name
         language tr,
    exists r evs,
      HoneywellPrinter.print_label env asset_id epc name location tag_type
        mode host port printer_name language tr
      = (Ok r, tr ++ evs)
      /\ count_events is_clock evs = 1%nat
      /\ (count_events is_send evs <= 1)%nat
      /\ count_events is_write evs = 0%nat
      /\ count_events is_probe evs
         = (if str_eqb language (lit "auto")
               && str_eqb mode HoneywellPrinter.MODE_NETWORK && truthy host
            then 1%nat else 0%nat)
      /\ (str_eqb mode HoneywellPrinter.MODE_NETWORK && negb (truthy host)
          = true -> count_events is_send evs = 0%nat).
Proof.
  intros env aid epc name loc typ mode host port pn language tr.
  destruct (print_label_run env aid epc name loc typ mode host port pn
              language tr) as [ok [msg [_ Hrun]]].
  eexists. eexists. split; [exact Hrun|].
  rewrite !count_events_app.
  rewrite count_clock_resolve, count_clock_delivery.
  rewrite resolve_language_probe_count.
  destruct (resolve_language_other_counts env tr mode host port language)
    as [-> ->].
  match goal with
  | |- context [delivery_events ?m ?h ?p ?n ?d] =>
      destruct (delivery_events_counts m h p n d) as [-> [-> Hs]];
      set (del := delivery_events m h p n d) in *
  end.
  cbn [count_events is_clock is_send is_write is_probe].
  repeat apply conj; try lia.
  intros Hnh. subst del. unfold delivery_events.
  apply andb_prop in Hnh as [-> Hh]. apply negb_true_iff in Hh. rewrite Hh.
  reflexivity.
Qed.

Lemma encoded_framing ts asset_id epc name location tag_type :
  (startswith (lit "^XA")
     (encode_latin1_replace
        (HoneywellPrinter.zpl_at ts asset_id epc name location tag_type)) = true
   /\ endswith (lit "^XZ" ++ nl)
        (encode_latin1_replace
           (HoneywellPrinter.zpl_at ts asset_id epc name location tag_type))
      = true)
  /\ (startswith [2]
        (encode_latin1_replace
           (HoneywellPrinter.ipl_at ts asset_id epc name location tag_type))
      = true
      /\ endswith [3]
           (encode_latin1_replace
              (HoneywellPrinter.ipl_at ts asset_id epc name location tag_type))
         = true).
Proof.
  unfold HoneywellPrinter.zpl_at, HoneywellPrinter.ipl_at.
  refine (conj (conj _ _) (conj _ _)).
  - rewrite encode_latin1_replace_app. apply startswith_app_l.
    vm_compute. reflexivity.
  - rewrite !encode_latin1_replace_app. skip_to_end.
  - rewrite encode_latin1_replace_app. apply startswith_app_l.
    vm_compute. reflexivity.
  - rewrite !encode_latin1_replace_app. skip_to_end.
Qed.

Lemma print_label_effects_witness :
  exists r evs,
    HoneywellPrinter.print_label (sample_env quiet_peer) sample_asset_id None
      sample_name sample_location sample_tag_type HoneywellPrinter.MODE_NETWORK
      [] 9100%Z None (lit "auto") []
    = (Ok r, [] ++ evs)
    /\ count_events is_send evs = 0%nat.
Proof.
  destruct (print_label_effects (sample_env quiet_peer) sample_asset_id None
              sample_name sample_location sample_tag_type
              HoneywellPrinter.MODE_NETWORK [] 9100%Z None (lit "auto") [])
    as [r [evs [Hrun [_ [_ [_ [_ Hsend]]]]]]].
  exists r, evs. split; [exact Hrun|]. apply Hsend. reflexivity.
Defined.

(** X5: the bytes of the delivery attempt of [print_label] are the Latin-1
    encoding of the label rendered for this call: the template of the
    language the call reports (IPL for "ipl", ZPL for anything else),
    filled with the fields of the call and the time read by its one clock
    read; nothing else is sent. Hence the bytes agree with the reported
    language: for "ipl" they start with 0x02 and end with 0x03, otherwise
    they start with [^XA] and end with [^XZ] and a line feed. *)
Theorem sent_bytes_match_language :
  forall env asset_id epc name location tag_type mode host port printer_name
         language tr,
    exists ok msg lang pre post,
      let ts := clock env (tr ++ pre) in
      let label :=
        if str_eqb lang (lit "ipl")
        then HoneywellPrinter.ipl_at ts asset_id epc name location tag_type
        else HoneywellPrinter.zpl_at ts asset_id epc name location tag_type in
      HoneywellPrinter.print_label env asset_id epc name location tag_type
        mode host port printer_name language tr
      = (Ok (ok, msg, lang), tr ++ pre ++ [EvClock] ++ post)
      /\ count_events is_clock pre = 0%nat
      /\ count_events is_send pre = 0%nat
      /\ post
         = (if str_eqb mode HoneywellPrinter.MODE_NETWORK
            then if truthy host
                 then [EvNetSend host port (encode_latin1_replace label)]
                 else []
            else [EvUsbSend (encode_latin1_replace label) printer_name])
      /\ (if str_eqb lang (lit "ipl")
          then startswith [2] (encode_latin1_replace label) = true
               /\ endswith [3] (encode_latin1_replace label) = true
          else startswith (lit "^XA") (encode_latin1_replace label) = true
               /\ endswith (lit "^XZ" ++ nl) (encode_latin1_replace label)
                  = true).
Proof.
  intros env aid epc name loc typ mode host port pn language tr.
  destruct (print_label_run env aid epc name loc typ mode host port pn
              language tr) as [ok [msg [_ Hrun]]].
  exists ok, msg, (fst (resolve_language env tr mode host port language)),
    (snd (resolve_language env tr mode host port language)).
  eexists. cbv zeta.
  split; [exact Hrun|].
  split; [apply count_clock_resolve|].
  split; [apply (proj2 (resolve_language_other_counts env tr mode host port
                          language))|].
  split; [reflexivity|].
  match goal with
  | |- context [clock env ?t] => generalize (clock env t)
  end.
  generalize (fst (resolve_language env tr mode host port language)).
  intros lang ts.
  destruct (encoded_framing ts aid epc name loc typ) as [Hz Hi].
  destruct (str_eqb lang (lit "ipl")); [exact Hi | exact Hz].
Qed.

(* ===================================================================== *)
(** ** More on the encoders *)
(* ===================================================================== *)

Lemma free_of_opt_or (c : N) (epc : option (list N)) (d : list N) :
  free_of c (opt_or epc []) = true -> free_of c d = true ->
  free_of c (opt_or epc d) = true.
Proof.
  destruct epc as [[|x e]|]; cbn [opt_or or_ truthy]; auto.
Qed.

Lemma free_of_encode (c : N) (s : list N) :
  c <> 63 -> free_of c s = true -> free_of c (encode_latin1_replace s) = true.
Proof.
  intros Hc. induction s as [|x s IH]; intros H; [reflexivity|].
  change (free_of c (x :: s)) with (negb (x =? c) && free_of c s) in H.
  change (free_of c (encode_latin1_replace (x :: s)))
    with (negb ((if x <=? 255 then x else 63) =? c)
          && free_of c (encode_latin1_replace s)).
  apply andb_prop in H as [Hx Hs]. apply andb_true_intro. split.
  - destruct (x <=? 255); [exact Hx|].
    apply negb_true_iff, N.eqb_neq. congruence.
  - apply IH. exact Hs.
Qed.

Ltac free_text :=
  lazymatch goal with
  | |- free_of _ (_ ++ _) = true => apply free_of_app; [free_text | free_text]
  | |- free_of _ (opt_or _ _) = true =>
      apply free_of_opt_or; [assumption | closed_free]
  | |- free_of _ (take _ _) = true => apply free_of_take; free_text
  | |- free_of _ (or_ _ _) = true => apply free_of_or; free_text
  | |- free_of _ _ = true => first [ assumption | closed_free ]
  end.

(** X6: an IPL label carries no caret, the lead-in of every ZPL command,
    unless a field does: for fields and a payload free of carets, neither
    the text [HoneywellPrinter.ipl] renders nor its encoding contains one. *)
Theorem ipl_has_no_caret :
  forall ts asset_id epc name location tag_type,
    Forall (fun f => free_of 94 f = true)
      [ts; asset_id; name; location; tag_type] ->
    free_of 94 (opt_or epc []) = true ->
    free_of 94 (HoneywellPrinter.ipl_at ts asset_id epc name location tag_type)
    = true
    /\ free_of 94
         (encode_latin1_replace
            (HoneywellPrinter.ipl_at ts asset_id epc name location tag_type))
       = true.
Proof.
  intros ts asset_id epc name location tag_type Hf He. split_fields.
  assert (Hall : free_of 94
                   (HoneywellPrinter.ipl_at ts asset_id epc name location
                      tag_type) = true).
  { unfold HoneywellPrinter.ipl_at.
    destruct (opt_truthy epc); cbv iota; free_text. }
  split; [exact Hall|]. apply free_of_encode; [discriminate | exact Hall].
Qed.

Lemma ipl_has_no_caret_witness :
  free_of 94
    (HoneywellPrinter.ipl_at sample_ts sample_asset_id (Some sample_epc)
       sample_name sample_location sample_tag_type) = true
  /\ free_of 94
       (encode_latin1_replace
          (HoneywellPrinter.ipl_at sample_ts sample_asset_id (Some sample_epc)
             sample_name sample_location sample_tag_type)) = true.
Proof.
  apply (ipl_has_no_caret sample_ts sample_asset_id (Some sample_epc)
           sample_name sample_location sample_tag_type).
  - repeat constructor.
  - vm_compute. reflexivity.
Defined.

Lemma printable_ascii_app (a b : list N) :
  printable_ascii a = true -> printable_ascii b = true ->
  printable_ascii (a ++ b) = true.
Proof.
  unfold printable_ascii. intros Ha Hb. rewrite forallb_app, Ha, Hb. reflexivity.
Qed.

Lemma hex_digit_printable (x : N) :
  (32 <=? hex_digit (x mod 16)) && (hex_digit (x mod 16) <=? 126) = true.
Proof.
  assert (Hlt : x mod 16 < 16) by (apply N.mod_lt; discriminate).
  set (d := x mod 16) in *. clearbody d.
  unfold hex_digit. destruct (N.ltb_spec d 10);
    apply andb_true_intro; split; apply N.leb_le; lia.
Qed.

Lemma u_escape_printable (n : N) : printable_ascii (u_escape n) = true.
Proof.
  unfold u_escape, hex4, printable_ascii. cbn [app forallb].
  rewrite !hex_digit_printable. reflexivity.
Qed.

Lemma json_escape_char_printable (c : N) :
  printable_ascii (json_escape_char c) = true.
Proof.
  unfold json_escape_char.
  repeat match goal with
  | |- context [if ?b then _ else _] => destruct b eqn:?
  end;
  first
    [ reflexivity
    | apply u_escape_printable
    | apply printable_ascii_app; apply u_escape_printable
    | unfold printable_ascii; cbn [forallb]; rewrite andb_true_r; assumption ].
Qed.

Lemma json_string_printable (s : list N) : printable_ascii (json_string s) = true.
Proof.
  unfold json_string.
  apply printable_ascii_app; [reflexivity|].
  apply printable_ascii_app; [|reflexivity].
  induction s as [|x s IH]; [reflexivity|].
  cbn [flat_map]. apply printable_ascii_app;
    [apply json_escape_char_printable | exact IH].
Qed.

Lemma encode_printable (s : list N) :
  printable_ascii s = true -> encode_latin1_replace s = s.
Proof.
  induction s as [|x s IH]; intros H; [reflexivity|].
  change (printable_ascii (x :: s))
    with ((32 <=? x) && (x <=? 126) && printable_ascii s) in H.
  apply andb_prop in H as [Hx Hs]. apply andb_prop in Hx as [_ Hx].
  apply N.leb_le in Hx.
  change (encode_latin1_replace (x :: s))
    with ((if x <=? 255 then x else 63) :: encode_latin1_replace s).
  destruct (N.leb_spec x 255); [|lia].
  f_equal. apply IH. exact Hs.
Qed.

(** X7: the data of the QR field is printable ASCII whatever the asset id,
    the payload and the tag type are ([json.dumps] escapes everything
    else), so the Latin-1 encoding leaves it as it is: no character of it
    is replaced on the way to the printer. *)
Theorem qr_data_is_ascii :
  forall asset_id epc tag_type,
    printable_ascii (HoneywellPrinter.qr_data asset_id epc) = true
    /\ printable_ascii (LabelGenerator.qr_data asset_id epc tag_type) = true
    /\ encode_latin1_replace (HoneywellPrinter.qr_data asset_id epc)
       = HoneywellPrinter.qr_data asset_id epc.
Proof.
  intros asset_id epc tag_type.
  assert (H1 : printable_ascii (HoneywellPrinter.qr_data asset_id epc) = true).
  { unfold HoneywellPrinter.qr_data.
    repeat (apply printable_ascii_app;
            [ first [ apply json_string_printable | reflexivity ] | ]).
    reflexivity. }
  split; [exact H1|]. split; [|apply encode_printable; exact H1].
  unfold LabelGenerator.qr_data, json_opt_string.
  repeat (apply printable_ascii_app;
          [ first [ apply json_string_printable
                  | destruct epc; [apply json_string_printable | reflexivity]
                  | reflexivity ]
          | ]).
  reflexivity.
Qed.

(** X8: the encoding that [print_network] and [print_usb] apply keeps the
    length of the text, yields bytes only, leaves Latin-1 text as it is,
    and applying it twice is applying it once. *)
Theorem encode_latin1_replace_bytes :
  forall s,
    length (encode_latin1_replace s) = length s
    /\ all_bytes (encode_latin1_replace s) = true
    /\ (all_bytes s = true -> encode_latin1_replace s = s)
    /\ encode_latin1_replace (encode_latin1_replace s) = encode_latin1_replace s.
Proof.
  intros s. split; [apply length_map|].
  split; [apply all_bytes_encode|].
  split; [apply encode_bytes_id|].
  apply encode_bytes_id, all_bytes_encode.
Qed.

Lemma encode_latin1_replace_bytes_witness :
  encode_latin1_replace sample_location = sample_location.
Proof.
  apply (proj1 (proj2 (proj2 (encode_latin1_replace_bytes sample_location)))).
  reflexivity.
Defined.

Lemma contains_app_l (p x y : list N) :
  contains p x = true -> contains p (x ++ y) = true.
Proof.
  induction x as [|c x IH]; intros H.
  - destruct p; [destruct y; reflexivity | discriminate H].
  - cbn [contains app] in *. apply orb_prop in H as [H | H].
    + change (c :: x ++ y) with ((c :: x) ++ y).
      rewrite (startswith_app_l _ _ _ H). reflexivity.
    + rewrite (IH H). apply orb_true_r.
Qed.

Lemma contains_first3 (p a b c rest : list N) :
  contains p (a ++ b ++ c) = true -> contains p (a ++ b ++ c ++ rest) = true.
Proof.
  intros H. replace (a ++ b ++ c ++ rest) with ((a ++ b ++ c) ++ rest)
    by (rewrite <- !app_assoc; reflexivity).
  apply contains_app_l. exact H.
Qed.

(** Find the pattern in the three pieces that start at the piece [seg]. *)
Ltac find_from seg :=
  repeat
    lazymatch goal with
    | |- contains _ (?a ++ _ ++ _ ++ _) = true =>
        first [ constr_eq a seg; apply contains_first3; vm_compute; reflexivity
              | apply contains_app_r ]
    | |- contains _ (_ ++ _) = true => apply contains_app_r
    end.

(** X9: a missing payload and a missing location are never rendered as
    empty fields: the EPC line reads UNASSIGNED and the location line holds
    an em-dash. The em-dash is not a Latin-1 character, so in the bytes that
    are sent the location reads as a question mark. *)
Theorem placeholders_for_missing_fields :
  forall ts asset_id epc name tag_type,
    opt_truthy epc = false ->
    contains (lit "EPC: UNASSIGNED^FS")
      (HoneywellPrinter.zpl_at ts asset_id epc name [] tag_type) = true
    /\ contains (lit "Loc:  " ++ emdash ++ lit "^FS")
         (HoneywellPrinter.zpl_at ts asset_id epc name [] tag_type) = true
    /\ contains (lit "Loc:  ?^FS")
         (encode_latin1_replace
            (HoneywellPrinter.zpl_at ts asset_id epc name [] tag_type)) = true
    /\ contains (lit "EPC:      UNASSIGNED" ++ dq)
         (HoneywellPrinter.ipl_at ts asset_id epc name [] tag_type) = true
    /\ contains (lit "Loc:      " ++ emdash ++ dq)
         (HoneywellPrinter.ipl_at ts asset_id epc name [] tag_type) = true
    /\ contains (lit "Loc:      ?" ++ dq)
         (encode_latin1_replace
            (HoneywellPrinter.ipl_at ts asset_id epc name [] tag_type)) = true.
Proof.
  intros ts asset_id epc name tag_type He.
  unfold HoneywellPrinter.zpl_at, HoneywellPrinter.ipl_at.
  rewrite He, !(opt_or_falsy _ _ He). cbv iota.
  change (or_ [] emdash) with emdash.
  repeat apply conj.
  - find_from (lit "^FO18,90^A0N,18,18^FDEPC: ").
  - find_from (lit "^FO18,136^A0N,16,16^FDLoc:  ").
  - rewrite !encode_latin1_replace_app.
    find_from (encode_latin1_replace (lit "^FO18,136^A0N,16,16^FDLoc:  ")).
  - find_from (lit "EPC:      ").
  - find_from (lit "Loc:      ").
  - rewrite !encode_latin1_replace_app.
    find_from (encode_latin1_replace (lit "Loc:      ")).
Qed.

Lemma placeholders_for_missing_fields_witness :
  contains (lit "EPC: UNASSIGNED^FS")
    (HoneywellPrinter.zpl_at sample_ts sample_asset_id None sample_name []
       sample_tag_type) = true
  /\ contains (lit "Loc:  " ++ emdash ++ lit "^FS")
       (HoneywellPrinter.zpl_at sample_ts sample_asset_id None sample_name []
          sample_tag_type) = true
  /\ contains (lit "Loc:  ?^FS")
       (encode_latin1_replace
          (HoneywellPrinter.zpl_at sample_ts sample_asset_id None sample_name []
             sample_tag_type)) = true
  /\ contains (lit "EPC:      UNASSIGNED" ++ dq)
       (HoneywellPrinter.ipl_at sample_ts sample_asset_id None sample_name []
          sample_tag_type) = true
  /\ contains (lit "Loc:      " ++ emdash ++ dq)
       (HoneywellPrinter.ipl_at sample_ts sample_asset_id None sample_name []
          sample_tag_type) = true
  /\ contains (lit "Loc:      ?" ++ dq)
       (encode_latin1_replace
          (HoneywellPrinter.ipl_at sample_ts sample_asset_id None sample_name []
             sample_tag_type)) = true.
Proof.
  apply (placeholders_for_missing_fields sample_ts sample_asset_id None
           sample_name sample_tag_type).
  reflexivity.
Defined.

(* ===================================================================== *)
(** ** The tag reader *)
(* ===================================================================== *)

Lemma upper_hex_app (a b : list N) :
  upper_hex a = true -> upper_hex b = true -> upper_hex (a ++ b) = true.
Proof.
  unfold upper_hex. intros Ha Hb. rewrite forallb_app, Ha, Hb. reflexivity.
Qed.

Lemma hex_alphabet_nth (n : nat) :
  (n < 16)%nat ->
  upper_hex [List.nth n (lit "0123456789ABCDEF") 0] = true.
Proof.
  intros H. do 16 (destruct n as [|n]; [reflexivity|]). lia.
Qed.

Lemma choices_hex (rnd : nat -> N) (k : nat) :
  upper_hex (RFIDReader.choices rnd (lit "0123456789ABCDEF") k) = true
  /\ length (RFIDReader.choices rnd (lit "0123456789ABCDEF") k) = k.
Proof.
  unfold RFIDReader.choices. split; [|rewrite length_map; apply length_seq].
  generalize 0%nat. induction k as [|k IH]; intros start; [reflexivity|].
  cbn [seq map].
  change (?x :: ?l) with ([x] ++ l). apply upper_hex_app; [|apply IH].
  apply hex_alphabet_nth.
  change (N.of_nat (length (lit "0123456789ABCDEF"))) with 16.
  assert (Hlt : rnd start mod 16 < 16) by (apply N.mod_lt; discriminate).
  set (d := rnd start mod 16) in *. clearbody d. lia.
Qed.

Lemma randint_range (draw : N) :
  (-10 <= RFIDReader.randint draw (-10) 10 <= 10)%Z.
Proof.
  unfold RFIDReader.randint.
  change (10 - -10 + 1)%Z with 21%Z.
  pose proof (Z.mod_pos_bound (Z.of_N draw) 21 eq_refl) as H.
  set (m := (Z.of_N draw mod 21)%Z) in *. clearbody m. lia.
Qed.

Lemma simulated_read (avail : bool) (rnd : nat -> N) (r : RFIDReader.Reader) :
  simulating avail r = true ->
  exists epc rssi,
    RFIDReader.read_epc avail rnd r = RFIDReader.Done (epc, rssi)
    /\ length epc = 24%nat
    /\ startswith (lit "E2") epc = true
    /\ upper_hex epc = true
    /\ (-75 <= rssi <= -55)%Z.
Proof.
  unfold simulating. intros Hs. unfold RFIDReader.read_epc. rewrite Hs.
  destruct (choices_hex rnd 22) as [Hhex Hlen].
  eexists. eexists. split; [reflexivity|].
  split; [rewrite length_app, Hlen; reflexivity|].
  split; [apply startswith_app|].
  split; [apply upper_hex_app; [reflexivity | exact Hhex]|].
  pose proof (randint_range (rnd 22%nat)). lia.
Qed.

(** X10: a reader built when the RFID library is missing, or when binding
    the hardware fails, is in simulation mode: reading never fails and gives
    a tag id of 24 characters, "E2" followed by 22 upper-case hexadecimal
    digits, with a signal strength between -75 and -55; writing succeeds. *)
Theorem reader_without_hardware_simulates :
  forall (RFID_AVAILABLE : bool) (construct : Res RFIDReader.Hardware)
         (rnd : nat -> N) (epc_to_write : list N),
    RFID_AVAILABLE = false \/ (exists e, construct = Raise e) ->
    (exists epc rssi,
        RFIDReader.read_epc RFID_AVAILABLE rnd
          (RFIDReader._connect RFID_AVAILABLE construct)
        = RFIDReader.Done (epc, rssi)
        /\ length epc = 24%nat
        /\ startswith (lit "E2") epc = true
        /\ upper_hex epc = true
        /\ (-75 <= rssi <= -55)%Z)
    /\ RFIDReader.write_epc RFID_AVAILABLE
         (RFIDReader._connect RFID_AVAILABLE construct) epc_to_write
       = RFIDReader.Done true.
Proof.
  intros avail construct rnd w H.
  assert (Hs : simulating avail (RFIDReader._connect avail construct) = true).
  { unfold simulating, RFIDReader._connect.
    destruct H as [-> | [e ->]]; [reflexivity|]. destruct avail; reflexivity. }
  split; [apply simulated_read; exact Hs|].
  unfold RFIDReader.write_epc. unfold simulating in Hs. rewrite Hs. reflexivity.
Qed.

Lemma reader_without_hardware_simulates_witness :
  (exists epc rssi,
      RFIDReader.read_epc false sample_rnd
        (RFIDReader._connect false (Ok sample_hardware))
      = RFIDReader.Done (epc, rssi)
      /\ length epc = 24%nat
      /\ startswith (lit "E2") epc = true
      /\ upper_hex epc = true
      /\ (-75 <= rssi <= -55)%Z)
  /\ RFIDReader.write_epc false
       (RFIDReader._connect false (Ok sample_hardware)) sample_epc
     = RFIDReader.Done true.
Proof.
  apply (reader_without_hardware_simulates false (Ok sample_hardware)
           sample_rnd sample_epc).
  left. reflexivity.
Defined.

Lemma upper_hex_upper (s : list N) : upper_hex s = true -> upper s = s.
Proof.
  induction s as [|x s IH]; intros H; [reflexivity|].
  change (upper_hex (x :: s))
    with ((((48 <=? x) && (x <=? 57)) || ((65 <=? x) && (x <=? 70)))
          && upper_hex s) in H.
  apply andb_prop in H as [Hx Hs].
  change (upper (x :: s)) with (upper_char x :: upper s).
  rewrite (IH Hs). f_equal. unfold upper_char.
  destruct (N.leb_spec 97 x) as [H97|H97]; [|reflexivity].
  apply orb_prop in Hx as [Hx | Hx]; apply andb_prop in Hx as [_ Hx];
    apply N.leb_le in Hx; lia.
Qed.

Lemma upper_length (s : list N) : length (upper s) = length s.
Proof. apply length_map. Qed.

Lemma upper_char_idem (c : N) : upper_char (upper_char c) = upper_char c.
Proof.
  unfold upper_char.
  destruct (N.leb_spec 97 c) as [H1|H1]; destruct (N.leb_spec c 122) as [H2|H2];
    cbn [andb]; try reflexivity.
  - destruct (N.leb_spec 97 (c - 32)); [lia | reflexivity].
  - destruct (N.leb_spec 97 c); [|reflexivity]. rewrite (proj2 (N.leb_gt _ _) H2).
    reflexivity.
  - destruct (N.leb_spec 97 c); [lia | reflexivity].
  - destruct (N.leb_spec 97 c); [lia | reflexivity].
Qed.

Lemma upper_idem (s : list N) : upper (upper s) = upper s.
Proof.
  unfold upper. rewrite map_map. apply map_ext. intros c. apply upper_char_idem.
Qed.

(** X11: [verify_epc] always performs a read of its own: it fails with the
    read's [RuntimeError] when the read fails, and otherwise reports the
    tag just read together with a comparison that ignores letter case, so
    the result is the same for the expected id in upper case. In simulation
    mode a match is only possible for an expected id that is, in upper
    case, 24 upper-case hexadecimal characters. (Ids are ASCII.) *)
Theorem verify_epc_reads_and_compares :
  forall (RFID_AVAILABLE : bool) (rnd : nat -> N) (r : RFIDReader.Reader)
         (expected : list N),
    ascii_only expected = true ->
    (forall t,
        RFIDReader.read_epc RFID_AVAILABLE rnd r = RFIDReader.RuntimeError t ->
        RFIDReader.verify_epc RFID_AVAILABLE rnd r expected
        = RFIDReader.RuntimeError t)
    /\ (forall epc rssi,
          RFIDReader.read_epc RFID_AVAILABLE rnd r = RFIDReader.Done (epc, rssi) ->
          ascii_only epc = true ->
          exists matched,
            RFIDReader.verify_epc RFID_AVAILABLE rnd r expected
            = RFIDReader.Done (matched, epc, rssi)
            /\ (matched = true <-> upper epc = upper expected)
            /\ RFIDReader.verify_epc RFID_AVAILABLE rnd r (upper expected)
               = RFIDReader.Done (matched, epc, rssi))
    /\ (simulating RFID_AVAILABLE r = true ->
        forall epc rssi,
          RFIDReader.verify_epc RFID_AVAILABLE rnd r expected
          = RFIDReader.Done (true, epc, rssi) ->
          upper expected = epc /\ length expected = 24%nat
          /\ upper_hex (upper expected) = true).
Proof.
  intros avail rnd r expected _. repeat apply conj.
  - intros t H. unfold RFIDReader.verify_epc. rewrite H. reflexivity.
  - intros epc rssi H _. unfold RFIDReader.verify_epc. rewrite H.
    eexists. split; [reflexivity|]. split; [apply str_eqb_eq|].
    rewrite upper_idem. reflexivity.
  - intros Hs epc rssi H.
    destruct (simulated_read avail rnd r Hs)
      as [epc' [rssi' [Hread [Hlen [_ [Hhex _]]]]]].
    unfold RFIDReader.verify_epc in H. rewrite Hread in H.
    injection H as Hm <- <-. apply str_eqb_eq in Hm.
    rewrite (upper_hex_upper _ Hhex) in Hm.
    split; [symmetry; exact Hm|].
    split; [rewrite <- upper_length, <- Hm; exact Hlen|].
    rewrite <- Hm. exact Hhex.
Qed.

Lemma verify_epc_reads_and_compares_witness :
  exists matched,
    RFIDReader.verify_epc true sample_rnd
      (RFIDReader._connect true (Ok sample_hardware))
      (lit "e2001122334455667788990011")
    = RFIDReader.Done (matched, lit "E2001122334455667788990011", (-60)%Z)
    /\ (matched = true <->
        upper (lit "E2001122334455667788990011")
        = upper (lit "e2001122334455667788990011"))
    /\ RFIDReader.verify_epc true sample_rnd
         (RFIDReader._connect true (Ok sample_hardware))
         (upper (lit "e2001122334455667788990011"))
       = RFIDReader.Done (matched, lit "E2001122334455667788990011", (-60)%Z).
Proof.
  apply (proj1 (proj2 (verify_epc_reads_and_compares true sample_rnd
           (RFIDReader._connect true (Ok sample_hardware))
           (lit "e2001122334455667788990011") eq_refl))).
  - reflexivity.
  - reflexivity.
Defined.

(** X12: a reader bound to hardware reports what the hardware reports: the
    first tag of the scan, with signal strength 0 when the tag carries
    none; an empty scan is the error "No tag detected"; an exception of the
    hardware, on reading or on writing, becomes a [RuntimeError] with the
    text of that exception; the random generator plays no part. *)
Theorem connected_reader_reports_hardware :
  forall (h : RFIDReader.Hardware) (rnd : nat -> N) (epc_to_write : list N),
    (forall e, RFIDReader.scan h = Raise e ->
       RFIDReader.read_epc true rnd (RFIDReader._connect true (Ok h))
       = RFIDReader.RuntimeError (exc_text e))
    /\ (RFIDReader.scan h = Ok [] ->
        RFIDReader.read_epc true rnd (RFIDReader._connect true (Ok h))
        = RFIDReader.RuntimeError (lit "No tag detected"))
    /\ (forall tag others,
          RFIDReader.scan h = Ok (tag :: others) ->
          RFIDReader.read_epc true rnd (RFIDReader._connect true (Ok h))
          = RFIDReader.Done (RFIDReader.tag_epc tag,
                             default 0%Z (RFIDReader.tag_rssi tag)))
    /\ (forall e, RFIDReader.hw_write_epc h epc_to_write = Raise e ->
          RFIDReader.write_epc true (RFIDReader._connect true (Ok h))
            epc_to_write
          = RFIDReader.RuntimeError (exc_text e))
    /\ (forall rnd',
          RFIDReader.read_epc true rnd (RFIDReader._connect true (Ok h))
          = RFIDReader.read_epc true rnd' (RFIDReader._connect true (Ok h))).
Proof.
  intros h rnd w.
  unfold RFIDReader.read_epc, RFIDReader.write_epc, RFIDReader._connect.
  cbn [negb orb RFIDReader.connected RFIDReader.reader].
  repeat apply conj.
  - intros e ->. reflexivity.
  - intros ->. reflexivity.
  - intros tag others ->. reflexivity.
  - intros e ->. reflexivity.
  - intros rnd'. reflexivity.
Qed.

Lemma connected_reader_reports_hardware_witness :
  RFIDReader.read_epc true sample_rnd (RFIDReader._connect true (Ok sample_hardware))
  = RFIDReader.Done (sample_epc, (-60)%Z).
Proof.
  apply (proj1 (proj2 (proj2 (connected_reader_reports_hardware sample_hardware
                                sample_rnd sample_epc)))
           (RFIDReader.mkTag sample_epc (Some (-60)%Z)) []).
  reflexivity.
Defined.

(* ===================================================================== *)
(** ** The id counter and the settings *)
(* ===================================================================== *)

Lemma str_of_Z_truthy (z : Z) : truthy (str_of_Z z) = true.
Proof.
  unfold str_of_Z, NilZero.string_of_int.
  destruct (Z.to_int z) as [u|u]; [|reflexivity].
  unfold NilZero.string_of_uint. destruct u; reflexivity.
Qed.

Lemma zfill_length (w : nat) (digits : list N) :
  (w <= length (Database.zfill w digits))%nat.
Proof.
  unfold Database.zfill. rewrite length_app, repeat_length. lia.
Qed.

Lemma fmt_06d_length (z : Z) : (6 <= length (Database.fmt_06d z))%nat.
Proof.
  unfold Database.fmt_06d. destruct (z <? 0)%Z.
  - rewrite length_app.
    pose proof (zfill_length 5 (str_of_Z (- z))).
    change (length (lit "-")) with 1%nat. lia.
  - apply zfill_length.
Qed.

(** X13: when the stored counter reads as the number [c], [next_asset_id]
    returns the prefix, a dash and [c] zero-padded to at least six
    characters, stores the text of [c + 1] as the new counter (so the next
    call starts from what [int] reads there) and changes no other
    setting. When the stored counter is not a number it raises and leaves
    the settings as they were. *)
Theorem next_asset_id_advances_counter :
  forall (parse_int : list N -> option Z) (settings : gmap string (list N)),
    (forall c,
        stored_counter parse_int settings = Some c ->
        exists id settings',
          Database.next_asset_id parse_int settings = (Ok id, settings')
          /\ id = opt_or (get_setting settings "id_prefix") (lit "HOSP-EQP")
                  ++ lit "-" ++ Database.fmt_06d c
          /\ (6 <= length (Database.fmt_06d c))%nat
          /\ get_setting settings' "id_counter" = Some (str_of_Z (c + 1))
          /\ stored_counter parse_int settings'
             = parse_int (str_of_Z (c + 1))
          /\ (forall key, key <> "id_counter" ->
              get_setting settings' key = get_setting settings key))
    /\ (stored_counter parse_int settings = None ->
        exists e,
          Database.next_asset_id parse_int settings = (Raise e, settings)).
Proof.
  intros parse_int settings. split.
  - intros c Hc. unfold Database.next_asset_id.
    unfold stored_counter in Hc. rewrite Hc.
    eexists. eexists. split; [reflexivity|]. split; [reflexivity|].
    split; [apply fmt_06d_length|].
    unfold Database.set_setting, get_setting, stored_counter, get_setting.
    rewrite lookup_insert_eq. split; [reflexivity|]. split.
    + unfold or_None. rewrite str_of_Z_truthy. reflexivity.
    + intros key Hk. apply lookup_insert_ne. congruence.
  - intros Hc. unfold Database.next_asset_id.
    unfold stored_counter in Hc. rewrite Hc. eexists. reflexivity.
Qed.

Lemma next_asset_id_advances_counter_witness :
  exists id settings',
    Database.next_asset_id sample_parse_int sample_settings = (Ok id, settings')
    /\ id = opt_or (get_setting sample_settings "id_prefix") (lit "HOSP-EQP")
            ++ lit "-" ++ Database.fmt_06d 1
    /\ (6 <= length (Database.fmt_06d 1))%nat
    /\ get_setting settings' "id_counter" = Some (str_of_Z (1 + 1))
    /\ stored_counter sample_parse_int settings'
       = sample_parse_int (str_of_Z (1 + 1))
    /\ (forall key, key <> "id_counter" ->
        get_setting settings' key = get_setting sample_settings key).
Proof.
  apply (proj1 (next_asset_id_advances_counter sample_parse_int sample_settings)
           1%Z).
  vm_compute. reflexivity.
Defined.

Lemma lstrip_keeps_nonspace (s : list N) :
  existsb (fun c => negb (isspace c)) s = true ->
  existsb (fun c => negb (isspace c)) (lstrip s) = true.
Proof.
  induction s as [|c s IH]; intros H; [discriminate H|].
  cbn [lstrip]. destruct (isspace c) eqn:Hc; [|exact H].
  cbn [existsb] in H. rewrite Hc in H. apply IH. exact H.
Qed.

Lemma existsb_reversed (f : N -> bool) (s : list N) :
  existsb f (rev s) = existsb f s.
Proof.
  induction s as [|c s IH]; [reflexivity|].
  cbn [rev existsb]. rewrite existsb_app, IH. cbn [existsb].
  rewrite orb_false_r. apply orb_comm.
Qed.

Lemma strip_truthy (s : list N) :
  existsb (fun c => negb (isspace c)) s = true -> truthy (strip s) = true.
Proof.
  intros H. unfold strip, rstrip.
  apply lstrip_keeps_nonspace in H. rewrite <- existsb_reversed in H.
  apply lstrip_keeps_nonspace in H. rewrite <- existsb_reversed in H.
  destruct (rev (lstrip (rev (lstrip s)))); [discriminate H | reflexivity].
Qed.

Lemma generated_id_not_blank (prefix digits : list N) :
  truthy (strip (prefix ++ lit "-" ++ digits)) = true.
Proof.
  apply strip_truthy. rewrite !existsb_app.
  change (existsb (fun c => negb (isspace c)) (lit "-")) with true.
  rewrite orb_true_r. reflexivity.
Qed.

Lemma next_asset_id_reads parse_int (settings : gmap string (list N)) c :
  stored_counter parse_int settings = Some c ->
  Database.next_asset_id parse_int settings
  = (Ok (opt_or (get_setting settings "id_prefix") (lit "HOSP-EQP")
         ++ lit "-" ++ Database.fmt_06d c),
     <[ "id_counter" := str_of_Z (c + 1) ]> settings).
Proof.
  intros H. unfold Database.next_asset_id, Database.set_setting.
  unfold stored_counter in H. rewrite H. reflexivity.
Qed.

Lemma stored_counter_written parse_int (settings : gmap string (list N)) z :
  stored_counter parse_int (<[ "id_counter" := str_of_Z z ]> settings)
  = parse_int (str_of_Z z).
Proof.
  unfold stored_counter, get_setting. rewrite lookup_insert_eq.
  unfold or_None. rewrite str_of_Z_truthy. reflexivity.
Qed.

Lemma count_lacking_cons (row : BatchPanel.Row) rest :
  count_lacking (row :: rest)
  = ((if BatchData.lacks_id row then 1 else 0) + count_lacking rest)%nat.
Proof.
  unfold count_lacking. cbn [List.filter].
  destruct (BatchData.lacks_id row); reflexivity.
Qed.

Lemma lacks_id_filled (row : BatchPanel.Row) (prefix digits : list N) :
  BatchData.lacks_id (<[ "asset_id" := Some (prefix ++ lit "-" ++ digits) ]> row)
  = false.
Proof.
  unfold BatchData.lacks_id. rewrite lookup_insert_eq.
  destruct prefix; reflexivity.
Qed.

Lemma empty_id_filled (row : BatchPanel.Row) (prefix digits : list N) :
  empty_id (<[ "asset_id" := Some (prefix ++ lit "-" ++ digits) ]> row) = false.
Proof.
  unfold empty_id, BatchPanel.row_get. rewrite lookup_insert_eq.
  rewrite generated_id_not_blank. reflexivity.
Qed.

Lemma filled_nothing_lacking prefix (rows : list BatchPanel.Row) : forall c,
  count_lacking rows = 0%nat -> filled prefix c rows = rows.
Proof.
  induction rows as [|row rest IH]; intros c H; [reflexivity|].
  rewrite count_lacking_cons in H. cbn [filled].
  destruct (BatchData.lacks_id row); [discriminate H|].
  rewrite IH by exact H. reflexivity.
Qed.

Lemma filled_complete prefix (rows : list BatchPanel.Row) : forall c,
  count_lacking (filled prefix c rows) = 0%nat
  /\ length (filled prefix c rows) = length rows
  /\ (count_empty_ids (filled prefix c rows) <= count_empty_ids rows)%nat.
Proof.
  induction rows as [|row rest IH]; intros c; [repeat split; reflexivity|].
  cbn [filled]. destruct (BatchData.lacks_id row) eqn:Hl.
  - destruct (IH (c + 1)%Z) as [H1 [H2 H3]].
    rewrite count_lacking_cons, lacks_id_filled, !count_empty_ids_cons,
      empty_id_filled.
    cbn [length]. rewrite H1, H2. repeat split; try reflexivity.
    destruct (empty_id row); lia.
  - destruct (IH c) as [H1 [H2 H3]].
    rewrite count_lacking_cons, Hl, !count_empty_ids_cons.
    cbn [length]. rewrite H1, H2. repeat split; try reflexivity. lia.
Qed.

(** The loop of [_auto_ids] when the counter reads as [c] and the counter
    texts it writes read back as the numbers written. *)
Lemma auto_ids_loop_filled parse_int (rows : list BatchPanel.Row) :
  forall (settings : gmap string (list N)) (c : Z),
    stored_counter parse_int settings = Some c ->
    (forall k, (0 < k < count_lacking rows)%nat ->
       parse_int (str_of_Z (c + Z.of_nat k))
       = Some (c + Z.of_nat k)%Z) ->
    BatchData.auto_ids_loop parse_int settings rows
    = (Ok tt,
       filled (opt_or (get_setting settings "id_prefix") (lit "HOSP-EQP")) c rows,
       if (count_lacking rows =? 0)%nat then settings
       else <[ "id_counter" := str_of_Z (c + Z.of_nat (count_lacking rows)) ]>
              settings).
Proof.
  induction rows as [|row rest IH]; intros settings c Hc Hparse.
  - reflexivity.
  - rewrite count_lacking_cons in *. cbn [BatchData.auto_ids_loop filled].
    destruct (BatchData.lacks_id row) eqn:Hl.
    + rewrite (next_asset_id_reads _ _ _ Hc).
      set (settings1 := <[ "id_counter" := str_of_Z (c + 1) ]> settings).
      assert (Hprefix : get_setting settings1 "id_prefix"
                        = get_setting settings "id_prefix").
      { unfold settings1, get_setting. apply lookup_insert_ne. discriminate. }
      destruct (count_lacking rest) as [|n] eqn:Hn.
      * (* the last row to fill: the counter is not read again *)
        assert (Hrest : BatchData.auto_ids_loop parse_int settings1 rest
                        = (Ok tt, rest, settings1)).
        { clear IH Hparse. revert Hn. generalize settings1. clear.
          induction rest as [|r rest IH]; intros s H; [reflexivity|].
          rewrite count_lacking_cons in H. cbn [BatchData.auto_ids_loop].
          destruct (BatchData.lacks_id r); [discriminate H|].
          rewrite IH by exact H. reflexivity. }
        rewrite Hrest, filled_nothing_lacking by exact Hn.
        cbn [Nat.add Nat.eqb]. unfold settings1.
        replace (c + Z.of_nat 1)%Z with (c + 1)%Z by lia. reflexivity.
      * assert (Hc1 : stored_counter parse_int settings1 = Some (c + 1)%Z).
        { unfold settings1. rewrite stored_counter_written.
          replace (c + 1)%Z with (c + Z.of_nat 1)%Z by lia.
          apply Hparse. lia. }
        rewrite (IH settings1 (c + 1)%Z Hc1).
        2:{ intros k Hk.
            replace (c + 1 + Z.of_nat k)%Z with (c + Z.of_nat (S k))%Z by lia.
            apply Hparse. lia. }
        rewrite Hprefix. cbn [Nat.add Nat.eqb]. unfold settings1.
        rewrite insert_insert_eq.
        replace (c + 1 + Z.of_nat (S n))%Z with (c + Z.of_nat (S (S n)))%Z
          by lia.
        reflexivity.
    + rewrite (IH settings c Hc).
      2:{ intros k Hk. apply Hparse. lia. }
      reflexivity.
Qed.

Lemma auto_ids_loop_nothing_lacking parse_int (rows : list BatchPanel.Row) :
  forall (settings : gmap string (list N)),
    count_lacking rows = 0%nat ->
    BatchData.auto_ids_loop parse_int settings rows = (Ok tt, rows, settings).
Proof.
  induction rows as [|r rest IH]; intros s H; [reflexivity|].
  rewrite count_lacking_cons in H. cbn [BatchData.auto_ids_loop].
  destruct (BatchData.lacks_id r); [discriminate H|].
  rewrite IH by exact H. reflexivity.
Qed.

Lemma auto_ids_loop_unreadable parse_int (rows : list BatchPanel.Row) :
  forall (settings : gmap string (list N)),
    stored_counter parse_int settings = None ->
    (0 < count_lacking rows)%nat ->
    exists e,
      BatchData.auto_ids_loop parse_int settings rows = (Raise e, rows, settings).
Proof.
  induction rows as [|r rest IH]; intros s Hc H.
  - cbn in H. lia.
  - rewrite count_lacking_cons in H. cbn [BatchData.auto_ids_loop].
    destruct (BatchData.lacks_id r).
    + unfold Database.next_asset_id. unfold stored_counter in Hc. rewrite Hc.
      eexists. reflexivity.
    + destruct (IH s Hc) as [e He]; [lia|]. rewrite He. exists e. reflexivity.
Qed.

(** X14: [_auto_ids] gives the rows that lack an asset id (no such column,
    a [None] cell or an empty one) the ids [next_asset_id] generates, in
    their order: when the stored counter reads as [c] (and the counter
    texts written back read as the numbers written), the first such row
    gets the prefix, a dash and [c] zero-padded, the next one [c + 1], and
    so on, and the counter is left at [c] plus the number of rows filled.
    Rows that have an id, and the other columns of the rows filled, stay as
    they are; afterwards no row lacks an id, and the batch print skips no
    more rows than before. When no row lacks an id, rows and settings are
    untouched and the counter is not even read; when one does and the
    counter is not a number, [_auto_ids] raises and changes nothing. *)
Theorem auto_ids_fills_missing_ids :
  forall (parse_int : list N -> option Z) (settings : gmap string (list N))
         (rows : list BatchPanel.Row),
    (count_lacking rows = 0%nat ->
     BatchData._auto_ids parse_int settings rows
     = (Ok tt, rows, settings,
        [EvRefresh; EvLog (lit "Auto-generated missing Asset IDs") (lit "ok")]))
    /\ (forall c,
          stored_counter parse_int settings = Some c ->
          (forall k, (0 < k < count_lacking rows)%nat ->
             parse_int (str_of_Z (c + Z.of_nat k)) = Some (c + Z.of_nat k)%Z) ->
          (0 < count_lacking rows)%nat ->
          let prefix :=
            opt_or (get_setting settings "id_prefix") (lit "HOSP-EQP") in
          BatchData._auto_ids parse_int settings rows
          = (Ok tt, filled prefix c rows,
             <[ "id_counter" := str_of_Z (c + Z.of_nat (count_lacking rows)) ]>
               settings,
             [EvRefresh;
              EvLog (lit "Auto-generated missing Asset IDs") (lit "ok")])
          /\ count_lacking (filled prefix c rows) = 0%nat
          /\ length (filled prefix c rows) = length rows
          /\ (count_empty_ids (filled prefix c rows) <= count_empty_ids rows)%nat)
    /\ (stored_counter parse_int settings = None ->
        (0 < count_lacking rows)%nat ->
        exists e,
          BatchData._auto_ids parse_int settings rows
          = (Raise e, rows, settings, [])).
Proof.
  intros parse_int settings rows. split; [|split].
  - intros H. unfold BatchData._auto_ids.
    rewrite (auto_ids_loop_nothing_lacking _ _ _ H). reflexivity.
  - intros c Hc Hparse Hpos prefix.
    split; [|apply filled_complete].
    unfold BatchData._auto_ids.
    rewrite (auto_ids_loop_filled _ _ _ _ Hc Hparse).
    destruct (count_lacking rows) as [|n]; [lia|]. reflexivity.
  - intros Hc Hpos. unfold BatchData._auto_ids.
    destruct (auto_ids_loop_unreadable _ _ _ Hc Hpos) as [e He].
    rewrite He. exists e. reflexivity.
Qed.

Lemma auto_ids_fills_missing_ids_witness :
  BatchData._auto_ids sample_parse_int (<[ "id_counter" := lit "41" ]> sample_settings)
    [sample_row [] sample_name; sample_row sample_asset_id sample_name;
     short_row]
  = (Ok tt,
     [sample_row (lit "HOSP-EQP-000041") sample_name;
      sample_row sample_asset_id sample_name;
      <[ "asset_id" := Some (lit "HOSP-EQP-000042") ]> short_row],
     <[ "id_counter" := lit "43" ]> sample_settings,
     [EvRefresh; EvLog (lit "Auto-generated missing Asset IDs") (lit "ok")]).
Proof.
  pose proof (auto_ids_fills_missing_ids sample_parse_int
                (<[ "id_counter" := lit "41" ]> sample_settings)
                [sample_row [] sample_name;
                 sample_row sample_asset_id sample_name; short_row])
    as [_ [H _]].
  destruct (H 41%Z) as [Hrun _].
  - vm_compute. reflexivity.
  - intros k Hk. change (count_lacking _) with 2%nat in Hk.
    assert (k = 1%nat) as -> by lia. vm_compute. reflexivity.
  - vm_compute. lia.
  - rewrite Hrun. vm_compute. reflexivity.
Defined.

(* ===================================================================== *)
(** ** Saving the settings form *)
(* ===================================================================== *)

Lemma or_truthy (a b : list N) : truthy b = true -> truthy (or_ a b) = true.
Proof.
  intros Hb. unfold or_. destruct (truthy a) eqn:Ha; [exact Ha | exact Hb].
Qed.

Ltac lookup_saved :=
  unfold SettingsPanel._save, Database.set_setting, get_setting;
  cbn [fst];
  repeat first [ rewrite lookup_insert_eq; reflexivity
               | rewrite lookup_insert_ne by discriminate ].

(** X15: after [SettingsPanel._save], the stored port and the stored number
    of copies are never blank (a blank field is stored as "9100" and "1"),
    the text fields are stored trimmed, the print mode and the language are
    stored as selected, and every setting the form does not own keeps its
    value. *)
Theorem settings_save_read_back :
  forall (settings : gmap string (list N))
         (v_print_mode v_printer_ip v_printer_port v_usb_name v_lang v_copies
          v_prefix v_counter v_export : list N),
    let saved := fst (SettingsPanel._save settings v_print_mode v_printer_ip
                        v_printer_port v_usb_name v_lang v_copies v_prefix
                        v_counter v_export) in
    get_setting saved "print_mode" = Some v_print_mode
    /\ get_setting saved "printer_ip" = Some (strip v_printer_ip)
    /\ get_setting saved "printer_port"
       = Some (or_ (strip v_printer_port) (lit "9100"))
    /\ get_setting saved "printer_usb_name" = Some (strip v_usb_name)
    /\ get_setting saved "printer_lang" = Some v_lang
    /\ get_setting saved "printer_copies" = Some (or_ (strip v_copies) (lit "1"))
    /\ get_setting saved "id_prefix" = Some (strip v_prefix)
    /\ get_setting saved "id_counter" = Some (strip v_counter)
    /\ get_setting saved "export_dir" = Some (strip v_export)
    /\ opt_truthy (get_setting saved "printer_port") = true
    /\ opt_truthy (get_setting saved "printer_copies") = true
    /\ (forall key, ~ In key saved_keys ->
        get_setting saved key = get_setting settings key).
Proof.
  intros settings v_print_mode v_printer_ip v_printer_port v_usb_name v_lang
    v_copies v_prefix v_counter v_export saved. subst saved.
  repeat apply conj; try (lookup_saved; fail).
  - replace (get_setting _ "printer_port")
      with (Some (or_ (strip v_printer_port) (lit "9100"))) by (symmetry; lookup_saved).
    apply or_truthy. reflexivity.
  - replace (get_setting _ "printer_copies")
      with (Some (or_ (strip v_copies) (lit "1"))) by (symmetry; lookup_saved).
    apply or_truthy. reflexivity.
  - intros key Hk. unfold saved_keys in Hk. cbn [In] in Hk.
    unfold SettingsPanel._save, Database.set_setting, get_setting. cbn [fst].
    repeat (rewrite lookup_insert_ne by (intros <-; apply Hk; tauto)).
    reflexivity.
Qed.

Lemma settings_save_read_back_witness :
  get_setting
    (fst (SettingsPanel._save (<[ "theme" := lit "dark" ]> sample_settings)
            (lit "network") sample_host [] [] (lit "auto") [] [] [] []))
    "theme"
  = get_setting (<[ "theme" := lit "dark" ]> sample_settings) "theme".
Proof.
  apply (settings_save_read_back (<[ "theme" := lit "dark" ]> sample_settings)
           (lit "network") sample_host [] [] (lit "auto") [] [] [] []).
  unfold saved_keys. cbn [In].
  intros H. repeat (destruct H as [H|H]; [discriminate H|]). exact H.
Defined.

(** X16: the id generated right after [SettingsPanel._save] follows the
    form. A blank counter field restarts the numbering at 000001 whatever
    the counter was before; a blank prefix field gives the prefix
    "HOSP-EQP"; a counter field that is not a number makes
    [next_asset_id] raise, and the settings stay as saved. *)
Theorem next_asset_id_after_save :
  forall (parse_int : list N -> option Z) (settings : gmap string (list N))
         (v_print_mode v_printer_ip v_printer_port v_usb_name v_lang v_copies
          v_prefix v_counter v_export : list N),
    let saved := fst (SettingsPanel._save settings v_print_mode v_printer_ip
                        v_printer_port v_usb_name v_lang v_copies v_prefix
                        v_counter v_export) in
    let prefix := or_ (strip v_prefix) (lit "HOSP-EQP") in
    (truthy (strip v_counter) = false ->
     Database.next_asset_id parse_int saved
     = (Ok (prefix ++ lit "-000001"),
        Database.set_setting saved "id_counter" (lit "2")))
    /\ (forall c,
          truthy (strip v_counter) = true ->
          parse_int (strip v_counter) = Some c ->
          Database.next_asset_id parse_int saved
          = (Ok (prefix ++ lit "-" ++ Database.fmt_06d c),
             Database.set_setting saved "id_counter" (str_of_Z (c + 1))))
    /\ (truthy (strip v_counter) = true ->
        parse_int (strip v_counter) = None ->
        exists e, Database.next_asset_id parse_int saved = (Raise e, saved)).
Proof.
  intros parse_int settings v_print_mode v_printer_ip v_printer_port v_usb_name
    v_lang v_copies v_prefix v_counter v_export saved prefix.
  assert (Hp : get_setting saved "id_prefix" = Some (strip v_prefix))
    by (subst saved; lookup_saved).
  assert (Hc : get_setting saved "id_counter" = Some (strip v_counter))
    by (subst saved; lookup_saved).
  unfold Database.next_asset_id. rewrite Hp, Hc.
  unfold or_None, opt_or. fold prefix.
  repeat apply conj.
  - intros ->. reflexivity.
  - intros c -> ->. reflexivity.
  - intros -> ->. eexists. reflexivity.
Qed.

Lemma next_asset_id_after_save_witness :
  Database.next_asset_id sample_parse_int
    (fst (SettingsPanel._save sample_settings (lit "network") sample_host []
            [] (lit "auto") [] (lit "LAB") (lit "  ") []))
  = (Ok (lit "LAB" ++ lit "-000001"),
     Database.set_setting
       (fst (SettingsPanel._save sample_settings (lit "network") sample_host []
               [] (lit "auto") [] (lit "LAB") (lit "  ") []))
       "id_counter" (lit "2")).
Proof.
  apply (proj1 (next_asset_id_after_save sample_parse_int sample_settings
                  (lit "network") sample_host [] [] (lit "auto") []
                  (lit "LAB") (lit "  ") [])).
  reflexivity.
Defined.

(* ===================================================================== *)
(** ** The language probe of the settings form *)
(* ===================================================================== *)

(** X17: [SettingsPanel._detect_lang] never raises. Without a host it only
    shows a warning: nothing is probed and the language selector stays as
    it was. With a host it probes that host exactly once, on the port of
    the form (9100 when the field is blank or not a number), sends no
    label, and sets the selector to "ipl" or "zpl" when the probe says so;
    when the probe is inconclusive the selector keeps its value. *)
Theorem detect_lang_sets_selector :
  forall (env : Env) (v_printer_ip v_printer_port v_lang : list N)
         (tr : list Event),
    (truthy (strip v_printer_ip) = false ->
     SettingsPanel._detect_lang env v_printer_ip v_printer_port v_lang tr
     = (Ok v_lang, tr ++ [EvStatus ([9888] ++ lit " Enter IP first")]))
    /\ (truthy (strip v_printer_ip) = true ->
        exists detected selector tr',
          HoneywellPrinter.detect_language env (strip v_printer_ip)
            (probe_port env v_printer_port)
            (tr ++ [EvStatus (lit "Probing" ++ [8230])])
          = (Ok detected,
             tr ++ [EvStatus (lit "Probing" ++ [8230]);
                    EvProbe (strip v_printer_ip) (probe_port env v_printer_port)])
          /\ SettingsPanel._detect_lang env v_printer_ip v_printer_port v_lang tr
             = (Ok selector, tr')
          /\ selector = (if str_eqb detected (lit "ipl") then lit "ipl"
                         else if str_eqb detected (lit "zpl") then lit "zpl"
                         else v_lang)
          /\ count_events is_probe tr' = (count_events is_probe tr + 1)%nat
          /\ count_events is_send tr' = count_events is_send tr
          /\ In (EvProbe (strip v_printer_ip) (probe_port env v_printer_port))
                tr').
Proof.
  intros env v_printer_ip v_printer_port v_lang tr. split.
  - intros Hh. unfold SettingsPanel._detect_lang. rewrite Hh. reflexivity.
  - intros Hh.
    set (host := strip v_printer_ip) in *.
    set (port := probe_port env v_printer_port).
    set (tr1 := tr ++ [EvStatus (lit "Probing" ++ [8230])]).
    destruct (detect_language_on_total (peer env tr1 host port))
      as [detected [Hd _]].
    assert (Hrun : SettingsPanel._detect_lang env v_printer_ip v_printer_port
                     v_lang tr
                   = (if str_eqb detected (lit "ipl") then
                        (Ok (lit "ipl"),
                         (tr1 ++ [EvProbe host port])
                         ++ [EvStatus ([10004]
                                       ++ lit " Detected: IPL (Honeywell native)");
                             EvLog (lit "Printer at " ++ host
                                    ++ lit " speaking IPL") (lit "ok")])
                      else if str_eqb detected (lit "zpl") then
                        (Ok (lit "zpl"),
                         (tr1 ++ [EvProbe host port])
                         ++ [EvStatus ([10004]
                                       ++ lit " Detected: ZPL (Zebra-compatible)");
                             EvLog (lit "Printer at " ++ host
                                    ++ lit " speaking ZPL") (lit "ok")])
                      else
                        (Ok v_lang,
                         (tr1 ++ [EvProbe host port])
                         ++ [EvStatus ([9888] ++ lit " Could not detect "
                                       ++ emdash ++ lit " defaulting to ZPL");
                             EvLog (lit "Language detection inconclusive for "
                                    ++ host) (lit "warn")]))).
    { unfold SettingsPanel._detect_lang. fold host. rewrite Hh.
      cbn [negb]. fold (probe_port env v_printer_port). fold port.
      unfold log, bind, emit. fold tr1.
      rewrite detect_language_run, Hd.
      destruct (str_eqb detected (lit "ipl")); [|destruct (str_eqb detected (lit "zpl"))];
        rewrite <- !app_assoc; reflexivity. }
    assert (Hprobe : HoneywellPrinter.detect_language env host port tr1
                     = (Ok detected,
                        tr ++ [EvStatus (lit "Probing" ++ [8230]);
                               EvProbe host port])).
    { rewrite detect_language_run, Hd. unfold tr1.
      rewrite <- app_assoc. reflexivity. }
    exists detected. rewrite Hrun. clear Hrun.
    destruct (str_eqb detected (lit "ipl"));
      [|destruct (str_eqb detected (lit "zpl"))];
      (eexists; eexists;
       split; [exact Hprobe|];
       split; [reflexivity|];
       split; [reflexivity|];
       split; [|split];
       [ unfold tr1; rewrite !count_events_app;
         cbn [count_events is_probe]; lia
       | unfold tr1; rewrite !count_events_app;
         cbn [count_events is_send]; lia
       | apply in_or_app; left; apply in_or_app; right; left; reflexivity ]).
Qed.

Lemma detect_lang_sets_selector_witness :
  exists detected selector tr',
    HoneywellPrinter.detect_language (sample_env (answering [2]))
      (strip sample_host) (probe_port (sample_env (answering [2])) (lit "abc"))
      ([] ++ [EvStatus (lit "Probing" ++ [8230])])
    = (Ok detected,
       [] ++ [EvStatus (lit "Probing" ++ [8230]);
              EvProbe (strip sample_host)
                (probe_port (sample_env (answering [2])) (lit "abc"))])
    /\ SettingsPanel._detect_lang (sample_env (answering [2])) sample_host
         (lit "abc") (lit "auto") []
       = (Ok selector, tr')
    /\ selector = (if str_eqb detected (lit "ipl") then lit "ipl"
                   else if str_eqb detected (lit "zpl") then lit "zpl"
                   else lit "auto")
    /\ count_events is_probe tr' = (count_events is_probe [] + 1)%nat
    /\ count_events is_send tr' = count_events is_send []
    /\ In (EvProbe (strip sample_host)
             (probe_port (sample_env (answering [2])) (lit "abc"))) tr'.
Proof.
  apply (proj2 (detect_lang_sets_selector (sample_env (answering [2]))
                  sample_host (lit "abc") (lit "auto") [])).
  reflexivity.
Defined.

(* ===================================================================== *)
(** ** Saving a batch to the asset table *)
(* ===================================================================== *)

Lemma asset_id_exists_false (assets : list Database.Asset) (x : list N) :
  Database.asset_id_exists assets x = false ->
  x ∉ map Database.a_asset_id assets.
Proof.
  unfold Database.asset_id_exists.
  induction assets as [|a assets IH]; cbn [existsb map]; intros H.
  - apply not_elem_of_nil.
  - apply orb_false_elim in H as [Ha Hrest].
    apply not_elem_of_cons. split; [|exact (IH Hrest)].
    intros ->. rewrite str_eqb_refl in Ha. discriminate Ha.
Qed.

Lemma omap_epc_cons (a : Database.Asset) (assets : list Database.Asset) :
  omap Database.a_epc (a :: assets)
  = match Database.a_epc a with
    | Some e => e :: omap Database.a_epc assets
    | None => omap Database.a_epc assets
    end.
Proof. reflexivity. Qed.

Lemma epc_exists_false (assets : list Database.Asset) (x : list N) :
  Database.epc_exists assets x = false ->
  x ∉ omap Database.a_epc assets.
Proof.
  unfold Database.epc_exists.
  induction assets as [|a assets IH]; intros H.
  - apply not_elem_of_nil.
  - cbn [existsb] in H. apply orb_false_elim in H as [Ha Hrest].
    rewrite omap_epc_cons.
    destruct (Database.a_epc a) as [e|]; [|exact (IH Hrest)].
    apply not_elem_of_cons. split; [|exact (IH Hrest)].
    intros ->. rewrite str_eqb_refl in Ha. discriminate Ha.
Qed.

Lemma NoDup_snoc_fresh {A} (l : list A) (x : A) :
  NoDup l -> x ∉ l -> NoDup (l ++ [x]).
Proof.
  intros Hl Hx. apply NoDup_app. split; [exact Hl|]. split.
  - intros y Hy Hin. apply list_elem_of_singleton in Hin. subst y. exact (Hx Hy).
  - apply NoDup_singleton.
Qed.

Lemma insert_asset_cases it assets a :
  (Database.insert_asset it assets a = (None, assets ++ [a])
   /\ (assets_unique assets -> assets_unique (assets ++ [a])))
  \/ Database.insert_asset it assets a = (Some (it a), assets).
Proof.
  unfold Database.insert_asset.
  destruct (Database.asset_id_exists assets (Database.a_asset_id a)) eqn:Hid;
    [right; reflexivity|].
  cbn [orb].
  destruct (Database.a_epc a) as [e|] eqn:He.
  - destruct (Database.epc_exists assets e) eqn:Hepc; [right; reflexivity|].
    left. split; [reflexivity|]. intros [H1 H2]. split.
    + rewrite map_app. apply NoDup_snoc_fresh; [exact H1|].
      apply asset_id_exists_false. exact Hid.
    + rewrite omap_app, omap_epc_cons, He.
      apply NoDup_snoc_fresh; [exact H2|].
      apply epc_exists_false. exact Hepc.
  - left. split; [reflexivity|]. intros [H1 H2]. split.
    + rewrite map_app. apply NoDup_snoc_fresh; [exact H1|].
      apply asset_id_exists_false. exact Hid.
    + rewrite omap_app, omap_epc_cons, He.
      rewrite app_nil_r. exact H2.
Qed.

Lemma save_all_loop_spec it (rows : list BatchPanel.Row) :
  forallb row_saves rows = true ->
  forall saved skipped assets logged,
  exists saved' skipped' new logged',
    BatchData.save_all_loop it rows saved skipped assets logged
    = (Ok (saved', skipped'), assets ++ new, logged')
    /\ (saved' + skipped' = saved + skipped + length rows)%nat
    /\ (skipped + count_empty_ids rows <= skipped')%nat
    /\ (saved' = saved + length new)%nat
    /\ Forall (fun a => truthy (Database.a_asset_id a) = true) new
    /\ (assets_unique assets -> assets_unique (assets ++ new)).
Proof.
  intros Hreads.
  induction rows as [|row rest IH]; intros saved skipped assets logged.
  - exists saved, skipped, [], logged. rewrite app_nil_r.
    cbn [BatchData.save_all_loop length count_empty_ids].
    repeat apply conj; [reflexivity | lia | lia | lia | constructor | tauto].
  - cbn [forallb] in Hreads. apply andb_prop in Hreads as [Hrow Hrest].
    specialize (IH Hrest). unfold row_saves in Hrow.
    cbn [BatchData.save_all_loop]. rewrite count_empty_ids_cons.
    unfold empty_id. cbn [length].
    destruct (BatchPanel.row_get row "asset_id" []) as [a|] eqn:Ha;
      [|discriminate Hrow].
    destruct (BatchPanel.row_get row "epc" []) as [e|] eqn:He;
      [|discriminate Hrow].
    cbn [BatchPanel.cell_strip].
    set (aid := strip a). set (epc := or_None (Some (strip e))).
    destruct (truthy aid) eqn:Haid; cbn [negb].
    + destruct (opt_truthy epc && Database.epc_exists assets (opt_or epc [])).
      * destruct (IH saved (skipped + 1)%nat assets
                    (logged ++ [EvLog (lit "Duplicate EPC skipped: "
                                       ++ opt_or epc []) (lit "warn")]))
          as [sv [sk [new [lg [Hrun [Hsum [Hsk Hnew]]]]]]].
        exists sv, sk, new, lg. rewrite Hrun.
        repeat apply conj; [reflexivity | lia | lia | apply Hnew..].
      * destruct (insert_asset_cases it assets
                    (BatchData.asset_of_row aid epc row))
          as [[Hins Huniq] | Hins]; rewrite Hins.
        -- destruct (IH (saved + 1)%nat skipped
                       (assets ++ [BatchData.asset_of_row aid epc row]) logged)
             as [sv [sk [new [lg [Hrun [Hsum [Hsk [Hlen [Hall Hu]]]]]]]]].
           exists sv, sk, (BatchData.asset_of_row aid epc row :: new), lg.
           rewrite Hrun, <- app_assoc.
           repeat apply conj; [reflexivity | lia | lia | cbn [length]; lia | |].
           ++ constructor; [exact Haid | exact Hall].
           ++ intros Hu0. rewrite <- app_assoc in Hu. exact (Hu (Huniq Hu0)).
        -- destruct (IH saved (skipped + 1)%nat assets logged)
             as [sv [sk [new [lg [Hrun [Hsum [Hsk Hnew]]]]]]].
           exists sv, sk, new, lg. rewrite Hrun.
           repeat apply conj; [reflexivity | lia | lia | apply Hnew..].
    + destruct (IH saved (skipped + 1)%nat assets logged)
        as [sv [sk [new [lg [Hrun [Hsum [Hsk Hnew]]]]]]].
      exists sv, sk, new, lg. rewrite Hrun.
      repeat apply conj; [reflexivity | lia | lia | apply Hnew..].
Qed.

(** The loop stops at the first row with a [None] asset id or payload
    cell, with what the rows before it did. *)
Lemma save_all_loop_stops it (good : list BatchPanel.Row) bad rest :
  row_saves bad = false ->
  forall saved skipped assets logged r assets' logged',
    BatchData.save_all_loop it good saved skipped assets logged
    = (Ok r, assets', logged') ->
    exists e,
      exc_class e = AttributeError
      /\ BatchData.save_all_loop it (good ++ bad :: rest) saved skipped assets
           logged
         = (Raise e, assets', logged').
Proof.
  intros Hbad.
  induction good as [|row good IH];
    intros saved skipped assets logged r assets' logged' H.
  - cbn [BatchData.save_all_loop] in H. injection H as _ <- <-.
    cbn [app BatchData.save_all_loop]. unfold row_saves in Hbad.
    destruct (BatchPanel.row_get bad "asset_id" []) as [a|].
    + destruct (BatchPanel.row_get bad "epc" []) as [e|]; [discriminate Hbad|].
      cbn [BatchPanel.cell_strip]. eexists. split; [|reflexivity]. reflexivity.
    + cbn [BatchPanel.cell_strip]. eexists. split; [|reflexivity]. reflexivity.
  - cbn [app BatchData.save_all_loop] in *.
    destruct (BatchPanel.cell_strip (BatchPanel.row_get row "asset_id" []))
      as [aid|e1]; [|discriminate H].
    destruct (BatchPanel.cell_strip (BatchPanel.row_get row "epc" []))
      as [et|e2]; [|discriminate H].
    destruct (negb (truthy aid)); [exact (IH _ _ _ _ _ _ _ H)|].
    destruct (_ && _); [exact (IH _ _ _ _ _ _ _ H)|].
    destruct (Database.insert_asset _ _ _) as [[txt|] as1];
      exact (IH _ _ _ _ _ _ _ H).
Qed.

(** X18: when the asset id and the payload cell of every row hold text,
    [_save_all] accounts for every row: saved plus skipped is the number
    of rows, and every row whose asset id is blank is among the skipped.
    The asset table only grows, at its end, by exactly [saved] assets, each
    with a non-blank asset id; no stored asset is changed or removed; when
    asset ids and EPCs were unique in the table before, they are unique
    afterwards; and the summary line logged last carries the two counts.
    At the first row of which one of these cells is [None] (a short CSV
    line) [_save_all] raises [AttributeError]: the rows before it are
    saved as usual, and no summary is logged. *)
Theorem save_all_accounts_for_rows :
  forall (integrity_text : Database.Asset -> list N)
         (rows : list BatchPanel.Row) (assets : list Database.Asset),
    (forallb row_saves rows = true ->
     exists saved skipped new warnings,
       BatchData._save_all integrity_text rows assets
       = (Ok (saved, skipped), assets ++ new,
          warnings
          ++ [EvLog (lit "Batch save: " ++ str_of_nat saved
                     ++ lit " saved, " ++ str_of_nat skipped
                     ++ lit " skipped") (lit "ok");
              EvRefresh])
       /\ (saved + skipped = length rows)%nat
       /\ (count_empty_ids rows <= skipped)%nat
       /\ length new = saved
       /\ Forall (fun a => truthy (Database.a_asset_id a) = true) new
       /\ (assets_unique assets -> assets_unique (assets ++ new)))
    /\ (forall good bad rest,
          rows = good ++ bad :: rest ->
          forallb row_saves good = true ->
          row_saves bad = false ->
          exists e saved skipped new warnings,
            exc_class e = AttributeError
            /\ BatchData._save_all integrity_text good assets
               = (Ok (saved, skipped), assets ++ new,
                  warnings
                  ++ [EvLog (lit "Batch save: " ++ str_of_nat saved
                             ++ lit " saved, " ++ str_of_nat skipped
                             ++ lit " skipped") (lit "ok");
                      EvRefresh])
            /\ BatchData._save_all integrity_text rows assets
               = (Raise e, assets ++ new, warnings)).
Proof.
  intros it rows assets. split.
  - intros Hreads. unfold BatchData._save_all.
    destruct (save_all_loop_spec it rows Hreads 0%nat 0%nat assets [])
      as [sv [sk [new [lg [Hrun [Hsum [Hsk [Hlen [Hall Hu]]]]]]]]].
    rewrite Hrun. exists sv, sk, new, lg.
    repeat apply conj; [reflexivity | lia | lia | lia | exact Hall | exact Hu].
  - intros good bad rest -> Hgood Hbad. unfold BatchData._save_all.
    destruct (save_all_loop_spec it good Hgood 0%nat 0%nat assets [])
      as [sv [sk [new [lg [Hrun _]]]]].
    destruct (save_all_loop_stops it good bad rest Hbad _ _ _ _ _ _ _ Hrun)
      as [e [He Hstop]].
    rewrite Hrun, Hstop. exists e, sv, sk, new, lg.
    repeat apply conj; [exact He | reflexivity | reflexivity].
Qed.

Lemma save_all_accounts_for_rows_witness :
  (exists saved skipped new warnings,
      BatchData._save_all (fun _ => lit "UNIQUE constraint failed")
        [sample_row sample_asset_id sample_name; sample_row [] sample_name] []
      = (Ok (saved, skipped), [] ++ new,
         warnings
         ++ [EvLog (lit "Batch save: " ++ str_of_nat saved
                    ++ lit " saved, " ++ str_of_nat skipped
                    ++ lit " skipped") (lit "ok");
             EvRefresh])
      /\ (saved + skipped = 2)%nat
      /\ (1 <= skipped)%nat)
  /\ (exists e,
         exc_class e = AttributeError
         /\ BatchData._save_all (fun _ => lit "UNIQUE constraint failed")
              [sample_row sample_asset_id sample_name; short_row] []
            = (Raise e,
               [BatchData.asset_of_row sample_asset_id None
                  (sample_row sample_asset_id sample_name)], [])).
Proof.
  split.
  - destruct (proj1 (save_all_accounts_for_rows
                       (fun _ => lit "UNIQUE constraint failed")
                       [sample_row sample_asset_id sample_name;
                        sample_row [] sample_name] []))
      as [sv [sk [new [lg [Hrun [Hsum [Hsk _]]]]]]].
    + vm_compute. reflexivity.
    + exists sv, sk, new, lg. split; [exact Hrun|]. split; [exact Hsum|].
      exact Hsk.
  - destruct (proj2 (save_all_accounts_for_rows
                       (fun _ => lit "UNIQUE constraint failed")
                       [sample_row sample_asset_id sample_name; short_row] [])
                [sample_row sample_asset_id sample_name] short_row []
                eq_refl eq_refl eq_refl)
      as [e [sv [sk [new [lg [He [Hgood Hrun]]]]]]].
    exists e. split; [exact He|]. rewrite Hrun.
    vm_compute in Hgood. injection Hgood as _ _ <- Hlg.
    destruct lg as [|x [|y [|z lg]]]; try discriminate Hlg.
    reflexivity.
Defined.
